(** * Device-Type-Library-Import-Script: reconciliation engine

    A shallow embedding of the importer scripts [netbox_module.py],
    [netbox_rack.py], [netbox_manufacturer.py], [module_type_tracker.py] and
    [device_type_tracker.py], and the properties of the reconciliation
    engine proved about it.

    Conventions of the embedding:
    - a Python [str] is a [string]; its characters are code points below
      256 (Latin-1), which is where [str.lower] and [str.strip] are
      modelled;
    - YAML scalars are [value]s ([None], booleans, integers, strings);
      floating point numbers are left out;
    - a Python [dict] used as a map is a [gmap]; a parsed YAML mapping whose
      source order is observable is an association list;
    - remote calls, the progress ledger and the per-item error log are
      threaded through an explicit state; Python exceptions are the [Raise]
      result of a small state-and-error monad. *)

From Stdlib Require Import ZArith Ascii String List Lia Bool.
From stdpp Require Import base option list gmap strings pretty fin_maps.

Local Open Scope string_scope.
Local Open Scope list_scope.
Local Open Scope Z_scope.

(** ** Python strings *)

Module PyStr.

Definition code (c : ascii) : N := N_of_ascii c.

Definition in_range (lo hi : N) (c : ascii) : bool :=
  ((lo <=? code c) && (code c <=? hi))%N.

(** [str.isspace] on one character, for code points below 256. *)
Definition isspace (c : ascii) : bool :=
  in_range 9 13 c || in_range 28 32 c
  || (code c =? 133)%N || (code c =? 160)%N.

Definition is_upper_ascii (c : ascii) : bool := in_range 65 90 c.
Definition is_lower_ascii (c : ascii) : bool := in_range 97 122 c.
Definition is_digit (c : ascii) : bool := in_range 48 57 c.

(** Latin-1 capital letters: A-Z and U+00C0..U+00DE without U+00D7. *)
Definition is_upper (c : ascii) : bool :=
  is_upper_ascii c
  || (in_range 192 222 c && negb (code c =? 215)%N).

Definition lower_char (c : ascii) : ascii :=
  if is_upper c then ascii_of_N (code c + 32) else c.

Definition chars (s : string) : list ascii := list_ascii_of_string s.
Definition str (l : list ascii) : string := string_of_list_ascii l.

Fixpoint lstrip_by (p : ascii -> bool) (l : list ascii) : list ascii :=
  match l with
  | [] => []
  | c :: r => if p c then lstrip_by p r else l
  end.

Definition strip_by (p : ascii -> bool) (l : list ascii) : list ascii :=
  rev (lstrip_by p (rev (lstrip_by p l))).

(** [s.strip()], [s.lower()], [s.strip("-")], [s.replace("&", "and")]. *)
Definition strip (s : string) : string := str (strip_by isspace (chars s)).
Definition lower (s : string) : string := str (map lower_char (chars s)).

Definition is_hyphen (c : ascii) : bool := (code c =? 45)%N.
Definition is_amp (c : ascii) : bool := (code c =? 38)%N.

Definition strip_hyphens (s : string) : string :=
  str (strip_by is_hyphen (chars s)).

Definition replace_amp (s : string) : string :=
  str (flat_map (fun c => if is_amp c then chars "and" else [c]) (chars s)).

(** [re.sub(r"<class>+", "-", s)]: every maximal run of characters of
    the class [p] becomes one hyphen.  [in_run] tells that the previous
    character belonged to the run being replaced. *)
Fixpoint sub_runs (p : ascii -> bool) (in_run : bool) (l : list ascii)
  : list ascii :=
  match l with
  | [] => []
  | c :: r =>
      if p c
      then if in_run then sub_runs p true r
           else "-"%char :: sub_runs p true r
      else c :: sub_runs p false r
  end.

(** [re.sub(r"-{2,}", "-", s)]: a run of two or more hyphens becomes one
    hyphen; a lone hyphen is not matched and stays.  [pending] counts the
    hyphens of the run being read. *)
Definition flush_hyphens (pending : nat) : list ascii :=
  match pending with
  | O => []
  | S O => ["-"%char]        (* not matched: kept *)
  | S (S _) => ["-"%char]    (* matched: replaced by one hyphen *)
  end.

Fixpoint sub_hyphens2_from (pending : nat) (l : list ascii) : list ascii :=
  match l with
  | [] => flush_hyphens pending
  | c :: r =>
      if is_hyphen c then sub_hyphens2_from (S pending) r
      else flush_hyphens pending ++ c :: sub_hyphens2_from O r
  end.

Definition sub_hyphens2 (l : list ascii) : list ascii :=
  sub_hyphens2_from O l.

(** The class [[^a-z0-9]]. *)
Definition not_slug_char (c : ascii) : bool :=
  negb (is_lower_ascii c || is_digit c).

End PyStr.

(** ** The slug derivation as the specification words it

    Follows the specification: lowercase, trim, replace [&] with [and],
    collapse any run of non-alphanumeric characters to a single hyphen,
    trim leading and trailing hyphens.  Alphanumeric is read as an ASCII
    letter or digit. *)

Module SlugSpec.
Definition is_alnum (c : ascii) : bool :=
  PyStr.is_lower_ascii c || PyStr.is_upper_ascii c || PyStr.is_digit c.

Definition slug (name : string) : string :=
  let s := PyStr.lower name in
  let s := PyStr.strip s in
  let s := PyStr.replace_amp s in
  let s :=
    PyStr.str (PyStr.sub_runs (fun c => negb (is_alnum c)) false
                              (PyStr.chars s)) in
  PyStr.strip_hyphens s.
End SlugSpec.

(** ** Python and YAML values *)

(** YAML scalars. *)
Inductive value :=
| VNone
| VBool (b : bool)
| VInt (z : Z)
| VStr (s : string).

(** An element of a YAML sequence: a scalar or a mapping of scalars. *)
Inductive elem :=
| EVal (v : value)
| EMap (m : gmap string value).

(** The value of a key of a definition document. *)
Inductive node :=
| Scalar (v : value)
| List (l : list elem)
| Map (m : gmap string value).

#[global] Instance value_eq_dec : EqDecision value.
Proof. solve_decision. Defined.
#[global] Instance elem_eq_dec : EqDecision elem.
Proof. solve_decision. Defined.
#[global] Instance node_eq_dec : EqDecision node.
Proof. solve_decision. Defined.

(** A parsed definition document: a mapping in source order. *)
Definition doc : Type := list (string * node).

(** What [yaml.safe_load] returns for one element of the top level. *)
Inductive yaml_doc :=
| YDoc (d : doc)
| YOther.

Inductive raw :=
| RawNone
| RawOne (y : yaml_doc)
| RawList (l : list yaml_doc).

Module Py.

(** Truth value of an object. *)
Definition truthy (v : value) : bool :=
  match v with
  | VNone => false
  | VBool b => b
  | VInt z => negb (z =? 0)
  | VStr s => negb (String.eqb s "")
  end.

Definition truthy_node (n : node) : bool :=
  match n with
  | Scalar v => truthy v
  | List l => match l with [] => false | _ => true end
  | Map m => negb (bool_decide (m = ∅))
  end.

(** [str(v)] on a scalar. *)
Definition str (v : value) : string :=
  match v with
  | VNone => "None"
  | VBool true => "True"
  | VBool false => "False"
  | VInt z => pretty z
  | VStr s => s
  end.

(** [isinstance(v, int)]: [bool] is a subclass of [int]. *)
Definition is_int (v : value) : bool :=
  match v with
  | VBool _ | VInt _ => true
  | _ => false
  end.

(** [a == b] on scalars: [True == 1] and [False == 0]. *)
Definition eqb (a b : value) : bool :=
  match a, b with
  | VNone, VNone => true
  | VBool x, VBool y => Bool.eqb x y
  | VInt x, VInt y => x =? y
  | VBool x, VInt y | VInt y, VBool x => (if x then 1 else 0) =? y
  | VStr x, VStr y => String.eqb x y
  | _, _ => false
  end.

(** [d.get(k)] on a mapping kept in source order. *)
Fixpoint get {A} (k : string) (d : list (string * A)) : option A :=
  match d with
  | [] => None
  | (k', v) :: r => if String.eqb k k' then Some v else get k r
  end.

(** [x in (a, b, ...)] on strings. *)
Definition str_in (s : string) (l : list string) : bool :=
  existsb (String.eqb s) l.

(** [int(s)] on a [str]: surrounding white space, an optional sign, then
    decimal digits with single underscores between them. *)
Fixpoint digits (acc : Z) (after_digit : bool) (l : list ascii) : option Z :=
  match l with
  | [] => if after_digit then Some acc else None
  | c :: r =>
      if PyStr.is_digit c
      then digits (10 * acc + (Z.of_N (PyStr.code c) - 48)) true r
      else if (PyStr.code c =? 95)%N && after_digit
           then digits acc false r
           else None
  end.

Definition int_of_str (s : string) : option Z :=
  match PyStr.strip_by PyStr.isspace (PyStr.chars s) with
  | [] => None
  | c :: r =>
      if (PyStr.code c =? 45)%N then Z.opp <$> digits 0 false r
      else if (PyStr.code c =? 43)%N then digits 0 false r
      else digits 0 false (c :: r)
  end.

(** [int(v)]; [None] stands for the [TypeError] or [ValueError]. *)
Definition int (n : node) : option Z :=
  match n with
  | Scalar (VInt z) => Some z
  | Scalar (VBool b) => Some (if b then 1 else 0)
  | Scalar (VStr s) => int_of_str s
  | _ => None
  end.

Definition is_none (v : value) : bool :=
  match v with
  | VNone => true
  | _ => false
  end.

(** [l.remove(x)]: the first occurrence goes. *)
Fixpoint remove_first (x : string) (l : list string) : list string :=
  match l with
  | [] => []
  | y :: r => if String.eqb x y then r else y :: remove_first x r
  end.

End Py.

(** ** Results and exceptions *)

Inductive res (A : Type) :=
| Ok (a : A)
| Raise (msg : string).
Arguments Ok {A} a.
Arguments Raise {A} msg.

(** ** The progress ledger *)

Inductive status := Pending | Created | Failed | Skipped.

#[global] Instance status_eq_dec : EqDecision status.
Proof. solve_decision. Defined.

Module Ledger.

(** One tracked definition file.  [None] in [created_at],
    [error_message] and [netbox_id] is Python's [None]. *)
Record entry := {
  full_path : string;
  manufacturer : node;
  model : node;
  slug : node;
  item_status : status;
  created_at : option nat;
  error_message : option string;
  netbox_id : option Z;
}.

Record progress := {
  p_created_at : nat;
  last_updated : nat;
  total_files : nat;
  processed_count : nat;
  failed_count : nat;
  items : gmap string entry;
}.

(** A tracker object with the part of the environment it touches:
    the tracking file, the number of write attempts made on it, whether
    the file system accepts a write, and the clock read by
    [datetime.now()]. *)
Record t := {
  progress_data : progress;
  tracking_file : option progress;
  writes : nat;
  fs_ok : bool;
  clock : nat;
}.

(** One file found by the directory scan, with what reading and parsing
    it gives and the name of its parent directory. *)
Record found_file := {
  ff_full : string;
  ff_rel : string;
  ff_parsed : res raw;
  ff_parent : string;
}.

Definition set_items (f : gmap string entry -> gmap string entry)
  (p : progress) : progress :=
  {| p_created_at := p_created_at p; last_updated := last_updated p;
     total_files := total_files p; processed_count := processed_count p;
     failed_count := failed_count p; items := f (items p) |}.

Definition set_progress (f : progress -> progress) (tr : t) : t :=
  {| progress_data := f (progress_data tr);
     tracking_file := tracking_file tr; writes := writes tr;
     fs_ok := fs_ok tr; clock := clock tr |}.

Definition tick (tr : t) : t :=
  {| progress_data := progress_data tr;
     tracking_file := tracking_file tr; writes := writes tr;
     fs_ok := fs_ok tr; clock := S (clock tr) |}.

(** [sum(1 for dt in items.values() if dt["status"] == st)] *)
Definition count_status (st : status) (m : gmap string entry) : nat :=
  length (filter (fun kv => item_status kv.2 = st) (map_to_list m)).

End Ledger.

(** ** [module_type_tracker.ModuleTypeTracker] *)

Module ModuleTypeTracker.
Import Ledger.

(** [load_progress]: the content of the tracking file when it exists and
    parses ([Some p]), otherwise a new structure stamped with the current
    time. *)
Definition load_progress (file : option progress) (now : nat) : progress :=
  match file with
  | Some p => p
  | None =>
      {| p_created_at := now; last_updated := S now; total_files := 0;
         processed_count := 0; failed_count := 0; items := ∅ |}
  end.

(** [__init__] *)
Definition init (file : option progress) (ok : bool) (now : nat) : t :=
  {| progress_data := load_progress file now; tracking_file := file;
     writes := 0; fs_ok := ok; clock := now + 2 |}.

(** [save_progress]: an [IOError] is caught and only printed. *)
Definition save_progress (tr : t) : t :=
  let p := progress_data tr in
  let p' := {| p_created_at := p_created_at p; last_updated := clock tr;
               total_files := total_files p;
               processed_count := processed_count p;
               failed_count := failed_count p; items := items p |} in
  {| progress_data := p';
     tracking_file := if fs_ok tr then Some p' else tracking_file tr;
     writes := S (writes tr); fs_ok := fs_ok tr; clock := S (clock tr) |}.

(** [extract_module_info] *)
Definition extract_module_info (f : found_file) : gmap string node :=
  let of_dict (d : doc) : gmap string node :=
    let man := match Py.get "manufacturer" d with
               | Some n => if Py.truthy_node n then n
                           else Scalar (VStr (ff_parent f))
               | None => Scalar (VStr (ff_parent f))
               end in
    <["manufacturer" := man]>
      (<["model" := default (Scalar (VStr "")) (Py.get "model" d)]>
         (<["slug" := default (Scalar (VStr "")) (Py.get "slug" d)]>
            (<["description" :=
                 default (Scalar (VStr "")) (Py.get "description" d)]> ∅)))
  in
  match ff_parsed f with
  | Raise _ => ∅
  | Ok RawNone => ∅
  | Ok (RawOne (YDoc d)) => of_dict d
  | Ok (RawOne YOther) => ∅
  | Ok (RawList []) => of_dict []
  | Ok (RawList (YDoc d :: _)) => of_dict d
  | Ok (RawList (YOther :: _)) => ∅
  end.

Definition new_entry (f : found_file) : entry :=
  let module_info := extract_module_info f in
  {| full_path := ff_full f;
     manufacturer := default (Scalar VNone) (module_info !! "manufacturer");
     model := default (Scalar VNone) (module_info !! "model");
     slug := default (Scalar VNone) (module_info !! "slug");
     item_status := Pending;
     created_at := None;
     error_message := None;
     netbox_id := None |}.

(** The body of the loop over the files found. *)
Definition register (m : gmap string entry) (f : found_file)
  : gmap string entry :=
  match m !! ff_rel f with
  | Some _ => m
  | None => <[ff_rel f := new_entry f]> m
  end.


(** [get_pending_module_types] *)
Definition get_pending_module_types (tr : t) : list (string * entry) :=
  filter (fun kv => item_status kv.2 = Pending)
         (map_to_list (items (progress_data tr))).

(** [mark_as_created] *)
Definition mark_as_created (relative_path : string) (nb_id : option Z)
  (tr : t) : t :=
  match items (progress_data tr) !! relative_path with
  | None => tr
  | Some e =>
      let now := clock tr in
      let e' := {| full_path := full_path e; manufacturer := manufacturer e;
                   model := model e; slug := slug e;
                   item_status := Created;
                   created_at := Some now;
                   error_message := error_message e;
                   netbox_id := match nb_id with
                                | Some i => if i =? 0 then netbox_id e
                                            else Some i
                                | None => netbox_id e
                                end |} in
      let p := progress_data tr in
      let its := <[relative_path := e']> (items p) in
      let p' := {| p_created_at := p_created_at p;
                   last_updated := last_updated p;
                   total_files := total_files p;
                   processed_count := count_status Created its;
                   failed_count := failed_count p; items := its |} in
      save_progress (set_progress (fun _ => p') (tick tr))
  end.

(** [mark_as_failed] *)
Definition mark_as_failed (relative_path : string) (message : string)
  (tr : t) : t :=
  match items (progress_data tr) !! relative_path with
  | None => tr
  | Some e =>
      let e' := {| full_path := full_path e; manufacturer := manufacturer e;
                   model := model e; slug := slug e;
                   item_status := Failed;
                   created_at := created_at e;
                   error_message := Some message;
                   netbox_id := netbox_id e |} in
      let p := progress_data tr in
      let its := <[relative_path := e']> (items p) in
      let p' := {| p_created_at := p_created_at p;
                   last_updated := last_updated p;
                   total_files := total_files p;
                   processed_count := processed_count p;
                   failed_count := count_status Failed its; items := its |} in
      save_progress (set_progress (fun _ => p') tr)
  end.

(** [mark_as_skipped] *)
Definition mark_as_skipped (relative_path : string) (reason : string)
  (tr : t) : t :=
  match items (progress_data tr) !! relative_path with
  | None => tr
  | Some e =>
      let e' := {| full_path := full_path e; manufacturer := manufacturer e;
                   model := model e; slug := slug e;
                   item_status := Skipped;
                   created_at := created_at e;
                   error_message := Some reason;
                   netbox_id := netbox_id e |} in
      save_progress
        (set_progress (set_items (fun its => <[relative_path := e']> its)) tr)
  end.

End ModuleTypeTracker.

(** ** [device_type_tracker.DeviceTypeTracker] *)

Module DeviceTypeTracker.
Import Ledger.

(** [load_progress]: the content of the tracking file when it exists and
    parses ([Some p]), otherwise a new structure stamped with the current
    time. *)
Definition load_progress (file : option progress) (now : nat) : progress :=
  match file with
  | Some p => p
  | None =>
      {| p_created_at := now; last_updated := S now; total_files := 0;
         processed_count := 0; failed_count := 0; items := ∅ |}
  end.

(** [__init__] *)
Definition init (file : option progress) (ok : bool) (now : nat) : t :=
  {| progress_data := load_progress file now; tracking_file := file;
     writes := 0; fs_ok := ok; clock := now + 2 |}.

(** [save_progress]: an [IOError] is caught and only printed. *)
Definition save_progress (tr : t) : t :=
  let p := progress_data tr in
  let p' := {| p_created_at := p_created_at p; last_updated := clock tr;
               total_files := total_files p;
               processed_count := processed_count p;
               failed_count := failed_count p; items := items p |} in
  {| progress_data := p';
     tracking_file := if fs_ok tr then Some p' else tracking_file tr;
     writes := S (writes tr); fs_ok := fs_ok tr; clock := S (clock tr) |}.

(** [extract_device_info] *)
Definition extract_device_info (f : found_file) : gmap string node :=
  let of_dict (d : doc) : gmap string node :=
    let man := match Py.get "manufacturer" d with
               | Some n => if Py.truthy_node n then n
                           else Scalar (VStr (ff_parent f))
               | None => Scalar (VStr (ff_parent f))
               end in
    <["manufacturer" := man]>
      (<["model" := default (Scalar (VStr "")) (Py.get "model" d)]>
         (<["slug" := default (Scalar (VStr "")) (Py.get "slug" d)]>
            (<["description" :=
                 default (Scalar (VStr "")) (Py.get "description" d)]> ∅)))
  in
  match ff_parsed f with
  | Raise _ => ∅
  | Ok RawNone => ∅
  | Ok (RawOne (YDoc d)) => of_dict d
  | Ok (RawOne YOther) => ∅
  | Ok (RawList []) => of_dict []
  | Ok (RawList (YDoc d :: _)) => of_dict d
  | Ok (RawList (YOther :: _)) => ∅
  end.

Definition new_entry (f : found_file) : entry :=
  let device_info := extract_device_info f in
  {| full_path := ff_full f;
     manufacturer := default (Scalar VNone) (device_info !! "manufacturer");
     model := default (Scalar VNone) (device_info !! "model");
     slug := default (Scalar VNone) (device_info !! "slug");
     item_status := Pending;
     created_at := None;
     error_message := None;
     netbox_id := None |}.

(** The body of the loop over the files found. *)
Definition register (m : gmap string entry) (f : found_file)
  : gmap string entry :=
  match m !! ff_rel f with
  | Some _ => m
  | None => <[ff_rel f := new_entry f]> m
  end.

(** [scan_device_types]; [dir] is [None] when the directory is missing,
    otherwise the files the two glob patterns give. *)
Definition scan_device_types (dir : option (list found_file)) (tr : t)
  : bool * t :=
  match dir with
  | None => (false, tr)
  | Some [] => (false, tr)
  | Some files =>
      let p := progress_data tr in
      let p1 := {| p_created_at := p_created_at p;
                   last_updated := last_updated p;
                   total_files := length files;
                   processed_count := processed_count p;
                   failed_count := failed_count p;
                   items := foldl register (items p) files |} in
      (true, save_progress (set_progress (fun _ => p1) tr))
  end.

(** [get_pending_device_types] *)
Definition get_pending_device_types (tr : t) : list (string * entry) :=
  filter (fun kv => item_status kv.2 = Pending)
         (map_to_list (items (progress_data tr))).

(** [mark_as_created] *)
Definition mark_as_created (relative_path : string) (nb_id : option Z)
  (tr : t) : t :=
  match items (progress_data tr) !! relative_path with
  | None => tr
  | Some e =>
      let now := clock tr in
      let e' := {| full_path := full_path e; manufacturer := manufacturer e;
                   model := model e; slug := slug e;
                   item_status := Created;
                   created_at := Some now;
                   error_message := error_message e;
                   netbox_id := match nb_id with
                                | Some i => if i =? 0 then netbox_id e
                                            else Some i
                                | None => netbox_id e
                                end |} in
      let p := progress_data tr in
      let its := <[relative_path := e']> (items p) in
      let p' := {| p_created_at := p_created_at p;
                   last_updated := last_updated p;
                   total_files := total_files p;
                   processed_count := count_status Created its;
                   failed_count := failed_count p; items := its |} in
      save_progress (set_progress (fun _ => p') (tick tr))
  end.

(** [mark_as_failed] *)
Definition mark_as_failed (relative_path : string) (message : string)
  (tr : t) : t :=
  match items (progress_data tr) !! relative_path with
  | None => tr
  | Some e =>
      let e' := {| full_path := full_path e; manufacturer := manufacturer e;
                   model := model e; slug := slug e;
                   item_status := Failed;
                   created_at := created_at e;
                   error_message := Some message;
                   netbox_id := netbox_id e |} in
      let p := progress_data tr in
      let its := <[relative_path := e']> (items p) in
      let p' := {| p_created_at := p_created_at p;
                   last_updated := last_updated p;
                   total_files := total_files p;
                   processed_count := processed_count p;
                   failed_count := count_status Failed its; items := its |} in
      save_progress (set_progress (fun _ => p') tr)
  end.

(** [mark_as_skipped] *)
Definition mark_as_skipped (relative_path : string) (reason : string)
  (tr : t) : t :=
  match items (progress_data tr) !! relative_path with
  | None => tr
  | Some e =>
      let e' := {| full_path := full_path e; manufacturer := manufacturer e;
                   model := model e; slug := slug e;
                   item_status := Skipped;
                   created_at := created_at e;
                   error_message := Some reason;
                   netbox_id := netbox_id e |} in
      save_progress
        (set_progress (set_items (fun its => <[relative_path := e']> its)) tr)
  end.

End DeviceTypeTracker.

(** ** The remote inventory client *)

(** A tag of an entity as the client shows it: an object with an [id], or
    a bare id. *)
Inductive tagref :=
| TagObj (id : Z)
| TagId (id : Z).

(** The value of an attribute of a remote entity: plain data, or a nested
    entity of which the [id] is visible. *)
Inductive attr :=
| Plain (n : node)
| Nested (id : Z).

(** A remote entity: [rec_tags = None] is an entity without a [tags]
    attribute. *)
Record record := {
  rec_id : Z;
  rec_attrs : gmap string attr;
  rec_tags : option (list tagref);
}.

(** The client is a parameter of the engine: [W] is the state of the
    remote system, endpoints are named as in [netbox.dcim.<name>] and
    [netbox.extras.<name>].  Reads do not change the remote state; each
    call may raise. *)
Class Remote (W : Type) := {
  nb_get : string -> gmap string node -> W -> res (option record);
  nb_filter : string -> gmap string node -> W -> res (list record);
  nb_create : string -> gmap string node -> W -> res record * W;
  nb_update : string -> Z -> gmap string node -> W -> res unit * W;
  nb_resource : string -> W -> bool;
}.

(** A write call issued to the client. *)
Inductive call :=
| Create (endpoint : string) (payload : gmap string node)
| Update (endpoint : string) (id : Z) (payload : gmap string node).

(** What reconciling one sub-template gives: the pairs
    [("created", id)], [("updated", id)], [("skipped", id)] and
    [("error", message)]. *)
Inductive outcome :=
| OCreated (id : Z)
| OUpdated (id : Z)
| OSkipped (id : Z)
| OError (msg : string).

(** The state threaded through [netbox_module]: the remote system, the
    write calls issued so far (latest first), the tracker when one is
    given, and the records appended to the per-item error logs (latest
    first; each with the relative path naming the log). *)
Record state (W : Type) := {
  world : W;
  calls : list call;
  tracker : option Ledger.t;
  errlog : list (option string * string);
}.
Arguments world {W} _.
Arguments calls {W} _.
Arguments tracker {W} _.
Arguments errlog {W} _.

Definition M (W A : Type) : Type := state W -> res A * state W.

Definition ret {W A} (a : A) : M W A := fun s => (Ok a, s).
Definition raise {W A} (msg : string) : M W A := fun s => (Raise msg, s).
Definition bind {W A B} (m : M W A) (k : A -> M W B) : M W B :=
  fun s => match m s with
           | (Ok a, s') => k a s'
           | (Raise e, s') => (Raise e, s')
           end.
(** [try: m  except Exception as e: h e] *)
Definition try_except {W A} (m : M W A) (h : string -> M W A) : M W A :=
  fun s => match m s with
           | (Ok a, s') => (Ok a, s')
           | (Raise e, s') => h e s'
           end.

Notation "x <- m ;; k" := (bind m (fun x => k))
  (at level 100, m at next level, right associativity).
Notation "m ;;; k" := (bind m (fun _ => k))
  (at level 100, right associativity).

(** Lifting a result computed without effect. *)
Definition lift {W A} (r : res A) : M W A := fun s => (r, s).

Fixpoint for_each {W A} (f : A -> M W unit) (l : list A) : M W unit :=
  match l with
  | [] => ret tt
  | a :: r => f a ;;; for_each f r
  end.

(** Calls to the client inside the monad; every write call is recorded,
    whether the remote system accepts it or raises. *)
Module Client.
Section with_remote.
Context {W : Type} {R : Remote W}.

Definition get (ep : string) (crit : gmap string node)
  : M W (option record) :=
  fun s => (nb_get ep crit (world s), s).

Definition filter (ep : string) (crit : gmap string node)
  : M W (list record) :=
  fun s => (nb_filter ep crit (world s), s).

Definition create (ep : string) (payload : gmap string node)
  : M W record :=
  fun s =>
    let '(r, w') := nb_create ep payload (world s) in
    (r, {| world := w'; calls := Create ep payload :: calls s;
           tracker := tracker s; errlog := errlog s |}).

Definition update (ep : string) (id : Z) (payload : gmap string node)
  : M W unit :=
  fun s =>
    let '(r, w') := nb_update ep id payload (world s) in
    (r, {| world := w'; calls := Update ep id payload :: calls s;
           tracker := tracker s; errlog := errlog s |}).

Definition resource_available (ep : string) : M W bool :=
  fun s => (Ok (nb_resource ep (world s)), s).
End with_remote.

(** A payload of scalars as it is sent. *)
Definition wire (payload : gmap string value) : gmap string node :=
  Scalar <$> payload.

(** A list of ids as it is sent for the [tags] field. *)
Definition ids (l : list Z) : node := List ((fun i => EVal (VInt i)) <$> l).
End Client.

(** ** [netbox_manufacturer] *)

Module NetboxManufacturer.
(** [slugify] *)
Definition slugify (name : string) : string :=
  let name := PyStr.lower (PyStr.strip name) in
  let name := PyStr.replace_amp name in
  let name :=
    PyStr.str (PyStr.sub_runs PyStr.not_slug_char false (PyStr.chars name)) in
  let name := PyStr.strip_hyphens name in
  let name := PyStr.str (PyStr.sub_hyphens2 (PyStr.chars name)) in
  name.
End NetboxManufacturer.

(** ** [netbox_rack] *)

Module NetboxRack.
(** [slugify]; on a [str], [name or ""] is [name]. *)
Definition slugify (name : string) : string :=
  let s := PyStr.lower (PyStr.strip name) in
  let s := PyStr.replace_amp s in
  let s :=
    PyStr.str (PyStr.sub_runs PyStr.not_slug_char false (PyStr.chars s)) in
  let s := PyStr.strip_hyphens s in
  let s := PyStr.str (PyStr.sub_hyphens2 (PyStr.chars s)) in
  s.

(** [tag.id if hasattr(tag, 'id') else int(tag)] *)
Definition tag_id (tg : tagref) : Z :=
  match tg with
  | TagObj i => i
  | TagId i => i
  end.

(** The ids of [list(existing.tags)], or [[]] when the entity has no
    [tags] attribute or an empty one. *)
Definition current_tag_ids (existing : record) : list Z :=
  match rec_tags existing with
  | Some tags => tag_id <$> tags
  | None => []
  end.

(** [has_valid_tag] *)
Definition has_valid_tag (existing : record) (valid_tag : option record)
  : bool :=
  match valid_tag with
  | None => false
  | Some vt =>
      match rec_tags existing with
      | None | Some [] => false
      | Some tags => bool_decide (rec_id vt ∈ (tag_id <$> tags))
      end
  end.

Section with_remote.
Context {W : Type} {R : Remote W}.

(** [add_valid_tag_to_existing]: the result, with the entity object as
    the call leaves it ([existing_rack_type.tags] is assigned before
    [save()] is called). *)
Definition add_valid_tag_to_existing (existing : record)
  (valid_tag : option record) : M W (bool * record) :=
  match valid_tag with
  | None => ret (false, existing)
  | Some vt =>
      let current_tag_ids := current_tag_ids existing in
      if bool_decide (rec_id vt ∈ current_tag_ids)
      then ret (false, existing)
      else
        let new_ids := current_tag_ids ++ [rec_id vt] in
        let existing' :=
          {| rec_id := rec_id existing; rec_attrs := rec_attrs existing;
             rec_tags := Some (TagId <$> new_ids) |} in
        try_except
          (Client.update "rack_types" (rec_id existing)
             {["tags" := Client.ids new_ids]} ;;;
           ret (true, existing'))
          (fun _ => ret (false, existing'))
  end.
End with_remote.
End NetboxRack.

(** ** [netbox_module] *)

Module NetboxModule.

Definition ALLOWED_FIELDS : list string :=
  [ "manufacturer"; "model"; "slug"; "u_height"; "part_number";
    "exclude_from_utilization"; "is_full_depth"; "subdevice_role";
    "airflow"; "description"; "weight"; "weight_unit"; "comments" ].

(** YAML component key, NetBox resource, allowed fields; in the order
    the dictionary is written. *)
Definition COMPONENT_MAP : list (string * (string * list string)) :=
  [ ("console-ports",
      ("console_port_templates",
        ["name"; "label"; "type"; "_is_power_source"]));
    ("console-server-ports",
      ("console_server_port_templates", ["name"; "label"; "type"]));
    ("power-ports",
      ("power_port_templates",
        ["name"; "label"; "type"; "maximum_draw"; "allocated_draw";
         "_is_power_source"]));
    ("power-outlets",
      ("power_outlet_templates",
        ["name"; "label"; "type"; "power_port"; "feed_leg"]));
    ("interfaces",
      ("interface_templates",
        ["name"; "label"; "type"; "mgmt_only"; "poe_mode"; "poe_type"]));
    ("rear-ports",
      ("rear_port_templates",
        ["name"; "label"; "type"; "positions"; "_is_power_source"]));
    ("front-ports",
      ("front_port_templates",
        ["name"; "label"; "type"; "rear_port"; "rear_port_position"]));
    ("module-bays", ("module_bay_templates", ["name"; "label"; "position"]));
    ("device-bays", ("device_bay_templates", ["name"; "label"; "position"]));
    ("inventory-items",
      ("inventory_item_templates",
        ["name"; "label"; "manufacturer"; "part_id"])) ].

(** [slugify] on a [str]; [name or ""] is [name] there. *)
Definition slugify (name : string) : string :=
  let s := PyStr.lower (PyStr.strip name) in
  let s := PyStr.replace_amp s in
  let s :=
    PyStr.str (PyStr.sub_runs PyStr.not_slug_char false (PyStr.chars s)) in
  let s := PyStr.strip_hyphens s in
  let s := PyStr.str (PyStr.sub_hyphens2 (PyStr.chars s)) in
  s.

(** [slugify] called on an arbitrary object: anything false becomes
    [""]; a true object that is not a [str] has no [strip]. *)
Definition slugify_obj (name : node) : res string :=
  match name with
  | Scalar (VStr s) => Ok (slugify s)
  | _ => if Py.truthy_node name
         then Raise "AttributeError: object has no attribute 'strip'"
         else Ok (slugify "")
  end.

(** [doc.get("manufacturer") or Path(filepath).parent.name] *)
Definition manufacturer_name (d : doc) (parent_name : string) : node :=
  match Py.get "manufacturer" d with
  | Some n => if Py.truthy_node n then n else Scalar (VStr parent_name)
  | None => Scalar (VStr parent_name)
  end.

(** [normalize_payload] *)
Definition normalize_value (k : string) (v : node) : node :=
  if Py.str_in k ["exclude_from_utilization"; "is_full_depth"]
  then match v with
       | Scalar (VStr s) =>
           Scalar (VBool (Py.str_in (PyStr.lower s) ["true"; "yes"; "1"]))
       | _ => Scalar (VBool (Py.truthy_node v))
       end
  else v.

Definition normalize_payload (raw : doc) : gmap string node :=
  foldl (fun payload kv =>
           if Py.str_in kv.1 ALLOWED_FIELDS
           then <[kv.1 := normalize_value kv.1 kv.2]> payload
           else payload)
        ∅ raw.

(** The payload built at the start of [create_or_update_component]. *)
Definition component_value (k : string) (v : value) : value :=
  if String.eqb k "position" && negb (Py.is_none v)
  then VStr (Py.str v)
  else match v with
       | VStr s =>
           if Py.str_in (PyStr.lower s) ["true"; "false"; "yes"; "no"]
           then VBool (Py.str_in (PyStr.lower s) ["true"; "yes"; "1"])
           else v
       | _ => v
       end.

Definition build_payload (allowed_fields : list string)
  (item : gmap string value) (mt_id : Z) : gmap string value :=
  <["module_type" := VInt mt_id]>
    (map_fold (fun k v payload =>
                 if Py.str_in k allowed_fields
                 then <[k := component_value k v]> payload
                 else payload)
              ∅ item).

(** The lookup in [created_map] made for a reference: nothing when the
    map is empty, otherwise [name_val] itself as a key, then
    [str(name_val)]; the keys of the map are strings. *)
Definition lookup_created (created_map : gmap string (gmap string Z))
  (resource_name : string) (name_val : value) : option Z :=
  if bool_decide (created_map = ∅) then None
  else
    let cmap := default ∅ (created_map !! resource_name) in
    match (match name_val with VStr s => cmap !! s | _ => None end) with
    | Some id => Some id
    | None => cmap !! Py.str name_val
    end.

(** [getattr(existing, k, None) != v] *)
Definition attr_differs (existing : record) (k : string) (v : value) : bool :=
  if String.eqb k "id" then negb (Py.eqb (VInt (rec_id existing)) v)
  else if String.eqb k "tags"
  then match rec_tags existing with
       | None => negb (Py.eqb VNone v)
       | Some _ => true
       end
  else match rec_attrs existing !! k with
       | None => negb (Py.eqb VNone v)
       | Some (Plain (Scalar u)) => negb (Py.eqb u v)
       | Some _ => true
       end.

(** [getattr(c, "module_type", None) and
     getattr(c.module_type, "id", None) == module_type_obj.id] *)
Definition belongs_to (mt_id : Z) (c : record) : bool :=
  match rec_attrs c !! "module_type" with
  | Some (Nested i) => i =? mt_id
  | _ => false
  end.

(** [r.name == name_val]; an entity without a [name] raises. *)
Definition name_is (name_val : value) (r : record) : res bool :=
  match rec_attrs r !! "name" with
  | None => Raise "AttributeError: name"
  | Some (Plain (Scalar u)) => Ok (Py.eqb u name_val)
  | Some _ => Ok false
  end.

Fixpoint filter_by_name (name_val : value) (l : list record)
  : res (list record) :=
  match l with
  | [] => Ok []
  | r :: rest =>
      match name_is name_val r with
      | Raise e => Raise e
      | Ok b =>
          match filter_by_name name_val rest with
          | Raise e => Raise e
          | Ok rs => Ok (if b then r :: rs else rs)
          end
      end
  end.

(** The loop of [find_existing_module_type] over the candidates. *)
Definition same_manufacturer (man : node) (c : record) : bool :=
  match rec_attrs c !! "manufacturer", Py.int man with
  | Some (Nested i), Some j => i =? j
  | _, _ => false
  end.

Definition ordered_keys : list string :=
  let keys := fst <$> COMPONENT_MAP in
  if Py.str_in "rear-ports" keys
  then "rear-ports" :: Py.remove_first "rear-ports" keys
  else keys.

Section with_remote.
Context {W : Type} {R : Remote W}.

(** [write_error_log]: one record appended to the log of the item. *)
Definition write_error_log (relative_path : option string)
  (message : string) : M W unit :=
  fun s => (Ok tt, {| world := world s; calls := calls s;
                      tracker := tracker s;
                      errlog := (relative_path, message) :: errlog s |}).

(** [if tracker and relative_path: tracker.<op>(relative_path, ...)] *)
Definition tracked (relative_path : option string)
  (op : string -> Ledger.t -> Ledger.t) : M W unit :=
  fun s =>
    match tracker s, relative_path with
    | Some tr, Some rp =>
        if String.eqb rp "" then (Ok tt, s)
        else (Ok tt, {| world := world s; calls := calls s;
                        tracker := Some (op rp tr);
                        errlog := errlog s |})
    | _, _ => (Ok tt, s)
    end.

(** [ensure_valid_tag] *)
Definition ensure_valid_tag : M W (option Z) :=
  found <- try_except
             (tag <- Client.get "tags" {["name" := Scalar (VStr "Valid")]} ;;
              ret (rec_id <$> tag))
             (fun _ => ret None) ;;
  match found with
  | Some id => ret (Some id)
  | None =>
      let tag_payload : gmap string node :=
        <["name" := Scalar (VStr "Valid")]>
          (<["slug" := Scalar (VStr "valid")]>
             (<["description" :=
                  Scalar (VStr "Indicates a validated module type")]>
                (<["color" := Scalar (VStr "4caf50")]> ∅))) in
      try_except
        (created_tag <- Client.create "tags" tag_payload ;;
         ret (Some (rec_id created_tag)))
        (fun _ => ret None)
  end.

(** [ensure_manufacturer]: two lookups, no write.  The warning printed
    at the end evaluates [slugify(name)] outside of any [try]. *)
Definition ensure_manufacturer (name : node) : M W (option Z) :=
  if negb (Py.truthy_node name) then ret None
  else
    by_name <- try_except
                 (m <- Client.get "manufacturers" {["name" := name]} ;;
                  ret (rec_id <$> m))
                 (fun _ => ret None) ;;
    match by_name with
    | Some id => ret (Some id)
    | None =>
        by_slug <- try_except
                     (s <- lift (slugify_obj name) ;;
                      m <- Client.get "manufacturers"
                             {["slug" := Scalar (VStr s)]} ;;
                      ret (rec_id <$> m))
                     (fun _ => ret None) ;;
        match by_slug with
        | Some id => ret (Some id)
        | None => lift (slugify_obj name) ;;; ret None
        end
    end.

(** [find_existing_module_type] *)
Definition find_existing_module_type (payload : gmap string node)
  : M W (option record) :=
  by_slug <- match payload !! "slug" with
             | Some sl =>
                 if Py.truthy_node sl
                 then try_except
                        (Client.get "module_types" {["slug" := sl]})
                        (fun _ => ret None)
                 else ret None
             | None => ret None
             end ;;
  match by_slug with
  | Some mt => ret (Some mt)
  | None =>
      match payload !! "model", payload !! "manufacturer" with
      | Some mo, Some man =>
          if Py.truthy_node man
          then try_except
                 (candidates <- Client.filter "module_types"
                                  {["model" := mo]} ;;
                  ret (head (List.filter (same_manufacturer man)
                                         candidates)))
                 (fun _ => ret None)
          else ret None
      | _, _ => ret None
      end
  end.

(** The block resolving [rear_port] in [create_or_update_component]:
    either the result the function returns at once, or the payload to
    go on with. *)
Definition resolve_rear_port (nb_api : bool) (mt_id : Z)
  (created_map : gmap string (gmap string Z))
  (payload : gmap string value) : M W (outcome + gmap string value) :=
  match payload !! "rear_port" with
  | None => ret (inr payload)
  | Some name_val =>
      if Py.is_none name_val then ret (inr payload)
      else
        try_except
          (let payload :=
             match lookup_created created_map "rear_port_templates"
                                  name_val with
             | Some id => <["rear_port" := VInt id]> payload
             | None => payload
             end in
           if Py.is_int (default VNone (payload !! "rear_port"))
           then ret (inr payload)
           else if nb_api
           then
             rear_candidates <-
               Client.filter "rear_port_templates"
                 (<["module_type" := Scalar (VInt mt_id)]>
                    {["name" := Scalar name_val]}) ;;
             rear_candidates <-
               match rear_candidates with
               | [] =>
                   all_rear_ports <-
                     Client.filter "rear_port_templates"
                       {["module_type" := Scalar (VInt mt_id)]} ;;
                   lift (filter_by_name name_val all_rear_ports)
               | _ => ret rear_candidates
               end ;;
             match rear_candidates with
             | rear :: _ =>
                 ret (inr (<["rear_port" := VInt (rec_id rear)]> payload))
             | [] =>
                 ret (inl (OError ("rear_port '" +:+ Py.str name_val
                                   +:+ "' not found")))
             end
           else ret (inl (OError
                            "NetBox API not available for rear_port lookup")))
          (fun e => ret (inl (OError ("rear_port lookup failed: " +:+ e))))
  end.

(** The block resolving [power_port]. *)
Definition resolve_power_port (nb_api : bool) (mt_id : Z)
  (created_map : gmap string (gmap string Z))
  (payload : gmap string value) : M W (gmap string value) :=
  match payload !! "power_port" with
  | None => ret payload
  | Some name_val =>
      if Py.is_none name_val then ret payload
      else
        let payload1 :=
          match lookup_created created_map "power_port_templates"
                               name_val with
          | Some id => <["power_port" := VInt id]> payload
          | None => payload
          end in
        try_except
          (if Py.is_int (default VNone (payload1 !! "power_port"))
           then ret payload1
           else if nb_api
           then
             pwr_candidates <-
               Client.filter "power_port_templates"
                 (<["module_type" := Scalar (VInt mt_id)]>
                    {["name" := Scalar name_val]}) ;;
             match pwr_candidates with
             | pwr :: _ =>
                 ret (<["power_port" := VInt (rec_id pwr)]> payload1)
             | [] => ret (delete "power_port" payload1)
             end
           else ret (delete "power_port" payload1))
          (fun _ => ret (delete "power_port" payload1))
  end.

(** The block turning the [manufacturer] of an inventory item into an
    id. *)
Definition resolve_manufacturer (nb_api : bool)
  (payload : gmap string value) : M W (gmap string value) :=
  match payload !! "manufacturer" with
  | None => ret payload
  | Some mv =>
      if negb (Py.truthy mv) then ret payload
      else
        try_except
          (man_id <- (if nb_api then ensure_manufacturer (Scalar mv)
                      else ret None) ;;
           match man_id with
           | Some id =>
               if id =? 0 then ret (delete "manufacturer" payload)
               else ret (<["manufacturer" := VInt id]> payload)
           | None => ret (delete "manufacturer" payload)
           end)
          (fun _ => ret (delete "manufacturer" payload))
  end.

(** The search for an existing template by name under the module
    type. *)
Definition find_template (resource : string) (mt_id : Z)
  (payload : gmap string value) : M W (option record) :=
  match payload !! "name" with
  | None => ret None
  | Some nm =>
      if Py.is_none nm then ret None
      else
        try_except
          (candidates <- Client.filter resource {["name" := Scalar nm]} ;;
           ret (head (List.filter (belongs_to mt_id) candidates)))
          (fun _ => ret None)
  end.

(** [needs_update] *)
Definition needs_update (existing : record)
  (update_payload : gmap string value) : bool :=
  bool_decide (map_Exists (fun k v => attr_differs existing k v = true)
                          update_payload).

(** The last two blocks: update or skip an existing template, create
    otherwise, also when the update raised. *)
Definition reconcile_template (resource : string) (mt_id : Z)
  (existing : option record) (payload : gmap string value) : M W outcome :=
  let create_it : M W outcome :=
    try_except
      (created <- Client.create resource (Client.wire payload) ;;
       ret (OCreated (rec_id created)))
      (fun e => ret (OError e)) in
  match existing with
  | None => create_it
  | Some existing =>
      if belongs_to mt_id existing
      then
        let update_payload := delete "module_type" payload in
        done <- try_except
                  (if needs_update existing update_payload
                   then
                     Client.update resource (rec_id existing)
                       (Client.wire update_payload) ;;;
                     ret (Some (OUpdated (rec_id existing)))
                   else ret (Some (OSkipped (rec_id existing))))
                  (fun _ => ret None) ;;
        match done with
        | Some o => ret o
        | None => create_it
        end
      else create_it
  end.

(** [create_or_update_component]; [resource] names the endpoint and
    [nb_api] tells whether an API handle is at hand for the lookups. *)
Definition create_or_update_component (resource : string) (mt_id : Z)
  (item : gmap string value) (allowed_fields : list string)
  (nb_api : bool) (created_map : gmap string (gmap string Z))
  : M W outcome :=
  let payload := build_payload allowed_fields item mt_id in
  r <- resolve_rear_port nb_api mt_id created_map payload ;;
  match r with
  | inl o => ret o
  | inr payload =>
      payload <- resolve_power_port nb_api mt_id created_map payload ;;
      payload <- resolve_manufacturer nb_api payload ;;
      existing <- find_template resource mt_id payload ;;
      reconcile_template resource mt_id existing payload
  end.

(** [str(item.get('name'))] as the messages show it. *)
Definition shown_name (item : gmap string value) : string :=
  Py.str (default VNone (item !! "name")).

(** [created_map.setdefault(resource_name, {})[str(nm)] = info], done
    when the item has a true [name]. *)
Definition record_created (resource_name : string)
  (item : gmap string value) (info : Z)
  (created_map : gmap string (gmap string Z))
  : gmap string (gmap string Z) :=
  match item !! "name" with
  | Some nm =>
      if Py.truthy nm
      then <[resource_name :=
               <[Py.str nm := info]>
                 (default ∅ (created_map !! resource_name))]> created_map
      else created_map
  | None => created_map
  end.

(** The body of the inner loop of [process_components].  The second
    component of the accumulator is the report the function prints,
    one line per sub-template, latest first. *)
Definition process_item (relative_path : option string)
  (resource_name : string) (allowed : list string) (mt_id : Z)
  (acc : gmap string (gmap string Z) * list (string * outcome))
  (it : elem)
  : M W (gmap string (gmap string Z) * list (string * outcome)) :=
  match it with
  | EVal _ => raise "AttributeError: object has no attribute 'items'"
  | EMap item =>
      o <- create_or_update_component resource_name mt_id item allowed
             true acc.1 ;;
      let report := (resource_name, o) :: acc.2 in
      match o with
      | OCreated info | OUpdated info =>
          ret (record_created resource_name item info acc.1, report)
      | OSkipped _ => ret (acc.1, report)
      | OError info =>
          write_error_log relative_path
            ("Failed " +:+ resource_name +:+ " '" +:+ shown_name item
             +:+ "': " +:+ info) ;;;
          ret (acc.1, report)
      end
  end.

Fixpoint fold_m {A B} (f : A -> B -> M W A) (a : A) (l : list B) : M W A :=
  match l with
  | [] => ret a
  | b :: r => a' <- f a b ;; fold_m f a' r
  end.

(** [items if isinstance(items, list) else [items]] *)
Definition as_list (items : node) : list elem :=
  match items with
  | List l => l
  | Map m => [EMap m]
  | Scalar v => [EVal v]
  end.

(** The body of the outer loop of [process_components]. *)
Definition process_key (relative_path : option string) (mt_id : Z)
  (d : doc)
  (acc : gmap string (gmap string Z) * list (string * outcome))
  (yaml_key : string)
  : M W (gmap string (gmap string Z) * list (string * outcome)) :=
  match Py.get yaml_key COMPONENT_MAP with
  | None => raise "KeyError"
  | Some (resource_name, allowed) =>
      match Py.get yaml_key d with
      | None => ret acc
      | Some items =>
          if negb (Py.truthy_node items) then ret acc
          else
            available <- Client.resource_available resource_name ;;
            if negb available
            then
              write_error_log relative_path
                ("NetBox resource for '" +:+ resource_name
                 +:+ "' not available. Skipping " +:+ yaml_key +:+ ".") ;;;
              ret acc
            else
              fold_m (process_item relative_path resource_name allowed
                        mt_id)
                     acc (as_list items)
      end
  end.

(** [process_components]: the report printed, first line first. *)
Definition process_components (mt_id : Z) (d : doc)
  (relative_path : option string) : M W (list (string * outcome)) :=
  acc <- fold_m (process_key relative_path mt_id d) (∅, []) ordered_keys ;;
  ret (rev acc.2).

(** The tagging of a module type just created. *)
Definition tag_ids_of (created : record) : res (list Z) :=
  match rec_tags created with
  | None | Some [] => Ok []
  | Some tags =>
      if forallb (fun tg => match tg with TagObj _ => true
                                        | TagId _ => false end) tags
      then Ok (NetboxRack.tag_id <$> tags)
      else Raise "AttributeError: 'int' object has no attribute 'id'"
  end.

Definition tag_created (valid_tag_id : option Z) (created : record)
  : M W unit :=
  match valid_tag_id with
  | None => ret tt
  | Some vid =>
      if vid =? 0 then ret tt
      else
        try_except
          (tag_ids <- lift (tag_ids_of created) ;;
           if bool_decide (vid ∈ tag_ids) then ret tt
           else Client.update "module_types" (rec_id created)
                  {["tags" := Client.ids (tag_ids ++ [vid])]})
          (fun _ => ret tt)
  end.

(** The body of the loop of [process_file] over the documents of one
    file; [continue] is the end of the body.  In the message for a
    missing manufacturer the name is shown when it is a scalar; a
    sequence or a mapping gets here only when the remote system
    answers the lookup by name with an entity of id 0, and its text
    is left out. *)
Definition process_doc (filepath parent_name : string)
  (relative_path : option string) (valid_tag_id : option Z)
  (y : yaml_doc) : M W unit :=
  match y with
  | YOther => ret tt
  | YDoc d =>
      let payload := normalize_payload d in
      let man_name := manufacturer_name d parent_name in
      man_id <- ensure_manufacturer man_name ;;
      match (match man_id with
             | Some id => if id =? 0 then None else Some id
             | None => None
             end) with
      | None =>
          let error_msg :=
            "Manufacturer '" +:+
            (match man_name with Scalar v => Py.str v | _ => "" end)
            +:+ "' not present in NetBox" in
          write_error_log relative_path error_msg ;;;
          tracked relative_path
            (fun rp => ModuleTypeTracker.mark_as_failed rp error_msg)
      | Some man_id =>
          let payload := <["manufacturer" := Scalar (VInt man_id)]> payload in
          existing <- find_existing_module_type payload ;;
          obj <-
            match existing with
            | Some existing =>
                try_except
                  (Client.update "module_types" (rec_id existing) payload ;;;
                   ret (Some (rec_id existing)))
                  (fun e =>
                     let error_msg := "Failed to update: " +:+ e in
                     write_error_log relative_path error_msg ;;;
                     tracked relative_path
                       (fun rp =>
                          ModuleTypeTracker.mark_as_failed rp error_msg) ;;;
                     ret None)
            | None =>
                try_except
                  (created <- Client.create "module_types" payload ;;
                   tag_created valid_tag_id created ;;;
                   ret (Some (rec_id created)))
                  (fun e =>
                     let error_msg := "Failed to create: " +:+ e in
                     write_error_log relative_path error_msg ;;;
                     tracked relative_path
                       (fun rp =>
                          ModuleTypeTracker.mark_as_failed rp error_msg) ;;;
                     ret None)
            end ;;
          match obj with
          | None => ret tt
          | Some netbox_id =>
              try_except
                (process_components netbox_id d relative_path ;;;
                 tracked relative_path
                   (fun rp =>
                      ModuleTypeTracker.mark_as_created rp (Some netbox_id)))
                (fun e =>
                   let error_msg :=
                     "Failed to process components: " +:+ e in
                   write_error_log relative_path error_msg ;;;
                   tracked relative_path
                     (fun rp =>
                        ModuleTypeTracker.mark_as_failed rp error_msg))
          end
      end
  end.

(** [process_file]; [parsed] is what opening and parsing the file
    gives, [parent_name] the name of its directory and
    [relative_path] its path under the module-types directory when it
    lies there. *)
Definition process_file (filepath parent_name : string)
  (relative_path : option string) (parsed : res raw) : M W unit :=
  valid_tag_id <- ensure_valid_tag ;;
  try_except
    (raw <- lift parsed ;;
     match raw with
     | RawNone =>
         write_error_log relative_path
           ("Empty YAML file: " +:+ filepath) ;;;
         tracked relative_path
           (fun rp => ModuleTypeTracker.mark_as_skipped rp "Empty YAML file")
     | RawOne y =>
         for_each (process_doc filepath parent_name relative_path
                     valid_tag_id) [y]
     | RawList docs =>
         for_each (process_doc filepath parent_name relative_path
                     valid_tag_id) docs
     end)
    (fun e =>
       let error_msg := "File processing error: " +:+ e in
       write_error_log relative_path error_msg ;;;
       tracked relative_path
         (fun rp => ModuleTypeTracker.mark_as_failed rp error_msg)).
End with_remote.

End NetboxModule.

(** ** An in-memory remote system

    A small implementation of the client contract, used to run the engine
    on concrete inputs: tables of entities by endpoint, ids handed out in
    sequence, and a list of endpoints that reject every write. *)

Module MemStore.

Record t := {
  tables : gmap string (list record);
  next_id : Z;
  read_only : list string;
}.

Definition table (ep : string) (w : t) : list record :=
  default [] (tables w !! ep).

Definition field_matches (r : record) (k : string) (v : node) : bool :=
  if String.eqb k "id" then bool_decide (Py.int v = Some (rec_id r))
  else match rec_attrs r !! k with
       | Some (Plain n) => bool_decide (n = v)
       | Some (Nested i) => bool_decide (v = Scalar (VInt i))
       | None => false
       end.

Definition matches (crit : gmap string node) (r : record) : bool :=
  bool_decide (map_Forall (fun k v => field_matches r k v = true) crit).

Definition select (ep : string) (crit : gmap string node) (w : t)
  : list record :=
  List.filter (matches crit) (table ep w).

(** Fields that hold a reference are shown as nested entities. *)
Definition reference_fields : list string :=
  ["manufacturer"; "module_type"; "rear_port"; "power_port"].

Definition stored (k : string) (n : node) : option attr :=
  if String.eqb k "tags" then None
  else match n with
       | Scalar (VInt i) =>
           if Py.str_in k reference_fields then Some (Nested i)
           else Some (Plain n)
       | _ => Some (Plain n)
       end.

Definition tags_of (n : node) : list tagref :=
  match n with
  | List l =>
      omap (fun e => match e with
                     | EVal (VInt i) => Some (TagObj i)
                     | _ => None
                     end) l
  | _ => []
  end.

Definition get (ep : string) (crit : gmap string node) (w : t)
  : res (option record) :=
  match select ep crit w with
  | [] => Ok None
  | [r] => Ok (Some r)
  | _ => Raise "get() returned more than one result"
  end.

Definition create (ep : string) (payload : gmap string node) (w : t)
  : res record * t :=
  if Py.str_in ep (read_only w) then (Raise "400 Bad Request", w)
  else
    let r := {| rec_id := next_id w;
                rec_attrs := map_imap stored payload;
                rec_tags := Some (default [] (tags_of <$> payload !! "tags")) |} in
    (Ok r, {| tables := <[ep := table ep w ++ [r]]> (tables w);
              next_id := next_id w + 1;
              read_only := read_only w |}).

Definition patch (payload : gmap string node) (r : record) : record :=
  {| rec_id := rec_id r;
     rec_attrs := map_imap stored payload ∪ rec_attrs r;
     rec_tags := match payload !! "tags" with
                 | Some n => Some (tags_of n)
                 | None => rec_tags r
                 end |}.

Definition update (ep : string) (id : Z) (payload : gmap string node)
  (w : t) : res unit * t :=
  if Py.str_in ep (read_only w) then (Raise "400 Bad Request", w)
  else if existsb (fun r => rec_id r =? id) (table ep w)
  then (Ok tt,
        {| tables :=
             <[ep := (fun r => if rec_id r =? id then patch payload r else r)
                       <$> table ep w]> (tables w);
           next_id := next_id w;
           read_only := read_only w |})
  else (Raise "404 Not Found", w).

#[global] Instance remote : Remote t := {
  nb_get := get;
  nb_filter ep crit w := Ok (select ep crit w);
  nb_create := create;
  nb_update := update;
  nb_resource _ _ := true;
}.

(** The state the engine starts from. *)
Definition start (w : t) (tr : option Ledger.t) : state t :=
  {| world := w; calls := []; tracker := tr; errlog := [] |}.

End MemStore.

(** ** [netbox_manufacturer]: the import loop of [main] *)

Module ManufacturerImport.

(** The four counters of [main], in the order they are set up. *)
Record counters := {
created : nat;
skipped : nat;
updated : nat;
errors : nat;
}.

Definition zero : counters :=
{| created := 0; skipped := 0; updated := 0; errors := 0 |}.

(** One result of [types_dir.iterdir()]: its name, and whether it is a
  directory. *)
Record dir_entry := {
entry_name : string;
entry_is_dir : bool;
}.

(** [sorted(types_dir.iterdir())]: the entries of one directory differ
  in their last component only, so that they are ordered by name;
  the sort is stable. *)
Fixpoint insert_entry (e : dir_entry) (l : list dir_entry)
: list dir_entry :=
match l with
| [] => [e]
| x :: r =>
    if String.ltb (entry_name e) (entry_name x) then e :: x :: r
    else x :: insert_entry e r
end.

Definition sorted (l : list dir_entry) : list dir_entry :=
foldl (fun acc e => insert_entry e acc) [] l.

Section with_remote.
Context {W : Type} {R : Remote W}.

(** [get_or_create_valid_tag] *)
Definition get_or_create_valid_tag : M W (option record) :=
found <- try_except
         (Client.get "tags" {["slug" := Scalar (VStr "valid")]})
         (fun _ => ret None) ;;
match found with
| Some tag => ret (Some tag)
| None =>
  try_except
    (tag <- Client.create "tags"
              (<["name" := Scalar (VStr "Valid")]>
                 (<["slug" := Scalar (VStr "valid")]>
                    (<["color" := Scalar (VStr "4caf50")]> ∅))) ;;
     ret (Some tag))
    (fun _ => ret None)
end.

(** [[tag.id for tag in tags]]: a tag given as a bare id has no [id]
attribute. *)
Definition tag_ids (tags : list tagref) : res (list Z) :=
if forallb (fun tg => match tg with TagObj _ => true
                                | TagId _ => false end) tags
then Ok (NetboxRack.tag_id <$> tags)
else Raise "AttributeError: 'int' object has no attribute 'id'".

(** The [if existing:] branch of the loop body. *)
Definition tag_existing (valid_tag : option record) (existing : record)
(c : counters) : M W counters :=
let skip := {| created := created c; skipped := S (skipped c);
             updated := updated c; errors := errors c |} in
needs_tag <- match valid_tag, rec_tags existing with
           | Some vt, Some (tg :: tags) =>
               existing_tag_ids <- lift (tag_ids (tg :: tags)) ;;
               ret (negb (bool_decide (rec_id vt ∈ existing_tag_ids)))
           | _, _ => ret true
           end ;;
match needs_tag, valid_tag with
| true, Some vt =>
  try_except
    (current_tag_ids <-
       lift (tag_ids (default [] (rec_tags existing))) ;;
     Client.update "manufacturers" (rec_id existing)
       {["tags" := Client.ids (current_tag_ids ++ [rec_id vt])]} ;;;
     ret {| created := created c; skipped := skipped c;
            updated := S (updated c); errors := errors c |})
    (fun _ => ret skip)
| _, _ => ret skip
end.

(** The [manufacturer_data] sent for a directory not yet known. *)
Definition manufacturer_data (valid_tag : option record)
(name slug : string) : gmap string node :=
let data : gmap string node :=
<["name" := Scalar (VStr name)]> {["slug" := Scalar (VStr slug)]} in
match valid_tag with
| Some vt => <["tags" := Client.ids [rec_id vt]]> data
| None => data
end.

(** The body of the inner loop of [main]. *)
Definition process_entry (valid_tag : option record) (c : counters)
(entry : dir_entry) : M W counters :=
if negb (entry_is_dir entry) then ret c
else
let name := entry_name entry in
if String.prefix "." name then ret c
else
  let slug := NetboxManufacturer.slugify name in
  existing <- try_except
                (Client.get "manufacturers"
                   {["slug" := Scalar (VStr slug)]})
                (fun _ => ret None) ;;
  match existing with
  | Some existing => tag_existing valid_tag existing c
  | None =>
      try_except
        (Client.create "manufacturers"
           (manufacturer_data valid_tag name slug) ;;;
         ret {| created := S (created c); skipped := skipped c;
                updated := updated c; errors := errors c |})
        (fun _ => ret {| created := created c; skipped := skipped c;
                         updated := updated c;
                         errors := S (errors c) |})
  end.

(** [main] from the fetch of the tag on: the two loops over the input
directories and their entries. *)
Definition import_manufacturers (input_dirs : list (list dir_entry))
: M W counters :=
valid_tag <- get_or_create_valid_tag ;;
NetboxModule.fold_m
(fun c types_dir =>
   NetboxModule.fold_m (process_entry valid_tag) c (sorted types_dir))
zero input_dirs.
End with_remote.
End ManufacturerImport.

(** ** [master_cleanup] *)

Module MasterCleanup.

Definition LICENSE_PATTERNS : list string :=
["license"; "license.txt"; "license.md"; "license.rst"].
Definition README_PREFIXES : list string :=
["readme"; "readme.md"; "readme.txt"; "readme.rst"].
Definition REQUIREMENTS_FILENAMES : list string := ["requirements.txt"].
Definition CONTRIBUTING_FILENAMES : list string :=
["contributing"; "contributing.md"; "contributing.txt"].

(** [s.endswith(suffix)] *)
Definition endswith (suffix s : string) : bool :=
String.prefix (PyStr.str (rev (PyStr.chars suffix)))
              (PyStr.str (rev (PyStr.chars s))).

(** [should_remove_file]; the loop over the set [README_PREFIXES]
  returns at the first prefix that fits, in whatever order. *)
Definition should_remove_file (name : string) : bool :=
let lower_name := PyStr.lower name in
if String.prefix "." lower_name then true
else if Py.str_in lower_name LICENSE_PATTERNS then true
else if Py.str_in lower_name REQUIREMENTS_FILENAMES then true
else if Py.str_in lower_name CONTRIBUTING_FILENAMES then true
else existsb (fun prefix =>
                String.eqb lower_name prefix
                || String.prefix (prefix +:+ ".") lower_name)
             README_PREFIXES.

(** The test [collect_targets] makes on the name of a directory. *)
Definition remove_dir (directory : string) : bool :=
let lower_dir := PyStr.lower directory in
String.prefix "." directory
|| Py.str_in lower_dir ["tests"; "scripts"; "schema"]
|| endswith "-images" lower_dir.

(** What [os.walk] finds in a directory: its sub-directories with
  their content, and the names of its other entries, both in the
  order they are listed. *)
#[local] Unset Elimination Schemes.
Inductive tree :=
| Dir (dirnames : list (string * tree)) (filenames : list string).
#[local] Set Elimination Schemes.

(** A path below the root, as the names [current / name] adds to it. *)
Definition path : Type := list string.

(** The loop over [os.walk(str(root))], top down: a directory that is
  listed for removal is taken out of [dirnames] and not entered.
  The result is [(files_to_remove, dirs_to_remove)] as they stand
  before the sort. *)
Fixpoint walk (current : path) (t : tree) {struct t}
: list path * list path :=
match t with
| Dir dirnames filenames =>
    let dirs_here :=
      (fun d => current ++ [d.1])
        <$> List.filter (fun d => remove_dir d.1) dirnames in
    let files_here :=
      (fun f => current ++ [f])
        <$> List.filter should_remove_file filenames in
    let below :=
      (fix go (l : list (string * tree)) : list path * list path :=
         match l with
         | [] => ([], [])
         | d :: r =>
             if remove_dir d.1 then go r
             else
               let here := walk (current ++ [d.1]) d.2 in
               let rest := go r in
               (here.1 ++ rest.1, here.2 ++ rest.2)
         end) dirnames in
    (files_here ++ below.1, dirs_here ++ below.2)
end.

(** [str(path)] for a path below [root]. *)
Definition path_text (root : string) (p : path) : string :=
foldl (fun acc c => acc +:+ "/" +:+ c) root p.

(** [dirs_to_remove.sort(key=lambda path: len(str(path)), reverse=True)]:
  longest first, paths of one length in the order they had. *)
Fixpoint insert_longest_first (root : string) (p : path) (l : list path)
: list path :=
match l with
| [] => [p]
| x :: r =>
    if (String.length (path_text root x)
        <? String.length (path_text root p))%nat
    then p :: x :: r
    else x :: insert_longest_first root p r
end.

Definition sort_longest_first (root : string) (l : list path) : list path :=
foldl (fun acc p => insert_longest_first root p acc) [] l.

(** [collect_targets] *)
Definition collect_targets (root : string) (t : tree)
: list path * list path :=
let found := walk [] t in
(found.1, sort_longest_first root found.2).
End MasterCleanup.

(** ** [main]: the scripts run one after the other *)

Module Main.

(** The lines [main] and [run_script] print; the name of the log file,
  which holds the time, is left out of them. *)
Inductive line :=
| Running (script_name : string)
| Completed (script_name : string)
| ErrorRunning (script_name : string)
| Stopped (script : string)
| AllOk.

Definition scripts : list string :=
[ "master_cleanup.py"; "netbox_manufacturer.py"; "netbox_rack.py";
  "netbox_device.py"; "netbox_module.py" ].

Section with_host.
(** [run cmd] opens the log file and runs [sys.executable] with the
arguments [cmd] on the host [H]: [Ok true] when the process ends
with status 0, [Ok false] when [subprocess.run] raises
[CalledProcessError], [Raise] for any other exception. *)
Context {H : Type} (run : list string -> H -> res bool * H).

(** [run_script]; the lines printed are kept latest first. *)
Definition run_script (script_name : string) (st : H * list line)
: res bool * (H * list line) :=
let out := Running script_name :: st.2 in
let cmd := [script_name] in
let cmd := if String.eqb script_name "master_cleanup.py"
         then cmd ++ ["--yes"] else cmd in
match run cmd st.1 with
| (Ok true, h) => (Ok true, (h, Completed script_name :: out))
| (Ok false, h) => (Ok false, (h, ErrorRunning script_name :: out))
| (Raise e, h) => (Raise e, (h, out))
end.

(** The loop of [main] with its [break] and its [else]. *)
Fixpoint run_all (l : list string) (st : H * list line)
: res unit * (H * list line) :=
match l with
| [] => (Ok tt, (st.1, AllOk :: st.2))
| script :: rest =>
  match run_script script st with
  | (Ok true, st') => run_all rest st'
  | (Ok false, st') => (Ok tt, (st'.1, Stopped script :: st'.2))
  | (Raise e, st') => (Raise e, st')
  end
end.

(** [main], once the directory of the logs is there. *)
Definition main (h : H) : res unit * (H * list line) :=
run_all scripts (h, []).
End with_host.
End Main.

(** ** The summary and the reset of the two trackers *)

(** The lines of [print_summary].  The progress line shows
    [done / total * 100] with one decimal; it is kept as the two
    numbers, and as [ProgressZero] where the code prints the constant
    [0] instead of dividing. *)
Inductive summary_line :=
| Header
| TotalFound (n : nat)
| SuccessfullyCreated (n : nat)
| FailedLine (n : nat)
| SkippedLine (n : nat)
| PendingLine (n : nat)
| Progress (done total : nat)
| ProgressZero
| LastUpdated (time : nat).

Module ModuleTypeSummary.
Import Ledger.

(** [print_summary]: what is printed, first line first, and how the
  call ends. *)
Definition print_summary (tr : t) : list summary_line * res unit :=
let total := total_files (progress_data tr) in
let processed := processed_count (progress_data tr) in
let failed := failed_count (progress_data tr) in
let pending := length (ModuleTypeTracker.get_pending_module_types tr) in
let skipped := count_status Skipped (items (progress_data tr)) in
([ Header; TotalFound total; SuccessfullyCreated processed;
   FailedLine failed; SkippedLine skipped; PendingLine pending;
   if (total =? 0)%nat then ProgressZero
   else Progress (processed + failed + skipped) total;
   LastUpdated (last_updated (progress_data tr)) ],
 Ok tt).

(** [reset_progress]: [response] is what the user types; [removed] is
  [None] when there is no tracking file, otherwise whether
  [os.remove] succeeds. *)
Definition reset_progress (response : string) (removed : option bool)
(tr : t) : res t :=
if String.eqb (PyStr.lower response) "yes"
then
  let reload file :=
    {| progress_data := ModuleTypeTracker.load_progress file (clock tr);
       tracking_file := file; writes := writes tr; fs_ok := fs_ok tr;
       clock := clock tr + 2 |} in
  match removed with
  | Some false => Raise "OSError"
  | _ => Ok (reload None)
  end
else Ok tr.
End ModuleTypeSummary.

Module DeviceTypeSummary.
Import Ledger.

(** [print_summary]: the division is made whatever [total] is, after
  the first six lines are printed. *)
Definition print_summary (tr : t) : list summary_line * res unit :=
let total := total_files (progress_data tr) in
let processed := processed_count (progress_data tr) in
let failed := failed_count (progress_data tr) in
let pending := length (DeviceTypeTracker.get_pending_device_types tr) in
let skipped := count_status Skipped (items (progress_data tr)) in
let first := [ Header; TotalFound total; SuccessfullyCreated processed;
               FailedLine failed; SkippedLine skipped;
               PendingLine pending ] in
if (total =? 0)%nat
then (first, Raise "ZeroDivisionError: division by zero")
else (first ++ [ Progress (processed + failed + skipped) total;
                 LastUpdated (last_updated (progress_data tr)) ],
      Ok tt).

(** [reset_progress] *)
Definition reset_progress (response : string) (removed : option bool)
(tr : t) : res t :=
if String.eqb (PyStr.lower response) "yes"
then
  let reload file :=
    {| progress_data := DeviceTypeTracker.load_progress file (clock tr);
       tracking_file := file; writes := writes tr; fs_ok := fs_ok tr;
       clock := clock tr + 2 |} in
  match removed with
  | Some false => Raise "OSError"
  | _ => Ok (reload None)
  end
else Ok tr.
End DeviceTypeSummary.

(** ** [netbox_rack]: the search for an existing rack type *)

Module RackLookup.
Section with_remote.
Context {W : Type} {R : Remote W}.

(** [find_existing_rack_type]: only the lookup by id stands in a
[try]; the loop over the candidates is that of
[find_existing_module_type]. *)
Definition find_existing_rack_type (payload : gmap string node)
: M W (option record) :=
by_id <- match payload !! "id" with
       | Some i =>
           if Py.truthy_node i
           then try_except
                  (id <- lift (match Py.int i with
                               | Some z => Ok z
                               | None => Raise "ValueError"
                               end) ;;
                   Client.get "rack_types"
                     {["id" := Scalar (VInt id)]})
                  (fun _ => ret None)
           else ret None
       | None => ret None
       end ;;
match by_id with
| Some rt => ret (Some rt)
| None =>
  by_slug <- match payload !! "slug" with
             | Some sl =>
                 if Py.truthy_node sl
                 then Client.get "rack_types" {["slug" := sl]}
                 else ret None
             | None => ret None
             end ;;
  match by_slug with
  | Some rt => ret (Some rt)
  | None =>
      match payload !! "model", payload !! "manufacturer" with
      | Some mo, Some man =>
          if Py.truthy_node man
          then
            candidates <- Client.filter "rack_types"
                            {["model" := mo]} ;;
            ret (head (List.filter (NetboxModule.same_manufacturer man)
                                   candidates))
          else ret None
      | _, _ => ret None
      end
  end
end.
End with_remote.
End RackLookup.

(** ** Predicates used in the proofs *)

(** No two hyphens in a row. *)
Fixpoint no_double (l : list ascii) : bool :=
  match l with
  | c :: r =>
      match r with
      | d :: _ => negb (PyStr.is_hyphen c && PyStr.is_hyphen d) && no_double r
      | [] => true
      end
  | [] => true
  end.

Definition head_plain (l : list ascii) : bool :=
  match l with
  | d :: _ => negb (PyStr.is_hyphen d)
  | [] => true
  end.


(** A computation that leaves the state as it is. *)
Definition reads_only {W A} (m : M W A) : Prop := forall s, (m s).2 = s.



(** What [process_file] does with an item that failed with the message
    [msg]: the message goes to the error log of the item and the item is
    marked failed. *)
Definition fail_item {W} (rp : option string) (msg : string) : M W unit :=
  NetboxModule.write_error_log rp msg ;;;
  NetboxModule.tracked rp (fun rp => ModuleTypeTracker.mark_as_failed rp msg).

(** A computation that only adds write calls to those already issued;
    [extends s s'] tells that the calls of [s'] end with those of [s]. *)
Definition extends {W} (s s' : state W) : Prop :=
  exists l, calls s' = l ++ calls s.

Definition grows {W A} (m : M W A) : Prop := forall s, extends s (m s).2.

(** The three blocks of [create_or_update_component] that resolve
    references, together. *)
Definition resolve_references {W} {R : Remote W} (nb_api : bool) (mt_id : Z)
  (created_map : gmap string (gmap string Z)) (payload : gmap string value)
  : M W (outcome + gmap string value) :=
  r <- NetboxModule.resolve_rear_port nb_api mt_id created_map payload ;;
  match r with
  | inl o => ret (inl o)
  | inr payload =>
      payload <- NetboxModule.resolve_power_port nb_api mt_id created_map
                   payload ;;
      payload <- NetboxModule.resolve_manufacturer nb_api payload ;;
      ret (inr payload)
  end.

(** A computation that ends without an exception. *)
Definition no_raise {W A} (m : M W A) : Prop :=
  forall s, exists a s', m s = (Ok a, s').

(** ** Concrete inputs used below *)

(** A ledger with one registered file, marked failed by an earlier run. *)
Definition ledger_one_failed : Ledger.t :=
  {| Ledger.progress_data :=
       {| Ledger.p_created_at := 0; Ledger.last_updated := 1;
          Ledger.total_files := 1; Ledger.processed_count := 0;
          Ledger.failed_count := 1;
          Ledger.items :=
            {[ "Acme/m1.yaml" :=
                 {| Ledger.full_path := "/lib/module-types/Acme/m1.yaml";
                    Ledger.manufacturer := Scalar (VStr "Acme");
                    Ledger.model := Scalar (VStr "M1");
                    Ledger.slug := Scalar (VStr "");
                    Ledger.item_status := Failed;
                    Ledger.created_at := None;
                    Ledger.error_message :=
                      Some "Manufacturer 'Acme' not present in NetBox";
                    Ledger.netbox_id := None |} ]} |};
     Ledger.tracking_file := None; Ledger.writes := 0;
     Ledger.fs_ok := true; Ledger.clock := 2 |}.


(** A ledger with the same file, not yet processed. *)
Definition entry_m1_pending : Ledger.entry :=
  {| Ledger.full_path := "/lib/module-types/Acme/m1.yaml";
     Ledger.manufacturer := Scalar (VStr "Acme");
     Ledger.model := Scalar (VStr "M1");
     Ledger.slug := Scalar (VStr "");
     Ledger.item_status := Pending;
     Ledger.created_at := None;
     Ledger.error_message := None;
     Ledger.netbox_id := None |}.

Definition ledger_one_pending : Ledger.t :=
  {| Ledger.progress_data :=
       {| Ledger.p_created_at := 0; Ledger.last_updated := 1;
          Ledger.total_files := 1; Ledger.processed_count := 0;
          Ledger.failed_count := 0;
          Ledger.items := {[ "Acme/m1.yaml" := entry_m1_pending ]} |};
     Ledger.tracking_file := None; Ledger.writes := 0;
     Ledger.fs_ok := true; Ledger.clock := 2 |}.

(** A remote system without any entity. *)
Definition world_empty : MemStore.t :=
  {| MemStore.tables := ∅; MemStore.next_id := 1; MemStore.read_only := [] |}.

(** The definition of a module type of the manufacturer Acme. *)
Definition doc_m1 : doc :=
  [ ("manufacturer", Scalar (VStr "Acme"));
    ("model", Scalar (VStr "M1"));
    ("part_number", Scalar (VStr "M1-A")) ].

(** A remote system with the manufacturer Acme (id 1), the marker tag
    (id 2) and the module type M1 of Acme (id 3), which carries no tag. *)
Definition acme : record :=
  {| rec_id := 1;
     rec_attrs := <["name" := Plain (Scalar (VStr "Acme"))]>
                    {["slug" := Plain (Scalar (VStr "acme"))]};
     rec_tags := Some [] |}.

Definition valid_tag : record :=
  {| rec_id := 2;
     rec_attrs := <["name" := Plain (Scalar (VStr "Valid"))]>
                    {["slug" := Plain (Scalar (VStr "valid"))]};
     rec_tags := None |}.

Definition m1_untagged : record :=
  {| rec_id := 3;
     rec_attrs := <["manufacturer" := Nested 1]>
                    (<["model" := Plain (Scalar (VStr "M1"))]>
                       {["part_number" := Plain (Scalar (VStr "M1-A"))]});
     rec_tags := Some [] |}.

Definition world_m1_untagged : MemStore.t :=
  {| MemStore.tables :=
       <["manufacturers" := [acme]]>
         (<["tags" := [valid_tag]]> {["module_types" := [m1_untagged]]});
     MemStore.next_id := 4; MemStore.read_only := [] |}.

(** The payload [process_file] derives from [doc_m1] once Acme is
    resolved to the id 1. *)
Definition payload_m1 : gmap string node :=
  <["manufacturer" := Scalar (VInt 1)]>
    (<["model" := Scalar (VStr "M1")]>
       {["part_number" := Scalar (VStr "M1-A")]}).

(** One run of [process_file] on the definition [doc_m1], without a
    tracker, from the remote system [w]. *)
Definition run_m1 (w : MemStore.t) : state MemStore.t :=
  (NetboxModule.process_file "/lib/module-types/Acme/m1.yaml" "Acme"
     (Some "Acme/m1.yaml") (Ok (RawOne (YDoc doc_m1)))
     (MemStore.start w None)).2.








(** A definition whose sections appear with each referencing kind before
    the kind it refers to: front ports before rear ports, power outlets
    before power ports. *)
Definition doc_ports : doc :=
  [ ("manufacturer", Scalar (VStr "Acme"));
    ("model", Scalar (VStr "M1"));
    ("front-ports",
      List [EMap (<["name" := VStr "F1"]>
                    (<["type" := VStr "lc"]>
                       (<["rear_port" := VStr "R1"]>
                          {["rear_port_position" := VInt 1]})))]);
    ("power-outlets",
      List [EMap (<["name" := VStr "O1"]> {["power_port" := VStr "P1"]})]);
    ("rear-ports",
      List [EMap (<["name" := VStr "R1"]>
                    (<["type" := VStr "lc"]> {["positions" := VInt 1]}))]);
    ("power-ports", List [EMap {["name" := VStr "P1"]}]) ].

(** The write calls a run leaves, oldest first, each reduced to its
    endpoint and to the two reference fields of its payload. *)
Definition references_sent {W} (s : state W)
  : list (string * option node * option node) :=
  (fun c => match c with
            | Create ep p | Update ep _ p =>
                (ep, p !! "rear_port", p !! "power_port")
            end) <$> rev (calls s).

(** A front port and a power outlet whose references are written as the
    number 1 in the definition (the port they mean is named "1"), and the
    allow-lists of their kinds. *)
Definition item_front_int : gmap string value :=
  <["name" := VStr "F1"]>
    (<["type" := VStr "lc"]>
       (<["rear_port" := VInt 1]> {["rear_port_position" := VInt 1]})).

Definition item_outlet_int : gmap string value :=
  <["name" := VStr "O1"]> {["power_port" := VInt 1]}.

Definition front_port_fields : list string :=
  ["name"; "label"; "type"; "rear_port"; "rear_port_position"].

Definition power_outlet_fields : list string :=
  ["name"; "label"; "type"; "power_port"; "feed_leg"].

(** ** Further predicates and inputs *)


(** The status of a path in a tracker. *)
Definition status_of (path : string) (tr : Ledger.t) : option status :=
  Ledger.item_status <$> Ledger.items (Ledger.progress_data tr) !! path.



(** The characters a slug is made of, and the shape of a slug: only such
    characters, no hyphen at either end, no two hyphens in a row. *)
Definition slug_char (c : ascii) : bool :=
  PyStr.is_lower_ascii c || PyStr.is_digit c || PyStr.is_hyphen c.

Definition slug_shaped (l : list ascii) : Prop :=
  Forall (fun c => slug_char c = true) l
  /\ head_plain l = true
  /\ head_plain (rev l) = true
  /\ no_double l = true.

(** A remote system with the manufacturer Acme and the marker tag that
    rejects every write to the module types. *)
Definition world_rejecting : MemStore.t :=
  {| MemStore.tables :=
       <["manufacturers" := [acme]]> {["tags" := [valid_tag]]};
     MemStore.next_id := 4; MemStore.read_only := ["module_types"] |}.

(** What the write calls left by the reconciliation of one sub-template
    look like, by outcome; [p] is the payload after the references are
    resolved and [news] the calls added, latest first. *)
Definition calls_for (resource : string) (p : gmap string value)
  (o : outcome) (news : list call) : Prop :=
  let upd id := Update resource id (Client.wire (delete "module_type" p)) in
  match o with
  | OSkipped _ => news = []
  | OUpdated id => news = [upd id]
  | OCreated _ | OError _ =>
      news = [Create resource (Client.wire p)]
      \/ exists id, news = [Create resource (Client.wire p); upd id]
  end.

(** The endpoints of [COMPONENT_MAP] and the write calls a module type
    [mt_id] allows on them: a create that names it as [module_type], an
    update that leaves [module_type] out. *)
Definition component_resources : list string :=
  (fun kv => kv.2.1) <$> NetboxModule.COMPONENT_MAP.

Definition endpoint_of (c : call) : string :=
  match c with
  | Create ep _ | Update ep _ _ => ep
  end.

Definition child_call (mt_id : Z) (c : call) : Prop :=
  endpoint_of c ∈ component_resources
  /\ match c with
     | Create _ p => p !! "module_type" = Some (Scalar (VInt mt_id))
     | Update _ _ p => p !! "module_type" = None
     end.

(** A computation that only adds write calls satisfying [P] and leaves
    the ledger alone. *)
Definition adds {W A} (P : call -> Prop) (m : M W A) : Prop :=
  forall s, exists news,
    calls (m s).2 = news ++ calls s /\ Forall P news
    /\ tracker (m s).2 = tracker s.

(** The entries of an input directory that stand for a manufacturer:
    directories whose name does not start with a dot. *)
Definition visible_dir (e : ManufacturerImport.dir_entry) : bool :=
  ManufacturerImport.entry_is_dir e
  && negb (String.prefix "." (ManufacturerImport.entry_name e)).

(** The sum of the four counters printed at the end. *)
Definition total (c : ManufacturerImport.counters) : nat :=
  (ManufacturerImport.created c + ManufacturerImport.skipped c
   + ManufacturerImport.updated c + ManufacturerImport.errors c)%nat.

Definition is_create (c : call) : bool :=
  match c with
  | Create _ _ => true
  | Update _ _ _ => false
  end.

Definition creates (l : list call) : nat := length (List.filter is_create l).
Definition updates (l : list call) : nat :=
  length (List.filter (fun c => negb (is_create c)) l).

(** How the counters [c'] after a run relate to the counters [c]
    before it, the number [n] of manufacturer directories met and the
    write calls [news] issued. *)
Definition counted (c c' : ManufacturerImport.counters) (n : nat)
  (news : list call) : Prop :=
  (total c' = total c + n)%nat
  /\ (ManufacturerImport.created c' + ManufacturerImport.errors c'
      = ManufacturerImport.created c + ManufacturerImport.errors c
        + creates news)%nat
  /\ (ManufacturerImport.updated c <= ManufacturerImport.updated c'
      <= ManufacturerImport.updated c + updates news)%nat
  /\ (length news <= n)%nat
  /\ Forall (fun k => endpoint_of k = "manufacturers") news.

(** A remote system that knows Acme, untagged, and the marker tag. *)
Definition world_acme : MemStore.t :=
  {| MemStore.tables := <["manufacturers" := [acme]]> {["tags" := [valid_tag]]};
     MemStore.next_id := 3; MemStore.read_only := [] |}.

(** An input directory with Acme, a new manufacturer, a hidden
    directory and a plain file. *)
Definition dir_sample : list ManufacturerImport.dir_entry :=
  [ {| ManufacturerImport.entry_name := "Zyxel";
       ManufacturerImport.entry_is_dir := true |};
    {| ManufacturerImport.entry_name := ".git";
       ManufacturerImport.entry_is_dir := true |};
    {| ManufacturerImport.entry_name := "Acme";
       ManufacturerImport.entry_is_dir := true |};
    {| ManufacturerImport.entry_name := "README.md";
       ManufacturerImport.entry_is_dir := false |} ].

(** Acme as a client would show it with its tags given as bare ids. *)
Definition acme_bare_tag : record :=
  {| rec_id := 1;
     rec_attrs := <["name" := Plain (Scalar (VStr "Acme"))]>
                    {["slug" := Plain (Scalar (VStr "acme"))]};
     rec_tags := Some [TagId 7] |}.

Definition world_acme_bare_tag : MemStore.t :=
  {| MemStore.tables :=
       <["manufacturers" := [acme_bare_tag]]> {["tags" := [valid_tag]]};
     MemStore.next_id := 3; MemStore.read_only := [] |}.

Definition entry_acme : ManufacturerImport.dir_entry :=
  {| ManufacturerImport.entry_name := "Acme";
     ManufacturerImport.entry_is_dir := true |}.

(** ** The tree [collect_targets] walks *)

(** [subtree p t t']: following the names [p] from [t] leads to the
    directory [t']. *)
Inductive subtree : MasterCleanup.path -> MasterCleanup.tree
                    -> MasterCleanup.tree -> Prop :=
| subtree_here t : subtree [] t t
| subtree_step d t' ds fs p t'' :
    (d, t') ∈ ds -> subtree p t' t'' ->
    subtree (d :: p) (MasterCleanup.Dir ds fs) t''.

(** No directory on the way is one the walk lists for removal. *)
Definition kept (p : MasterCleanup.path) : Prop :=
  Forall (fun c => MasterCleanup.remove_dir c = false) p.

(** The files and directories that are to be removed, told from the
    tree: a file whose name fits, a directory whose name fits, each
    reached through directories that are kept. *)
Definition listed_file (t : MasterCleanup.tree) (f : MasterCleanup.path)
  : Prop :=
  exists p name ds fs,
    f = p ++ [name] /\ kept p /\ subtree p t (MasterCleanup.Dir ds fs)
    /\ name ∈ fs /\ MasterCleanup.should_remove_file name = true.

Definition listed_dir (t : MasterCleanup.tree) (d : MasterCleanup.path)
  : Prop :=
  exists p name sub ds fs,
    d = p ++ [name] /\ kept p /\ subtree p t (MasterCleanup.Dir ds fs)
    /\ (name, sub) ∈ ds /\ MasterCleanup.remove_dir name = true.

(** The part of [walk] that enters the directories kept. *)
Definition walk_below (current : MasterCleanup.path)
  : list (string * MasterCleanup.tree)
    -> list MasterCleanup.path * list MasterCleanup.path :=
  fix go (l : list (string * MasterCleanup.tree)) :=
    match l with
    | [] => ([], [])
    | d :: r =>
        if MasterCleanup.remove_dir d.1 then go r
        else
          let here := MasterCleanup.walk (current ++ [d.1]) d.2 in
          let rest := go r in
          (here.1 ++ rest.1, here.2 ++ rest.2)
    end.

(** The length of the text of a path, the key of the sort. *)
Definition text_length (root : string) (p : MasterCleanup.path) : nat :=
  String.length (MasterCleanup.path_text root p).

(** A list of paths in which none is longer, as a text, than one
    before it. *)
Fixpoint longest_first (root : string) (l : list MasterCleanup.path)
  : Prop :=
  match l with
  | [] => True
  | x :: r =>
      Forall (fun y => (text_length root y <= text_length root x)%nat) r
      /\ longest_first root r
  end.

(** The names of files that are removed, told from the lowered name:
    hidden files, the license, requirements and contributing files, and
    [readme] alone or followed by a dot. *)
Definition removable_name (n : string) : bool :=
  String.prefix "." n
  || Py.str_in n ["license"; "license.txt"; "license.md"; "license.rst";
                  "requirements.txt";
                  "contributing"; "contributing.md"; "contributing.txt"]
  || String.eqb n "readme"
  || String.prefix "readme." n.

(** ** The run of the scripts *)

(** A host that also keeps the commands it was given, latest first. *)
Definition traced {H : Type} (run : list string -> H -> res bool * H)
  (cmd : list string) (h : H * list (list string))
  : res bool * (H * list (list string)) :=
  ((run cmd h.1).1, ((run cmd h.1).2, cmd :: h.2)).

(** The command of a script: [--yes] for the cleanup alone. *)
Definition command_of (script : string) : list string :=
  if String.eqb script "master_cleanup.py" then [script; "--yes"]
  else [script].

(** The lines of the scripts that ran to their end. *)
Definition passed (l : list string) : list Main.line :=
  l ≫= (fun s => [Main.Running s; Main.Completed s]).

(** * Properties *)

(** ** The progress ledger *)

Section tracker_facts.
Import Ledger.

Lemma save_progress_items tr :
  items (progress_data (ModuleTypeTracker.save_progress tr))
  = items (progress_data tr).
Proof. reflexivity. Qed.





Lemma pending_spec tr path e :
  (path, e) ∈ ModuleTypeTracker.get_pending_module_types tr
  <-> items (progress_data tr) !! path = Some e /\ item_status e = Pending.
Proof.
  unfold ModuleTypeTracker.get_pending_module_types.
  rewrite list_elem_of_filter, elem_of_map_to_list. simpl. tauto.
Qed.

(** Each of the two operations recomputes the count of its own status
    from the items, and what it writes is the ledger it leaves in
    memory. *)
Lemma mark_as_created_count tr path nb_id e :
  items (progress_data tr) !! path = Some e ->
  let p' := progress_data (ModuleTypeTracker.mark_as_created path nb_id tr) in
  processed_count p' = count_status Created (items p')
  /\ failed_count p' = failed_count (progress_data tr)
  /\ (fs_ok tr = true ->
      tracking_file (ModuleTypeTracker.mark_as_created path nb_id tr)
      = Some p').
Proof.
  intros He. unfold ModuleTypeTracker.mark_as_created. rewrite He. simpl.
  repeat split. by intros ->.
Qed.

Lemma mark_as_failed_count tr path msg e :
  items (progress_data tr) !! path = Some e ->
  let p' := progress_data (ModuleTypeTracker.mark_as_failed path msg tr) in
  failed_count p' = count_status Failed (items p')
  /\ processed_count p' = processed_count (progress_data tr)
  /\ (fs_ok tr = true ->
      tracking_file (ModuleTypeTracker.mark_as_failed path msg tr)
      = Some p').
Proof.
  intros He. unfold ModuleTypeTracker.mark_as_failed. rewrite He. simpl.
  repeat split. by intros ->.
Qed.
End tracker_facts.


(** C10: for a path that is not registered in the ledger, each of
    mark-created, mark-failed and mark-skipped, of the module-type tracker
    and of the device-type tracker, returns the tracker as it was: the
    ledger in memory, the tracking file and the count of writes made on it
    are unchanged, and no error is raised (the operations are total). *)
Theorem C10_unregistered_path_noop :
  forall (tr : Ledger.t) (path : string) (nb_id : option Z) (msg : string),
    Ledger.items (Ledger.progress_data tr) !! path = None ->
    (ModuleTypeTracker.mark_as_created path nb_id tr = tr
     /\ ModuleTypeTracker.mark_as_failed path msg tr = tr
     /\ ModuleTypeTracker.mark_as_skipped path msg tr = tr)
    /\ (DeviceTypeTracker.mark_as_created path nb_id tr = tr
        /\ DeviceTypeTracker.mark_as_failed path msg tr = tr
        /\ DeviceTypeTracker.mark_as_skipped path msg tr = tr).
Proof.
  intros tr path nb_id msg Hnone.
  unfold ModuleTypeTracker.mark_as_created, ModuleTypeTracker.mark_as_failed,
    ModuleTypeTracker.mark_as_skipped, DeviceTypeTracker.mark_as_created,
    DeviceTypeTracker.mark_as_failed, DeviceTypeTracker.mark_as_skipped.
  rewrite Hnone. repeat split.
Qed.

(** The ledger with one file, asked about a path it does not hold. *)
Lemma C10_unregistered_path_noop_witness :
  Ledger.items (Ledger.progress_data ledger_one_failed) !! "Acme/other.yaml"
  = None
  /\ ModuleTypeTracker.mark_as_created "Acme/other.yaml" (Some 7)
       ledger_one_failed = ledger_one_failed.
Proof.
  split; [reflexivity|].
  apply (C10_unregistered_path_noop ledger_one_failed "Acme/other.yaml"
           (Some 7) "").
  reflexivity.
Defined.

(** C6, at a ledger whose only item was marked failed by an earlier run
    and is now marked created: the counts agreed with the items before the
    call ([failed_count] is 1 and one item is failed); after it, in memory
    and in the tracking file, [processed_count] is the number of created
    items, but [failed_count] is still 1 while no item is failed. *)
Theorem C6_failed_count_stale_after_mark_created :
  let tr := ledger_one_failed in
  let tr' := ModuleTypeTracker.mark_as_created "Acme/m1.yaml" (Some 7) tr in
  let p' := Ledger.progress_data tr' in
  Ledger.failed_count (Ledger.progress_data tr)
  = Ledger.count_status Failed (Ledger.items (Ledger.progress_data tr))
  /\ Ledger.processed_count (Ledger.progress_data tr)
     = Ledger.count_status Created (Ledger.items (Ledger.progress_data tr))
  /\ Ledger.tracking_file tr' = Some p'
  /\ Ledger.processed_count p' = 1%nat
  /\ Ledger.count_status Created (Ledger.items p') = 1%nat
  /\ Ledger.failed_count p' = 1%nat
  /\ Ledger.count_status Failed (Ledger.items p') = 0%nat.
Proof. vm_compute. repeat split. Qed.

(** ** Slug derivation *)

Section slug_facts.
Import PyStr.

Lemma chars_str l : chars (str l) = l.
Proof. apply list_ascii_of_string_of_list_ascii. Qed.

Ltac by_cases_on c :=
  destruct c as [[] [] [] [] [] [] [] []]; vm_compute; try reflexivity;
  try discriminate; try tauto.

Lemma isspace_lower c : isspace (lower_char c) = isspace c.
Proof. by_cases_on c. Qed.

Lemma lower_not_upper c : is_upper_ascii (lower_char c) = false.
Proof. by_cases_on c. Qed.

Lemma is_hyphen_eq c : is_hyphen c = true -> c = "-"%char.
Proof. by_cases_on c. Qed.

Lemma is_amp_not_upper c :
  is_upper_ascii c = false ->
  Forall (fun d => is_upper_ascii d = false)
         (if is_amp c then chars "and" else [c]).
Proof.
  intros H. destruct (is_amp c).
  - repeat constructor.
  - by constructor.
Qed.

Lemma lstrip_map p f l :
  (forall c, p (f c) = p c) ->
  lstrip_by p (map f l) = map f (lstrip_by p l).
Proof.
  intros Hp. induction l as [|c l IH]; simpl; [done|].
  rewrite Hp. by destruct (p c).
Qed.

Lemma strip_map p f l :
  (forall c, p (f c) = p c) ->
  strip_by p (map f l) = map f (strip_by p l).
Proof.
  intros Hp. unfold strip_by.
  rewrite lstrip_map, <- map_rev, lstrip_map, map_rev by done. done.
Qed.

Lemma lstrip_suffix p l : exists pre, l = pre ++ lstrip_by p l.
Proof.
  induction l as [|c l [pre IH]]; simpl.
  - by exists [].
  - destruct (p c).
    + exists (c :: pre). simpl. by rewrite <- IH.
    + by exists [].
Qed.

Lemma lstrip_Forall (P : ascii -> Prop) p l :
  Forall P l -> Forall P (lstrip_by p l).
Proof.
  intros H. destruct (lstrip_suffix p l) as [pre Hl].
  rewrite Hl in H. by apply Forall_app in H as [_ H].
Qed.

Lemma strip_Forall (P : ascii -> Prop) p l :
  Forall P l -> Forall P (strip_by p l).
Proof.
  intros H. unfold strip_by.
  apply Forall_rev, lstrip_Forall, Forall_rev, lstrip_Forall, H.
Qed.

Lemma sub_runs_ext p q b l :
  Forall (fun c => p c = q c) l -> sub_runs p b l = sub_runs q b l.
Proof.
  intros H. revert b. induction H as [|c l Hc _ IH]; intros b; simpl; [done|].
  rewrite Hc. destruct (q c), b; by rewrite ?IH.
Qed.

Lemma spec_class_agrees c :
  is_upper_ascii c = false ->
  negb (SlugSpec.is_alnum c) = not_slug_char c.
Proof.
  intros H. unfold SlugSpec.is_alnum, not_slug_char. rewrite H.
  by rewrite orb_false_r.
Qed.

Lemma sub_runs_no_double p l :
  (forall c, is_hyphen c = true -> p c = true) ->
  no_double (sub_runs p false l) = true
  /\ no_double (sub_runs p true l) = true
  /\ head_plain (sub_runs p true l) = true.
Proof.
  intros Hp. induction l as [|c l (IH1 & IH2 & IH3)]; simpl; [done|].
  destruct (p c) eqn:Hc.
  - repeat split; try done.
    destruct (sub_runs p true l) as [|d r] eqn:Hr; [done|].
    change (negb (is_hyphen "-"%char && is_hyphen d) && no_double (d :: r)
            = true).
    simpl in IH3. apply negb_true_iff in IH3. rewrite IH3.
    by rewrite andb_false_r.
  - assert (is_hyphen c = false) as Hh.
    { destruct (is_hyphen c) eqn:E; [|done]. apply Hp in E. congruence. }
    assert (no_double (c :: sub_runs p false l) = true) as Hnd.
    { destruct (sub_runs p false l) as [|d r] eqn:Hr; [done|].
      change (negb (is_hyphen c && is_hyphen d) && no_double (d :: r)
              = true).
      by rewrite Hh, IH1. }
    repeat split; try done. simpl. by rewrite Hh.
Qed.

Lemma no_double_split l :
  no_double l = true <->
  forall l1 c d l2, l = l1 ++ c :: d :: l2 ->
                    is_hyphen c && is_hyphen d = false.
Proof.
  split.
  - intros H l1. revert l H. induction l1 as [|a l1 IH];
      intros l H c d l2 ->; simpl in H.
    + apply andb_true_iff in H as [H _]. by apply negb_true_iff in H.
    + destruct (l1 ++ c :: d :: l2) as [|b r] eqn:E.
      { by destruct l1. }
      apply andb_true_iff in H as [_ H]. rewrite <- E in H.
      by eapply IH.
  - induction l as [|a [|b r] IH]; intros H; try done.
    simpl. apply andb_true_iff. split.
    + apply negb_true_iff. by apply (H [] a b r).
    + apply IH. intros l1 c d l2 E. apply (H (a :: l1) c d l2).
      simpl. by rewrite E.
Qed.

Lemma no_double_lstrip p l :
  no_double l = true -> no_double (lstrip_by p l) = true.
Proof.
  rewrite !no_double_split. intros H l1 c d l2 E.
  destruct (lstrip_suffix p l) as [pre Hl].
  apply (H (pre ++ l1) c d l2). rewrite Hl at 1. rewrite E.
  by rewrite <- app_assoc.
Qed.

Lemma no_double_rev l : no_double l = true -> no_double (rev l) = true.
Proof.
  rewrite !no_double_split. intros H l1 c d l2 E.
  rewrite andb_comm. apply (H (rev l2) d c (rev l1)).
  rewrite <- (rev_involutive l), E, rev_app_distr. simpl.
  by rewrite <- !app_assoc.
Qed.

Lemma no_double_strip p l :
  no_double l = true -> no_double (strip_by p l) = true.
Proof.
  intros H. unfold strip_by.
  by apply no_double_rev, no_double_lstrip, no_double_rev, no_double_lstrip.
Qed.

Lemma sub_hyphens2_id_aux l :
  no_double l = true ->
  sub_hyphens2_from 0 l = l
  /\ (head_plain l = true -> sub_hyphens2_from 1 l = "-"%char :: l).
Proof.
  induction l as [|c l IH]; intros H; [done|].
  assert (no_double l = true) as Hl.
  { simpl in H. destruct l; [done|]. by apply andb_true_iff in H as [_ H]. }
  destruct (IH Hl) as [IH0 IH1]. simpl.
  destruct (is_hyphen c) eqn:Hc.
  - split; [|done].
    apply is_hyphen_eq in Hc as ->. apply IH1.
    simpl in H. destruct l as [|d r]; [done|]. simpl.
    apply andb_true_iff in H as [H _]. simpl in H.
    by destruct (is_hyphen d).
  - by rewrite IH0.
Qed.

Lemma sub_hyphens2_id l : no_double l = true -> sub_hyphens2 l = l.
Proof. intros H. by apply sub_hyphens2_id_aux. Qed.

Lemma hyphen_not_slug c : is_hyphen c = true -> not_slug_char c = true.
Proof. intros H. by apply is_hyphen_eq in H as ->. Qed.

Lemma slugify_refines_spec name :
  NetboxModule.slugify name = SlugSpec.slug name.
Proof.
  unfold NetboxModule.slugify, SlugSpec.slug, lower, strip, replace_amp,
    strip_hyphens.
  rewrite !chars_str.
  rewrite sub_hyphens2_id.
  2:{ apply no_double_strip.
      apply (sub_runs_no_double not_slug_char), hyphen_not_slug. }
  rewrite (strip_map isspace lower_char) by apply isspace_lower.
  f_equal. f_equal. symmetry. apply sub_runs_ext.
  apply Forall_forall. intros c Hc. apply spec_class_agrees.
  apply list_elem_of_In, in_flat_map in Hc as (a & Ha & Hc).
  apply in_map_iff in Ha as (a0 & <- & _).
  pose proof (is_amp_not_upper _ (lower_not_upper a0)) as HF.
  rewrite Forall_forall in HF. by apply HF, list_elem_of_In.
Qed.
End slug_facts.

(** C9: [slugify] is a function of its input that computes what the
    specification words (lowercase, trim, [&] to [and], every run of
    non-alphanumeric characters to one hyphen, hyphens trimmed at both
    ends); it maps ["Cisco & Co."] to ["cisco-and-co"] and ["A--B  c"] to
    ["a-b-c"]; and the copies of it in [netbox_manufacturer] and
    [netbox_rack] compute the same slug on every string. *)
Theorem C9_slugify_spec :
  (forall name, NetboxModule.slugify name = SlugSpec.slug name)
  /\ NetboxModule.slugify "Cisco & Co." = "cisco-and-co"
  /\ NetboxModule.slugify "A--B  c" = "a-b-c"
  /\ (forall name,
        NetboxManufacturer.slugify name = NetboxModule.slugify name
        /\ NetboxRack.slugify name = NetboxModule.slugify name).
Proof.
  split; [apply slugify_refines_spec|].
  split; [reflexivity|]. split; [reflexivity|].
  intros name. split; reflexivity.
Qed.

(** ** Payload normalization *)

Section payload_facts.
Import NetboxModule.

Lemma get_cons {A} k k' (v : A) d :
  Py.get k ((k', v) :: d) = if decide (k = k') then Some v else Py.get k d.
Proof.
  simpl. destruct (String.eqb_spec k k'); by case_decide.
Qed.

Lemma get_None {A} k (d : list (string * A)) :
  k ∉ d.*1 -> Py.get k d = None.
Proof.
  induction d as [|[k' v] d IH]; intros H; [done|].
  rewrite get_cons. apply not_elem_of_cons in H as [Hne H].
  case_decide; [done|]. by apply IH.
Qed.

Lemma normalize_fold_lookup (k : string) (raw : doc) :
  forall acc : gmap string node,
    NoDup raw.*1 ->
    foldl (fun payload kv =>
             if Py.str_in kv.1 ALLOWED_FIELDS
             then <[kv.1 := normalize_value kv.1 kv.2]> payload
             else payload) acc raw !! k
    = match Py.get k raw with
      | Some v => if Py.str_in k ALLOWED_FIELDS
                  then Some (normalize_value k v) else acc !! k
      | None => acc !! k
      end.
Proof.
  induction raw as [|[k' v'] raw IH]; intros acc Hnd; [done|].
  apply NoDup_cons in Hnd as [Hk' Hnd]. cbn [foldl].
  rewrite IH by done. rewrite get_cons. cbn [fst snd].
  case_decide as Hk.
  - subst k'. rewrite get_None by done.
    destruct (Py.str_in k ALLOWED_FIELDS); [|done].
    by rewrite lookup_insert_eq.
  - assert ((if Py.str_in k' ALLOWED_FIELDS
             then <[k' := normalize_value k' v']> acc else acc) !! k
            = acc !! k) as ->; [|done].
    destruct (Py.str_in k' ALLOWED_FIELDS); [|done].
    by rewrite lookup_insert_ne.
Qed.

Lemma normalize_payload_lookup (raw : doc) (k : string) :
  NoDup raw.*1 ->
  normalize_payload raw !! k
  = if Py.str_in k ALLOWED_FIELDS
    then normalize_value k <$> Py.get k raw else None.
Proof.
  intros Hnd. unfold normalize_payload.
  rewrite normalize_fold_lookup by done.
  destruct (Py.get k raw), (Py.str_in k ALLOWED_FIELDS); done.
Qed.

Lemma build_fold_lookup (allowed : list string) (item : gmap string value)
  (k : string) :
  map_fold (fun k v (payload : gmap string value) =>
              if Py.str_in k allowed
              then <[k := component_value k v]> payload
              else payload) ∅ item !! k
  = if Py.str_in k allowed then component_value k <$> item !! k else None.
Proof.
  revert k.
  apply (map_fold_weak_ind
           (fun (payload : gmap string value) (m : gmap string value) =>
              forall k, payload !! k
                        = if Py.str_in k allowed
                          then component_value k <$> m !! k else None)).
  - intros k. rewrite !lookup_empty. by destruct (Py.str_in k allowed).
  - intros i x m r Hi IH k.
    destruct (decide (i = k)) as [->|Hne].
    + rewrite lookup_insert_eq.
      destruct (Py.str_in k allowed) eqn:Hk.
      * by rewrite lookup_insert_eq.
      * rewrite IH, Hk. done.
    + rewrite lookup_insert_ne by done.
      destruct (Py.str_in i allowed).
      * rewrite lookup_insert_ne by done. apply IH.
      * apply IH.
Qed.

Lemma build_payload_lookup allowed item mt_id k :
  build_payload allowed item mt_id !! k
  = if decide (k = "module_type") then Some (VInt mt_id)
    else if Py.str_in k allowed then component_value k <$> item !! k
         else None.
Proof.
  unfold build_payload. case_decide as Hk.
  - subst. by rewrite lookup_insert_eq.
  - rewrite lookup_insert_ne by done. apply build_fold_lookup.
Qed.
End payload_facts.

(** C8, the claim as stated fails: the parent normalization keeps the
    string ["yes"] under [description] as it is; the payload of a
    sub-template keeps the string ["1"] as it is, turns the number under
    [position] into a string, and holds the key [module_type], which is no
    key of the input. *)
Lemma C8_counterexample :
  NetboxModule.normalize_payload [("description", Scalar (VStr "yes"))]
    !! "description" = Some (Scalar (VStr "yes"))
  /\ NetboxModule.build_payload ["name"; "label"; "position"]
       (<["label" := VStr "1"]> {["position" := VInt 2]}) 7
     = <["label" := VStr "1"]>
         (<["position" := VStr "2"]> {["module_type" := VInt 7]}).
Proof. split; vm_compute; reflexivity. Qed.

(** C8, amended.  For a document with distinct keys, the parent payload
    holds exactly the input keys of the allow-list; under
    [exclude_from_utilization] and [is_full_depth] a string becomes the
    boolean telling whether its lowercase is ["true"], ["yes"] or ["1"]
    and any other value becomes its truth value; every other kept value
    is unchanged, also the strings that spell a boolean.  The payload of a
    sub-template holds [module_type], set to the id of the parent, and
    besides it exactly the input keys of the allow-list of its kind; a
    [position] other than [None] becomes its string form; any other
    string whose lowercase is ["true"], ["false"], ["yes"] or ["no"]
    becomes the boolean it spells; every other kept value is unchanged,
    ["1"] and ["0"] included. *)
Theorem C8_payload_normalization :
  forall (raw : doc) (allowed : list string) (item : gmap string value)
         (mt_id : Z),
    NoDup raw.*1 ->
    (forall k,
        NetboxModule.normalize_payload raw !! k
        = if Py.str_in k NetboxModule.ALLOWED_FIELDS
          then match Py.get k raw with
               | None => None
               | Some v =>
                   if Py.str_in k ["exclude_from_utilization"; "is_full_depth"]
                   then match v with
                        | Scalar (VStr s) =>
                            Some (Scalar (VBool (Py.str_in (PyStr.lower s)
                                                   ["true"; "yes"; "1"])))
                        | _ => Some (Scalar (VBool (Py.truthy_node v)))
                        end
                   else Some v
               end
          else None)
    /\ (forall k,
          NetboxModule.build_payload allowed item mt_id !! k
          = if decide (k = "module_type") then Some (VInt mt_id)
            else if Py.str_in k allowed
            then match item !! k with
                 | None => None
                 | Some v =>
                     if String.eqb k "position" && negb (Py.is_none v)
                     then Some (VStr (Py.str v))
                     else match v with
                          | VStr s =>
                              if Py.str_in (PyStr.lower s)
                                   ["true"; "false"; "yes"; "no"]
                              then Some (VBool (Py.str_in (PyStr.lower s)
                                                  ["true"; "yes"]))
                              else Some v
                          | _ => Some v
                          end
                 end
            else None).
Proof.
  intros raw allowed item mt_id Hnd. split.
  - intros k. rewrite normalize_payload_lookup by done.
    destruct (Py.str_in k NetboxModule.ALLOWED_FIELDS); [|done].
    destruct (Py.get k raw) as [v|]; [|done].
    unfold NetboxModule.normalize_value. cbn [fmap option_fmap option_map].
    destruct (Py.str_in k ["exclude_from_utilization"; "is_full_depth"]);
      [|done].
    by destruct v as [[]| |].
  - intros k. rewrite build_payload_lookup.
    case_decide; [done|].
    destruct (Py.str_in k allowed); [|done].
    destruct (item !! k) as [v|]; [|done].
    unfold NetboxModule.component_value. cbn [fmap option_fmap option_map].
    destruct (String.eqb k "position" && negb (Py.is_none v)); [done|].
    destruct v as [| | |s]; try done.
    destruct (Py.str_in (PyStr.lower s) ["true"; "false"; "yes"; "no"]) eqn:E;
      [|done].
    do 2 f_equal. unfold Py.str_in in *. cbn [existsb] in *.
    destruct (String.eqb (PyStr.lower s) "true"); [done|].
    destruct (String.eqb (PyStr.lower s) "yes"); [done|].
    destruct (String.eqb_spec (PyStr.lower s) "1") as [E1|]; [|done].
    rewrite E1 in E. done.
Qed.

(** A document with a model, a string under [is_full_depth] and an empty
    section. *)
Lemma C8_payload_normalization_witness :
  NoDup ([("model", Scalar (VStr "X")); ("is_full_depth", Scalar (VStr "Yes"));
          ("interfaces", List [])] : doc).*1
  /\ NetboxModule.normalize_payload
       [("model", Scalar (VStr "X")); ("is_full_depth", Scalar (VStr "Yes"));
        ("interfaces", List [])] !! "is_full_depth"
     = Some (Scalar (VBool true)).
Proof.
  split; [apply (bool_decide_unpack _); vm_compute; exact I|].
  pose proof (C8_payload_normalization
                [("model", Scalar (VStr "X"));
                 ("is_full_depth", Scalar (VStr "Yes"));
                 ("interfaces", List [])] [] ∅ 0) as H.
  destruct H as [H _].
  - apply (bool_decide_unpack _); vm_compute; exact I.
  - rewrite (H "is_full_depth"). reflexivity.
Defined.

(** ** Reasoning about the engine *)

Section engine_facts.
Context {W : Type} {R : Remote W}.
Import NetboxModule.

Lemma reads_ret {A} (a : A) : reads_only (ret a : M W A).
Proof. by intros s. Qed.

Lemma reads_raise {A} e : reads_only (raise e : M W A).
Proof. by intros s. Qed.

Lemma reads_lift {A} (r : res A) : reads_only (lift r : M W A).
Proof. by intros s. Qed.

Lemma reads_get ep crit : reads_only (Client.get ep crit).
Proof. by intros s. Qed.

Lemma reads_filter ep crit : reads_only (Client.filter ep crit).
Proof. by intros s. Qed.

Lemma reads_bind {A B} (m : M W A) (k : A -> M W B) :
  reads_only m -> (forall a, reads_only (k a)) -> reads_only (bind m k).
Proof.
  intros Hm Hk s. unfold bind. specialize (Hm s).
  destruct (m s) as [[a|e] s1]; simpl in *; subst; [apply Hk|done].
Qed.

Lemma reads_try {A} (m : M W A) (h : string -> M W A) :
  reads_only m -> (forall e, reads_only (h e)) -> reads_only (try_except m h).
Proof.
  intros Hm Hh s. unfold try_except. specialize (Hm s).
  destruct (m s) as [[a|e] s1]; simpl in *; subst; [done|apply Hh].
Qed.

Lemma reads_run {A} (m : M W A) s :
  reads_only m -> m s = ((m s).1, s).
Proof. intros H. rewrite <- (H s) at 3. by destruct (m s). Qed.

Ltac reads :=
  repeat first
    [ apply reads_ret | apply reads_raise | apply reads_lift
    | apply reads_get | apply reads_filter
    | apply reads_bind; [|intros ?]
    | apply reads_try; [|intros ?]
    | match goal with
      | |- reads_only (match ?x with _ => _ end) => destruct x
      | |- reads_only (if ?x then _ else _) => destruct x
      | |- reads_only (let _ := _ in _) => cbv zeta
      end ].

Lemma reads_ensure_manufacturer name :
  reads_only (ensure_manufacturer name).
Proof. unfold ensure_manufacturer. reads. Qed.

Lemma reads_find_existing_module_type payload :
  reads_only (find_existing_module_type payload).
Proof. unfold find_existing_module_type. reads. Qed.

Lemma reads_resolve_rear_port nb_api mt_id cm payload :
  reads_only (resolve_rear_port nb_api mt_id cm payload).
Proof. unfold resolve_rear_port. reads. Qed.

Lemma reads_resolve_power_port nb_api mt_id cm payload :
  reads_only (resolve_power_port nb_api mt_id cm payload).
Proof. unfold resolve_power_port. reads. Qed.

Lemma reads_resolve_manufacturer nb_api payload :
  reads_only (resolve_manufacturer nb_api payload).
Proof.
  unfold resolve_manufacturer. reads; apply reads_ensure_manufacturer.
Qed.

Lemma reads_find_template resource mt_id payload :
  reads_only (find_template resource mt_id payload).
Proof. unfold find_template. reads. Qed.
End engine_facts.

(** ** Manufacturer gating *)

Section gating_facts.
Context {W : Type} {R : Remote W}.
Import NetboxModule.

Lemma slugify_obj_str x : slugify_obj (Scalar (VStr x)) = Ok (slugify x).
Proof. reflexivity. Qed.



Lemma ensure_valid_tag_effect (s : state W) :
  exists r s1,
    ensure_valid_tag s = (Ok r, s1)
    /\ tracker s1 = tracker s /\ errlog s1 = errlog s
    /\ (s1 = s \/ exists p, calls s1 = Create "tags" p :: calls s).
Proof.
  unfold ensure_valid_tag, bind, try_except, Client.get, Client.create, ret.
  destruct (nb_get "tags" _ (world s)) as [[tag|]|e]; simpl.
  - eexists _, _. split; [done|]. repeat split; by left.
  - destruct (nb_create "tags" _ (world s)) as [[created|e] w'] eqn:Hc;
      rewrite ?Hc; simpl; eexists _, _; (split; [done|]);
      repeat split; right; by eexists.
  - destruct (nb_create "tags" _ (world s)) as [[created|e'] w'] eqn:Hc;
      rewrite ?Hc; simpl; eexists _, _; (split; [done|]);
      repeat split; right; by eexists.
Qed.

Lemma mark_as_failed_lookup tr rp msg e :
  Ledger.items (Ledger.progress_data tr) !! rp = Some e ->
  exists e',
    Ledger.items (Ledger.progress_data
                    (ModuleTypeTracker.mark_as_failed rp msg tr)) !! rp
    = Some e'
    /\ Ledger.item_status e' = Failed
    /\ Ledger.error_message e' = Some msg.
Proof.
  intros He. unfold ModuleTypeTracker.mark_as_failed. rewrite He. simpl.
  rewrite lookup_insert_eq. by eexists.
Qed.


End gating_facts.



(** ** The marker tag *)

Section tag_facts.
Context {W : Type} {R : Remote W}.

Lemma count_appended (ids : list Z) (v : Z) :
  v ∉ ids ->
  length (filter (fun i => i = v) (ids ++ [v])) = 1%nat.
Proof.
  intros Hv. rewrite filter_app, length_app.
  assert (filter (fun i => i = v) ids = []) as ->.
  { induction ids as [|i ids IH]; [done|].
    apply not_elem_of_cons in Hv as [Hne Hv].
    rewrite filter_cons_False by done. by apply IH. }
  rewrite filter_cons_True by done. reflexivity.
Qed.

Lemma tag_id_TagId (l : list Z) : NetboxRack.tag_id <$> (TagId <$> l) = l.
Proof.
  induction l as [|i l IH]; [done|]. rewrite !fmap_cons. by f_equal.
Qed.

Lemma current_tag_ids_set i a (l : list Z) :
  NetboxRack.current_tag_ids
    {| rec_id := i; rec_attrs := a; rec_tags := Some (TagId <$> l) |} = l.
Proof. unfold NetboxRack.current_tag_ids. simpl. apply tag_id_TagId. Qed.

Lemma add_valid_tag_noop (existing vt : record) (s : state W) :
  rec_id vt ∈ NetboxRack.current_tag_ids existing ->
  NetboxRack.add_valid_tag_to_existing existing (Some vt) s
  = (Ok (false, existing), s).
Proof.
  intros Hin. unfold NetboxRack.add_valid_tag_to_existing.
  by rewrite bool_decide_eq_true_2.
Qed.

Lemma normalize_payload_no_tags (d : doc) :
  NetboxModule.normalize_payload d !! "tags" = None.
Proof.
  unfold NetboxModule.normalize_payload.
  assert (forall acc : gmap string node,
             acc !! "tags" = None ->
             foldl (fun payload kv =>
                      if Py.str_in kv.1 NetboxModule.ALLOWED_FIELDS
                      then <[kv.1 := NetboxModule.normalize_value kv.1 kv.2]>
                             payload
                      else payload) acc d !! "tags" = None) as H.
  { induction d as [|[k v] d IH]; intros acc Hacc; [done|].
    cbn [foldl fst snd]. apply IH.
    destruct (Py.str_in k NetboxModule.ALLOWED_FIELDS) eqn:Hk; [|done].
    rewrite lookup_insert_ne; [done|]. intros ->. discriminate Hk. }
  by apply H.
Qed.
End tag_facts.

(** C7, the claim as stated fails for an entity reconciled by update: the
    module type M1 exists remotely without the marker tag, the marker tag
    exists (id 2), and [process_file] reconciles M1 by update, twice in a
    row.  Each run issues the update of the module type and nothing else,
    and M1 is left without any tag: the marker tag appears zero times. *)
Lemma C7_counterexample :
  let s1 := run_m1 world_m1_untagged in
  let s2 := run_m1 (world s1) in
  (NetboxModule.ensure_valid_tag (MemStore.start world_m1_untagged None)).1
  = Ok (Some 2)
  /\ calls s1 = [Update "module_types" 3 payload_m1]
  /\ calls s2 = [Update "module_types" 3 payload_m1]
  /\ rec_tags <$> MemStore.table "module_types" (world s1) = [Some []]
  /\ rec_tags <$> MemStore.table "module_types" (world s2) = [Some []].
Proof. vm_compute. repeat split. Qed.

(** C7, amended.  Ensuring the marker tag, which [add_valid_tag_to_existing]
    does for an existing rack type and [process_file] for a module type
    it has just created, writes back only when the id of the marker tag
    is not among the tag ids of the entity: then one update is issued
    whose tag list is the tag ids of the entity, unchanged and in order,
    followed by the marker id, which so occurs exactly once in it, and
    repeating the step on the entity as it is left writes nothing; when
    the marker id is already there nothing is written and nothing
    changes.  A module type reconciled by update is not tagged: the
    payload of that update has no [tags] field. *)
Theorem C7_marker_tag_added_once :
  forall (W : Type) (R : Remote W) (s : state W)
         (existing vt created : record) (vid : Z) (d : doc) (man_id : Z),
    let ids := NetboxRack.current_tag_ids existing in
    let out := NetboxRack.add_valid_tag_to_existing existing (Some vt) s in
    (if bool_decide (rec_id vt ∈ ids)
     then out = (Ok (false, existing), s)
     else exists b existing',
         out.1 = Ok (b, existing')
         /\ rec_id existing' = rec_id existing
         /\ rec_attrs existing' = rec_attrs existing
         /\ NetboxRack.current_tag_ids existing' = ids ++ [rec_id vt]
         /\ calls out.2
            = Update "rack_types" (rec_id existing)
                {["tags" := Client.ids (ids ++ [rec_id vt])]} :: calls s
         /\ length (filter (fun i => i = rec_id vt) (ids ++ [rec_id vt]))
            = 1%nat
         /\ forall s2 : state W,
             NetboxRack.add_valid_tag_to_existing existing' (Some vt) s2
             = (Ok (false, existing'), s2))
    /\ (match NetboxModule.tag_ids_of created with
        | Ok cids =>
            if bool_decide (vid = 0 \/ vid ∈ cids)
            then NetboxModule.tag_created (Some vid) created s = (Ok tt, s)
            else calls (NetboxModule.tag_created (Some vid) created s).2
                 = Update "module_types" (rec_id created)
                     {["tags" := Client.ids (cids ++ [vid])]} :: calls s
                 /\ length (filter (fun i => i = vid) (cids ++ [vid])) = 1%nat
        | Raise _ =>
            NetboxModule.tag_created (Some vid) created s = (Ok tt, s)
        end)
    /\ (<["manufacturer" := Scalar (VInt man_id)]>
          (NetboxModule.normalize_payload d) : gmap string node) !! "tags"
       = None.
Proof.
  intros W R s existing vt created vid d man_id ids out.
  split; [|split].
  - subst out. unfold NetboxRack.add_valid_tag_to_existing. fold ids.
    case_bool_decide as Hin; [done|].
    set (ex0 := {| rec_id := rec_id existing;
                   rec_attrs := rec_attrs existing;
                   rec_tags := Some (TagId <$> ids ++ [rec_id vt]) |}).
    assert (NetboxRack.current_tag_ids ex0 = ids ++ [rec_id vt]) as Hids0
      by apply current_tag_ids_set.
    assert (forall s2 : state W,
               NetboxRack.add_valid_tag_to_existing ex0 (Some vt) s2
               = (Ok (false, ex0), s2)) as Hagain.
    { intros s2. apply add_valid_tag_noop. rewrite Hids0. set_solver. }
    pose proof (count_appended ids (rec_id vt) Hin) as Hcount.
    unfold try_except, bind, Client.update, ret.
    destruct (nb_update "rack_types" _ _ (world s)) as [[[]|e] w'] eqn:Hu;
      simpl.
    + exists true, ex0. repeat (split; [done|]). done.
    + exists false, ex0. repeat (split; [done|]). done.
  - destruct (NetboxModule.tag_ids_of created) as [cids|e] eqn:Hids.
    + unfold NetboxModule.tag_created.
      case_bool_decide as Hc.
      * destruct (Z.eqb_spec vid 0) as [|Hne]; [done|].
        destruct Hc as [?|Hin]; [done|].
        unfold try_except, bind, lift, ret. rewrite Hids.
        by rewrite bool_decide_eq_true_2.
      * destruct (Z.eqb_spec vid 0) as [|Hne]; [tauto|].
        unfold try_except, bind, lift, ret, Client.update. rewrite Hids.
        rewrite bool_decide_eq_false_2 by tauto.
        split; [|apply count_appended; tauto].
        by destruct (nb_update "module_types" _ _ (world s)) as [[[]|?] ?].
    + unfold NetboxModule.tag_created.
      destruct (Z.eqb_spec vid 0) as [->|Hne]; [done|].
      unfold try_except, bind, lift, ret. by rewrite Hids.
  - rewrite lookup_insert_ne by done. apply normalize_payload_no_tags.
Qed.

(** ** Write calls only accumulate *)

Section grows_facts.
Context {W : Type} {R : Remote W}.
Import NetboxModule.

Lemma extends_refl (s : state W) : extends s s.
Proof. by exists []. Qed.

Lemma extends_trans (s1 s2 s3 : state W) :
  extends s1 s2 -> extends s2 s3 -> extends s1 s3.
Proof.
  intros [l1 H1] [l2 H2]. exists (l2 ++ l1).
  by rewrite H2, H1, app_assoc.
Qed.

Lemma grows_reads {A} (m : M W A) : reads_only m -> grows m.
Proof. intros H s. rewrite H. apply extends_refl. Qed.

Lemma grows_ret {A} (a : A) : grows (ret a : M W A).
Proof. intros s. apply extends_refl. Qed.

Lemma grows_raise {A} e : grows (raise e : M W A).
Proof. intros s. apply extends_refl. Qed.

Lemma grows_bind {A B} (m : M W A) (k : A -> M W B) :
  grows m -> (forall a, grows (k a)) -> grows (bind m k).
Proof.
  intros Hm Hk s. unfold bind. specialize (Hm s).
  destruct (m s) as [[a|e] s1]; simpl in *; [|done].
  eapply extends_trans; [exact Hm|apply Hk].
Qed.

Lemma grows_try {A} (m : M W A) (h : string -> M W A) :
  grows m -> (forall e, grows (h e)) -> grows (try_except m h).
Proof.
  intros Hm Hh s. unfold try_except. specialize (Hm s).
  destruct (m s) as [[a|e] s1]; simpl in *; [done|].
  eapply extends_trans; [exact Hm|apply Hh].
Qed.

Lemma grows_create ep payload : grows (Client.create ep payload).
Proof.
  intros s. unfold Client.create.
  destruct (nb_create ep payload (world s)) as [r w']. by exists [Create ep payload].
Qed.

Lemma grows_update ep id payload : grows (Client.update ep id payload).
Proof.
  intros s. unfold Client.update.
  destruct (nb_update ep id payload (world s)) as [r w'].
  by exists [Update ep id payload].
Qed.

Lemma grows_available ep : grows (Client.resource_available ep).
Proof. intros s. apply extends_refl. Qed.

Lemma grows_write_error_log rp msg : grows (write_error_log (W:=W) rp msg).
Proof. intros s. by exists []. Qed.

Lemma grows_tracked rp op : grows (tracked (W:=W) rp op).
Proof.
  intros s. unfold tracked.
  destruct (tracker s), rp as [rp|]; try by exists [].
  destruct (String.eqb rp ""); by exists [].
Qed.

Lemma grows_fold_m {A B} (f : A -> B -> M W A) (l : list B) :
  (forall a b, grows (f a b)) -> forall a, grows (fold_m f a l).
Proof.
  intros Hf. induction l as [|b l IH]; intros a; simpl.
  - apply grows_ret.
  - apply grows_bind; [apply Hf|apply IH].
Qed.

Ltac grows :=
  repeat first
    [ apply grows_ret | apply grows_raise
    | apply grows_create | apply grows_update | apply grows_available
    | apply grows_write_error_log | apply grows_tracked
    | apply grows_reads;
      first [ apply reads_resolve_rear_port | apply reads_resolve_power_port
            | apply reads_resolve_manufacturer | apply reads_find_template
            | apply reads_ensure_manufacturer
            | apply reads_find_existing_module_type
            | apply reads_lift | apply reads_get | apply reads_filter ]
    | apply grows_bind; [|intros ?]
    | apply grows_try; [|intros ?]
    | apply grows_fold_m; intros ? ?
    | match goal with
      | |- grows (match ?x with _ => _ end) => destruct x
      | |- grows (if ?x then _ else _) => destruct x
      | |- grows (let _ := _ in _) => cbv zeta
      end ].





End grows_facts.

(** ** Create, update or skip *)

Section reconcile_facts.
Context {W : Type} {R : Remote W}.
Import NetboxModule.

Lemma reads_resolve_references nb_api mt_id cm payload :
  reads_only (resolve_references (W:=W) nb_api mt_id cm payload).
Proof.
  unfold resolve_references.
  apply reads_bind; [apply reads_resolve_rear_port|]. intros [o|p].
  - apply reads_ret.
  - apply reads_bind; [apply reads_resolve_power_port|]. intros p2.
    apply reads_bind; [apply reads_resolve_manufacturer|]. intros p3.
    apply reads_ret.
Qed.

Lemma reads_result {A} (m : M W A) (s : state W) (r : res A) :
  reads_only m -> (m s).1 = r -> m s = (r, s).
Proof. intros Hm <-. by apply reads_run. Qed.

Lemma create_or_update_component_steps resource mt_id item allowed nb_api cm
  (s : state W) :
  create_or_update_component resource mt_id item allowed nb_api cm s
  = (r <- resolve_references nb_api mt_id cm
            (build_payload allowed item mt_id) ;;
     match r with
     | inl o => ret o
     | inr payload =>
         existing <- find_template resource mt_id payload ;;
         reconcile_template resource mt_id existing payload
     end) s.
Proof.
  unfold create_or_update_component, resolve_references, bind.
  destruct (resolve_rear_port _ _ _ _ s) as [[[o|p]|e] s1]; try done.
  destruct (resolve_power_port _ _ _ _ s1) as [[p2|e] s2]; try done.
  destruct (resolve_manufacturer _ _ s2) as [[p3|e] s3]; done.
Qed.





End reconcile_facts.




(** ** The order of the sub-template kinds *)

Section order_facts.
Context {W : Type} {R : Remote W}.
Import NetboxModule.

Lemma get_Some_iff {A} k (v : A) (d : list (string * A)) :
  NoDup d.*1 -> Py.get k d = Some v <-> (k, v) ∈ d.
Proof.
  induction d as [|[k' v'] d IH]; intros Hnd.
  - split; [done|]. by intros ?%elem_of_nil.
  - apply NoDup_cons in Hnd as [Hk' Hnd]. rewrite get_cons, elem_of_cons.
    case_decide as Hk.
    + subst k'. split.
      * intros [= ->]. by left.
      * intros [[= ->]|Hin]; [done|].
        destruct Hk'. apply list_elem_of_fmap. by exists (k, v).
    + rewrite IH by done. split; [by right|].
      intros [[= ? ?]|Hin]; [done|done].
Qed.

Lemma get_perm {A} k (d d' : list (string * A)) :
  NoDup d.*1 -> d ≡ₚ d' -> Py.get k d = Py.get k d'.
Proof.
  intros Hnd Hp.
  assert (NoDup d'.*1) as Hnd' by (by rewrite <- Hp).
  destruct (Py.get k d) as [v|] eqn:E.
  - symmetry. apply get_Some_iff; [done|]. rewrite <- Hp.
    by apply get_Some_iff.
  - destruct (Py.get k d') as [v'|] eqn:E'; [|done].
    apply get_Some_iff in E'; [|done]. rewrite <- Hp in E'.
    apply get_Some_iff in E'; [|done]. congruence.
Qed.

Lemma fold_m_ext {A B} (f g : A -> B -> M W A) (l : list B) :
  (forall a b s, f a b s = g a b s) ->
  forall a s, fold_m f a l s = fold_m g a l s.
Proof.
  intros Hfg. induction l as [|b l IH]; intros a s; simpl; [done|].
  unfold bind. rewrite Hfg. destruct (g a b s) as [[a'|e] s']; [apply IH|done].
Qed.

Lemma process_components_perm mt_id (d d' : doc) rp (s : state W) :
  NoDup d.*1 -> d ≡ₚ d' ->
  process_components mt_id d rp s = process_components mt_id d' rp s.
Proof.
  intros Hnd Hp. unfold process_components, bind.
  rewrite (fold_m_ext (process_key rp mt_id d) (process_key rp mt_id d')).
  - done.
  - intros acc key s1. unfold process_key.
    by rewrite (get_perm key d d').
Qed.
End order_facts.

(** C4: the kinds of sub-templates are processed in one fixed order, in
    which rear ports come before front ports and power ports before power
    outlets; what [process_components] does is the same for two documents
    with the same sections in different orders; and for the document
    [doc_ports], whose front-port section precedes its rear-port section
    and whose power-outlet section precedes its power-port section, all
    four sub-templates are created, the rear port and the power port
    first, and the front port and the power outlet are sent with the ids
    just given to the rear port and to the power port. *)
Theorem C4_dependency_order :
  forall (W : Type) (R : Remote W) (s : state W) (mt_id : Z) (d d' : doc)
         (rp : option string),
    NoDup d.*1 ->
    d ≡ₚ d' ->
    NetboxModule.ordered_keys
    = [ "rear-ports"; "console-ports"; "console-server-ports"; "power-ports";
        "power-outlets"; "interfaces"; "front-ports"; "module-bays";
        "device-bays"; "inventory-items" ]
    /\ (exists i j, NetboxModule.ordered_keys !! i = Some "rear-ports"
                    /\ NetboxModule.ordered_keys !! j = Some "front-ports"
                    /\ (i < j)%nat)
    /\ (exists i j, NetboxModule.ordered_keys !! i = Some "power-ports"
                    /\ NetboxModule.ordered_keys !! j = Some "power-outlets"
                    /\ (i < j)%nat)
    /\ NetboxModule.process_components mt_id d rp s
       = NetboxModule.process_components mt_id d' rp s
    /\ (let run := NetboxModule.process_components 3 doc_ports None
                     (MemStore.start world_m1_untagged None) in
        run.1 = Ok [ ("rear_port_templates", OCreated 4);
                     ("power_port_templates", OCreated 5);
                     ("power_outlet_templates", OCreated 6);
                     ("front_port_templates", OCreated 7) ]
        /\ references_sent run.2
           = [ ("rear_port_templates", None, None);
               ("power_port_templates", None, None);
               ("power_outlet_templates", None, Some (Scalar (VInt 5)));
               ("front_port_templates", Some (Scalar (VInt 4)), None) ]).
Proof.
  intros W R s mt_id d d' rp Hnd Hp.
  split; [reflexivity|].
  split; [exists 0%nat, 6%nat; repeat split; lia|].
  split; [exists 3%nat, 4%nat; repeat split; lia|].
  split; [by apply process_components_perm|].
  vm_compute. split; reflexivity.
Qed.

(** The document [doc_ports] and the same document with its keys in the
    reverse order. *)
Lemma C4_dependency_order_witness :
  NoDup doc_ports.*1
  /\ doc_ports ≡ₚ rev doc_ports
  /\ NetboxModule.process_components 3 doc_ports None
       (MemStore.start world_m1_untagged None)
     = NetboxModule.process_components 3 (rev doc_ports) None
         (MemStore.start world_m1_untagged None).
Proof.
  assert (NoDup doc_ports.*1) as Hnd
    by (apply (bool_decide_unpack _); vm_compute; exact I).
  assert (doc_ports ≡ₚ rev doc_ports) as Hp
    by apply Permutation_rev.
  split; [exact Hnd|]. split; [exact Hp|].
  exact (proj1 (proj2 (proj2 (proj2
           (C4_dependency_order MemStore.t MemStore.remote
              (MemStore.start world_m1_untagged None) 3 doc_ports
              (rev doc_ports) None Hnd Hp))))).
Defined.

(** ** Unresolved references *)

Section reference_facts.
Context {W : Type} {R : Remote W}.
Import NetboxModule.

(** A reference that is an integer (or a boolean) in the payload and is
    not in the cache is taken for an id: no lookup is made, the payload
    goes on as it is. *)
Lemma rear_port_int_passes nb_api mt_id cm payload (v : value)
  (s : state W) :
  payload !! "rear_port" = Some v ->
  Py.is_int v = true ->
  lookup_created cm "rear_port_templates" v = None ->
  resolve_rear_port nb_api mt_id cm payload s = (Ok (inr payload), s).
Proof.
  intros Hp Hint Hcm. unfold resolve_rear_port. rewrite Hp, Hcm.
  destruct v; try discriminate; simpl; unfold try_except;
    rewrite Hp; reflexivity.
Qed.

Lemma power_port_int_passes nb_api mt_id cm payload (v : value)
  (s : state W) :
  payload !! "power_port" = Some v ->
  Py.is_int v = true ->
  lookup_created cm "power_port_templates" v = None ->
  resolve_power_port nb_api mt_id cm payload s = (Ok payload, s).
Proof.
  intros Hp Hint Hcm. unfold resolve_power_port. rewrite Hp, Hcm.
  destruct v; try discriminate; simpl; unfold try_except;
    rewrite Hp; reflexivity.
Qed.

(** A reference given by a name that resolves neither in the cache nor
    remotely: the front port is an error, without any write. *)
Lemma rear_port_unresolved_error mt_id cm payload (r : string)
  (all : list record) (s : state W) :
  payload !! "rear_port" = Some (VStr r) ->
  lookup_created cm "rear_port_templates" (VStr r) = None ->
  nb_filter "rear_port_templates"
    (<["module_type" := Scalar (VInt mt_id)]> {["name" := Scalar (VStr r)]})
    (world s) = Ok [] ->
  nb_filter "rear_port_templates" {["module_type" := Scalar (VInt mt_id)]}
    (world s) = Ok all ->
  filter_by_name (VStr r) all = Ok [] ->
  resolve_rear_port true mt_id cm payload s
  = (Ok (inl (OError ("rear_port '" +:+ r +:+ "' not found"))), s).
Proof.
  intros Hp Hcm Hf1 Hf2 Hf3. unfold resolve_rear_port.
  rewrite Hp, Hcm. cbn [Py.is_none].
  unfold try_except. rewrite Hp. simpl.
  unfold bind, Client.filter, lift, ret. rewrite Hf1. simpl.
  rewrite Hf2, Hf3. reflexivity.
Qed.

(** The same for the power port of a power outlet: the field is dropped
    and the payload goes on. *)
Lemma power_port_unresolved_dropped mt_id cm payload (r : string)
  (s : state W) :
  payload !! "power_port" = Some (VStr r) ->
  lookup_created cm "power_port_templates" (VStr r) = None ->
  nb_filter "power_port_templates"
    (<["module_type" := Scalar (VInt mt_id)]> {["name" := Scalar (VStr r)]})
    (world s) = Ok [] ->
  resolve_power_port true mt_id cm payload s
  = (Ok (delete "power_port" payload), s).
Proof.
  intros Hp Hcm Hf1. unfold resolve_power_port.
  rewrite Hp, Hcm. cbn [Py.is_none].
  unfold try_except. rewrite Hp. simpl.
  unfold bind, Client.filter, ret. rewrite Hf1. reflexivity.
Qed.
End reference_facts.

(** C5, at a front port and a power outlet whose references are the
    number 1, with an empty cache and no rear port and no power port in
    the remote system: the reference resolves nowhere, yet no lookup is
    made and no error results for the front port, which is created with
    [rear_port] set to 1, and the [power_port] field of the power outlet
    is not dropped but sent as 1.  A reference written as the string "1"
    in the same situation gives the error for the front port and is
    dropped for the power outlet. *)
Theorem C5_integer_reference_taken_for_id :
  let s0 := MemStore.start world_m1_untagged None in
  let front := NetboxModule.create_or_update_component "front_port_templates"
                 3 item_front_int front_port_fields true ∅ s0 in
  let outlet := NetboxModule.create_or_update_component
                  "power_outlet_templates" 3 item_outlet_int
                  power_outlet_fields true ∅ s0 in
  MemStore.table "rear_port_templates" world_m1_untagged = []
  /\ MemStore.table "power_port_templates" world_m1_untagged = []
  /\ front.1 = Ok (OCreated 4)
  /\ references_sent front.2
     = [("front_port_templates", Some (Scalar (VInt 1)), None)]
  /\ outlet.1 = Ok (OCreated 4)
  /\ references_sent outlet.2
     = [("power_outlet_templates", None, Some (Scalar (VInt 1)))]
  /\ (NetboxModule.create_or_update_component "front_port_templates" 3
        (<["rear_port" := VStr "1"]> item_front_int) front_port_fields true
        ∅ s0)
     = (Ok (OError "rear_port '1' not found"), s0)
  /\ references_sent
       (NetboxModule.create_or_update_component "power_outlet_templates" 3
          (<["power_port" := VStr "1"]> item_outlet_int) power_outlet_fields
          true ∅ s0).2
     = [("power_outlet_templates", None, None)].
Proof. vm_compute. repeat split. Qed.

(** ** An error in one sub-template does not stop the others *)

Section continue_facts.
Context {W : Type} {R : Remote W}.
Import NetboxModule.

Lemma no_raise_ret {A} (a : A) : no_raise (ret a : M W A).
Proof. intros s. by eexists _, _. Qed.

Lemma no_raise_bind {A B} (m : M W A) (k : A -> M W B) :
  no_raise m -> (forall a, no_raise (k a)) -> no_raise (bind m k).
Proof.
  intros Hm Hk s. unfold bind. destruct (Hm s) as (a & s1 & ->).
  apply Hk.
Qed.

Lemma no_raise_try {A} (m : M W A) (h : string -> M W A) :
  (forall e, no_raise (h e)) -> no_raise (try_except m h).
Proof.
  intros Hh s. unfold try_except.
  destruct (m s) as [[a|e] s1]; [by eexists _, _|apply Hh].
Qed.

Lemma no_raise_write_error_log rp msg :
  no_raise (write_error_log (W:=W) rp msg).
Proof. intros s. by eexists _, _. Qed.

Ltac no_raise :=
  repeat first
    [ apply no_raise_ret | apply no_raise_write_error_log
    | apply no_raise_try; intros ?
    | apply no_raise_bind; [|intros ?]
    | match goal with
      | |- no_raise (match ?x with _ => _ end) => destruct x
      | |- no_raise (if ?x then _ else _) => destruct x
      | |- no_raise (let _ := _ in _) => cbv zeta
      end ].

Lemma no_raise_create_or_update_component resource mt_id item allowed
  nb_api cm :
  no_raise (create_or_update_component resource mt_id item allowed nb_api cm).
Proof.
  unfold create_or_update_component, resolve_rear_port, resolve_power_port,
    resolve_manufacturer, find_template, reconcile_template.
  no_raise.
Qed.

(** Whatever the result for one sub-template, an error included, the
    loop goes on with the next one. *)
Lemma process_item_continues rp resource allowed mt_id acc item :
  no_raise (process_item rp resource allowed mt_id acc (EMap item)).
Proof.
  unfold process_item.
  apply no_raise_bind; [apply no_raise_create_or_update_component|].
  intros o. no_raise.
Qed.

Lemma fold_items_continues rp resource allowed mt_id
  (items : list (gmap string value)) :
  forall acc,
    no_raise (fold_m (process_item rp resource allowed mt_id) acc
                     (EMap <$> items)).
Proof.
  induction items as [|item items IH]; intros acc; simpl.
  - apply no_raise_ret.
  - apply no_raise_bind; [apply process_item_continues|apply IH].
Qed.
End continue_facts.

(** * Further properties of the code *)

(** ** The progress ledger: frame, counts, persistence, discovery *)

Section ledger_more.
Import Ledger.




End ledger_more.

(** X1: marking one path created, failed or skipped leaves the entry of
    every other path, the set of registered paths and the file count as
    they were. *)
Theorem X1_mark_touches_one_entry :
  forall (tr : Ledger.t) (path path' : string) (nb_id : option Z)
         (msg : string),
    path' <> path ->
    let c := ModuleTypeTracker.mark_as_created path nb_id tr in
    let f := ModuleTypeTracker.mark_as_failed path msg tr in
    let k := ModuleTypeTracker.mark_as_skipped path msg tr in
    let its t := Ledger.items (Ledger.progress_data t) in
    (its c !! path' = its tr !! path'
     /\ its f !! path' = its tr !! path'
     /\ its k !! path' = its tr !! path')
    /\ (dom (its c) = dom (its tr) /\ dom (its f) = dom (its tr)
        /\ dom (its k) = dom (its tr))
    /\ (Ledger.total_files (Ledger.progress_data c)
        = Ledger.total_files (Ledger.progress_data tr)
        /\ Ledger.total_files (Ledger.progress_data f)
           = Ledger.total_files (Ledger.progress_data tr)
        /\ Ledger.total_files (Ledger.progress_data k)
           = Ledger.total_files (Ledger.progress_data tr)).
Proof.
  intros tr path path' nb_id msg Hne c f k its. subst c f k its.
  unfold ModuleTypeTracker.mark_as_created, ModuleTypeTracker.mark_as_failed,
    ModuleTypeTracker.mark_as_skipped.
  destruct (Ledger.items (Ledger.progress_data tr) !! path) as [e|] eqn:He;
    [|done].
  cbn. rewrite !lookup_insert_ne by done.
  rewrite !dom_insert_lookup_L by (rewrite He; eauto).
  repeat split.
Qed.

Lemma X1_mark_touches_one_entry_witness :
  "Acme/other.yaml" <> "Acme/m1.yaml"
  /\ Ledger.items (Ledger.progress_data
       (ModuleTypeTracker.mark_as_created "Acme/m1.yaml" (Some 7)
          ledger_one_pending)) !! "Acme/other.yaml"
     = Ledger.items (Ledger.progress_data ledger_one_pending)
         !! "Acme/other.yaml".
Proof.
  split; [discriminate|].
  exact (proj1 (proj1 (X1_mark_touches_one_entry ledger_one_pending
                         "Acme/m1.yaml" "Acme/other.yaml" (Some 7) ""
                         ltac:(discriminate)))).
Defined.






(** X5: after a path is marked created, failed or skipped, the pending
    query returns the entries that were pending before, without that
    path: a finished item is not handed out again and no other item
    leaves or enters the pending list. *)
Theorem X5_marked_item_leaves_pending :
  forall (tr : Ledger.t) (path : string) (nb_id : option Z) (msg : string)
         (p : string) (e : Ledger.entry),
    let pending := ModuleTypeTracker.get_pending_module_types in
    ((p, e) ∈ pending (ModuleTypeTracker.mark_as_created path nb_id tr)
     <-> (p, e) ∈ pending tr /\ p <> path)
    /\ ((p, e) ∈ pending (ModuleTypeTracker.mark_as_failed path msg tr)
        <-> (p, e) ∈ pending tr /\ p <> path)
    /\ ((p, e) ∈ pending (ModuleTypeTracker.mark_as_skipped path msg tr)
        <-> (p, e) ∈ pending tr /\ p <> path).
Proof.
  intros tr path nb_id msg p e pending. subst pending.
  rewrite !pending_spec.
  unfold ModuleTypeTracker.mark_as_created, ModuleTypeTracker.mark_as_failed,
    ModuleTypeTracker.mark_as_skipped.
  destruct (Ledger.items (Ledger.progress_data tr) !! path) as [e0|] eqn:He.
  - cbn. destruct (decide (p = path)) as [->|Hne].
    + rewrite !lookup_insert_eq.
      split; [|split];
        (split; [ intros [[= <-] Hst]; simpl in Hst; discriminate Hst
                | intros [_ Hp]; by destruct Hp ]).
    + rewrite !lookup_insert_ne by done. tauto.
  - assert (Ledger.items (Ledger.progress_data tr) !! p = Some e -> p <> path)
      by congruence.
    tauto.
Qed.

(** ** The shape of a slug *)

Section slug_more.
Import PyStr.

Lemma slug_char_facts c :
slug_char c = true ->
isspace c = false /\ lower_char c = c /\ is_amp c = false
/\ (not_slug_char c = true -> is_hyphen c = true)
/\ (not_slug_char c = false -> is_hyphen c = false).
Proof.
destruct c as [[] [] [] [] [] [] [] []]; vm_compute; intros H;
  try discriminate H; repeat split; intros; congruence.
Qed.

Lemma sub_runs_chars p b l :
Forall (fun c => slug_char c = true \/ p c = true) l ->
(forall c, p c = false -> slug_char c = true) ->
Forall (fun c => slug_char c = true) (sub_runs p b l).
Proof.
intros _ Hp. revert b. induction l as [|c l IH]; intros b; simpl; [done|].
destruct (p c) eqn:Hc.
- destruct b; [apply IH|]. constructor; [reflexivity|apply IH].
- constructor; [by apply Hp|apply IH].
Qed.

Lemma lstrip_head p l :
match lstrip_by p l with c :: _ => p c = false | [] => True end.
Proof.
induction l as [|c l IH]; simpl; [done|].
destruct (p c) eqn:Hc; [done|]. simpl. done.
Qed.

Lemma lstrip_id p l :
match l with c :: _ => p c = false | [] => True end -> lstrip_by p l = l.
Proof. destruct l as [|c l]; simpl; [done|]. by intros ->. Qed.

Lemma head_plain_iff l :
head_plain l = true
<-> match l with c :: _ => is_hyphen c = false | [] => True end.
Proof.
destruct l as [|c l]; simpl; [done|]. by rewrite negb_true_iff.
Qed.

Lemma strip_hyphen_ends l :
head_plain (strip_by is_hyphen l) = true
/\ head_plain (rev (strip_by is_hyphen l)) = true.
Proof.
unfold strip_by. rewrite rev_involutive. split.
- pose proof (lstrip_head is_hyphen l) as Hh.
  destruct (lstrip_suffix is_hyphen (rev (lstrip_by is_hyphen l)))
    as [pre Hpre].
  apply (f_equal (@rev ascii)) in Hpre.
  rewrite rev_involutive, rev_app_distr in Hpre.
  apply head_plain_iff.
  destruct (rev (lstrip_by is_hyphen (rev (lstrip_by is_hyphen l))))
    as [|c r]; [done|].
  rewrite Hpre in Hh. exact Hh.
- apply head_plain_iff, lstrip_head.
Qed.

Lemma slugify_chars name :
chars (NetboxModule.slugify name)
= strip_by is_hyphen
    (sub_runs not_slug_char false
       (chars (replace_amp (lower (strip name))))).
Proof.
unfold NetboxModule.slugify, strip_hyphens. rewrite !chars_str.
apply sub_hyphens2_id, no_double_strip.
apply (sub_runs_no_double not_slug_char), hyphen_not_slug.
Qed.

Lemma slugify_shaped name : slug_shaped (chars (NetboxModule.slugify name)).
Proof.
rewrite slugify_chars. split; [|split; [|split]].
- apply strip_Forall, sub_runs_chars.
  + apply Forall_forall. intros c _.
    destruct (not_slug_char c) eqn:E; [by right|left].
    unfold slug_char. unfold not_slug_char in E.
    apply negb_false_iff in E. by rewrite E.
  + intros c E. unfold slug_char. unfold not_slug_char in E.
    apply negb_false_iff in E. by rewrite E.
- apply strip_hyphen_ends.
- apply strip_hyphen_ends.
- apply no_double_strip.
  apply (sub_runs_no_double not_slug_char), hyphen_not_slug.
Qed.

Lemma strip_none p l :
Forall (fun c => p c = false) l -> strip_by p l = l.
Proof.
intros H. unfold strip_by.
rewrite (lstrip_id p l) by (destruct H; done).
rewrite lstrip_id, rev_involutive; [done|].
apply Forall_rev in H. destruct H; done.
Qed.

Lemma strip_ends l :
head_plain l = true -> head_plain (rev l) = true ->
strip_by is_hyphen l = l.
Proof.
intros H1 H2. unfold strip_by.
rewrite (lstrip_id is_hyphen l) by (by apply head_plain_iff).
rewrite lstrip_id, rev_involutive; [done|]. by apply head_plain_iff.
Qed.

Lemma sub_runs_id_aux l :
Forall (fun c => slug_char c = true) l ->
no_double l = true ->
sub_runs not_slug_char false l = l
/\ (head_plain l = true -> sub_runs not_slug_char true l = l).
Proof.
induction 1 as [|c l Hc Hl IH]; intros Hnd; [done|].
assert (no_double l = true) as Hnd'.
{ simpl in Hnd. destruct l; [done|]. by apply andb_true_iff in Hnd as [_ ?]. }
destruct (IH Hnd') as [IH0 IH1].
destruct (slug_char_facts c Hc) as (_ & _ & _ & Hy & Hn).
simpl. destruct (not_slug_char c) eqn:E.
- specialize (Hy eq_refl). split.
  + apply is_hyphen_eq in Hy as Heq. subst c. f_equal. apply IH1.
    simpl in Hnd. destruct l as [|d r]; [done|].
    apply andb_true_iff in Hnd as [Hnd _]. simpl in *.
    by destruct (is_hyphen d).
  + intros Hh. apply negb_true_iff in Hh. congruence.
- split; intros; by rewrite IH0.
Qed.

Lemma slug_shaped_fixed l :
slug_shaped l ->
strip_by is_hyphen
  (sub_runs not_slug_char false
     (chars (replace_amp (lower (strip (str l)))))) = l.
Proof.
intros (Hc & Hh & Ht & Hnd).
unfold replace_amp, lower, strip. rewrite !chars_str.
rewrite (strip_none isspace l).
2:{ eapply Forall_impl; [exact Hc|]. intros c H.
    by destruct (slug_char_facts c H) as (? & _). }
assert (map lower_char l = l) as ->.
{ clear -Hc. induction Hc as [|c l H _ IH]; [done|]. simpl.
  destruct (slug_char_facts c H) as (_ & -> & _). by rewrite IH. }
assert (flat_map (fun c => if is_amp c then chars "and" else [c]) l = l)
  as ->.
{ clear -Hc. induction Hc as [|c l H _ IH]; [done|]. cbn [flat_map].
  destruct (slug_char_facts c H) as (_ & _ & -> & _).
  change ([c] ++ ?x) with (c :: x). by f_equal. }
destruct (sub_runs_id_aux l Hc Hnd) as [-> _].
by apply strip_ends.
Qed.
End slug_more.

(** X6: a slug is made of the letters a-z, the digits and hyphens only,
    neither starts nor ends with a hyphen and has no two hyphens in a
    row; and deriving the slug of a slug gives it back. *)
Theorem X6_slugify_shape_and_idempotence :
  forall name : string,
    slug_shaped (PyStr.chars (NetboxModule.slugify name))
    /\ NetboxModule.slugify (NetboxModule.slugify name)
       = NetboxModule.slugify name.
Proof.
  intros name. split; [apply slugify_shaped|].
  assert (forall t, PyStr.str (PyStr.chars t) = t) as Hround
    by apply string_of_list_ascii_of_string.
  set (l := PyStr.chars (NetboxModule.slugify name)).
  assert (NetboxModule.slugify name = PyStr.str l) as Hl
    by (symmetry; apply Hround).
  rewrite <- (Hround (NetboxModule.slugify (NetboxModule.slugify name))).
  rewrite slugify_chars. rewrite Hl at 1.
  rewrite (slug_shaped_fixed l (slugify_shaped name)). by rewrite Hl.
Qed.

(** ** [process_file]: failures stay inside the item *)

Section file_more.
Context {W : Type} {R : Remote W}.
Import NetboxModule.

Lemma no_raise_tracked rp op : no_raise (tracked (W:=W) rp op).
Proof.
intros s. unfold tracked.
destruct (tracker s), rp as [rp|]; try by eexists _, _.
destruct (String.eqb rp ""); by eexists _, _.
Qed.

Lemma no_raise_ensure_valid_tag : no_raise (ensure_valid_tag (W:=W)).
Proof.
intros s. destruct (ensure_valid_tag_effect s) as (r & s1 & H & _).
by exists r, s1.
Qed.

Lemma no_raise_fail_item rp msg : no_raise (fail_item (W:=W) rp msg).
Proof.
unfold fail_item. apply no_raise_bind; [apply no_raise_write_error_log|].
intros _. apply no_raise_tracked.
Qed.

Lemma process_file_no_raise filepath parent_name rp parsed :
no_raise (process_file (W:=W) filepath parent_name rp parsed).
Proof.
unfold process_file.
apply no_raise_bind; [apply no_raise_ensure_valid_tag|]. intros vt.
apply no_raise_try. intros e. apply (no_raise_fail_item rp).
Qed.

Lemma mark_as_skipped_lookup tr rp msg e :
Ledger.items (Ledger.progress_data tr) !! rp = Some e ->
exists e',
  Ledger.items (Ledger.progress_data
                  (ModuleTypeTracker.mark_as_skipped rp msg tr)) !! rp
  = Some e'
  /\ Ledger.item_status e' = Skipped
  /\ Ledger.error_message e' = Some msg.
Proof.
intros He. unfold ModuleTypeTracker.mark_as_skipped. rewrite He. simpl.
rewrite lookup_insert_eq. by eexists.
Qed.
End file_more.

(** X7: [process_file] never raises, whatever the remote client does and
    whatever reading and parsing the file gave: every failure ends as a
    log record and a status of the item, and the batch goes on. *)
Theorem X7_process_file_never_raises :
  forall (W : Type) (R : Remote W) (filepath parent_name : string)
         (rp : option string) (parsed : res raw) (s : state W),
    exists s', NetboxModule.process_file filepath parent_name rp parsed s
               = (Ok tt, s').
Proof.
  intros W R filepath parent_name rp parsed s.
  destruct (process_file_no_raise filepath parent_name rp parsed s)
    as ([] & s' & H).
  by exists s'.
Qed.

(** X8: for a tracked file, after the marker-tag step that opens
    [process_file]: an empty YAML file is marked skipped with the reason
    "Empty YAML file", and a file that cannot be read or parsed is marked
    failed with the message "File processing error: " followed by the
    text of the exception.  In both cases one record goes to the error
    log of the item, no write call is issued and the remote system is
    not touched. *)
Theorem X8_empty_or_unreadable_file :
  forall (W : Type) (R : Remote W) (s : state W)
         (filepath parent_name rp : string) (tr : Ledger.t)
         (e : Ledger.entry) (err : string),
    tracker s = Some tr ->
    rp <> "" ->
    Ledger.items (Ledger.progress_data tr) !! rp = Some e ->
    let s1 := (NetboxModule.ensure_valid_tag s).2 in
    let after parsed :=
      (NetboxModule.process_file filepath parent_name (Some rp) parsed s).2 in
    let entry_of s' :=
      tracker s' ≫= fun tr' =>
        Ledger.items (Ledger.progress_data tr') !! rp in
    (Ledger.item_status <$> entry_of (after (Ok RawNone)) = Some Skipped
     /\ (entry_of (after (Ok RawNone)) ≫= Ledger.error_message)
        = Some "Empty YAML file"
     /\ errlog (after (Ok RawNone))
        = (Some rp, "Empty YAML file: " +:+ filepath) :: errlog s
     /\ calls (after (Ok RawNone)) = calls s1
     /\ world (after (Ok RawNone)) = world s1)
    /\ (Ledger.item_status <$> entry_of (after (Raise err)) = Some Failed
        /\ (entry_of (after (Raise err)) ≫= Ledger.error_message)
           = Some ("File processing error: " +:+ err)
        /\ errlog (after (Raise err))
           = (Some rp, "File processing error: " +:+ err) :: errlog s
        /\ calls (after (Raise err)) = calls s1
        /\ world (after (Raise err)) = world s1).
Proof.
  intros W R s filepath parent_name rp tr e err Htr Hrp He s1 after entry_of.
  destruct (ensure_valid_tag_effect s) as (vt & s1' & Hvt & Htr1 & Hlog & _).
  assert (s1 = s1') as Hs1 by (subst s1; by rewrite Hvt).
  rewrite <- Hs1 in *. clear Hs1 s1'.
  assert (tracker s1 = Some tr) as Htr1' by congruence.
  destruct (mark_as_skipped_lookup tr rp "Empty YAML file" e He)
    as (e1 & He1 & Hst1 & Hm1).
  destruct (mark_as_failed_lookup tr rp ("File processing error: " +:+ err)
              e He) as (e2 & He2 & Hst2 & Hm2).
  assert (after (Ok RawNone)
          = {| world := world s1; calls := calls s1;
               tracker := Some (ModuleTypeTracker.mark_as_skipped rp
                                  "Empty YAML file" tr);
               errlog := (Some rp, "Empty YAML file: " +:+ filepath)
                           :: errlog s1 |}) as ->.
  { subst after. cbv beta. unfold NetboxModule.process_file.
    unfold bind at 1. rewrite Hvt.
    unfold try_except, lift, bind, NetboxModule.write_error_log,
      NetboxModule.tracked. cbn. rewrite Htr1'.
    by destruct (String.eqb_spec rp ""). }
  assert (after (Raise err)
          = {| world := world s1; calls := calls s1;
               tracker := Some (ModuleTypeTracker.mark_as_failed rp
                                  ("File processing error: " +:+ err) tr);
               errlog := (Some rp, "File processing error: " +:+ err)
                           :: errlog s1 |}) as ->.
  { subst after. cbv beta. unfold NetboxModule.process_file.
    unfold bind at 1. rewrite Hvt.
    unfold try_except, lift, bind, NetboxModule.write_error_log,
      NetboxModule.tracked. cbn. rewrite Htr1'.
    by destruct (String.eqb_spec rp ""). }
  subst entry_of. cbn. rewrite He1, He2. cbn.
  rewrite Hst1, Hm1, Hst2, Hm2, Hlog. repeat split.
Qed.

Lemma X8_empty_or_unreadable_file_witness :
  tracker (MemStore.start world_empty (Some ledger_one_pending))
  = Some ledger_one_pending
  /\ (Ledger.item_status <$>
        (tracker
           (NetboxModule.process_file "/lib/module-types/Acme/m1.yaml"
              "Acme" (Some "Acme/m1.yaml") (Ok RawNone)
              (MemStore.start world_empty (Some ledger_one_pending))).2
         ≫= fun tr' =>
              Ledger.items (Ledger.progress_data tr') !! "Acme/m1.yaml"))
     = Some Skipped.
Proof.
  split; [reflexivity|].
  exact (proj1 (proj1 (X8_empty_or_unreadable_file MemStore.t MemStore.remote
                         (MemStore.start world_empty (Some ledger_one_pending))
                         "/lib/module-types/Acme/m1.yaml" "Acme"
                         "Acme/m1.yaml" ledger_one_pending entry_m1_pending
                         "" eq_refl ltac:(discriminate) eq_refl))).
Defined.

(** X9: when the manufacturer is resolved and the remote system rejects
    the write of the parent entity (the update of the module type found,
    or the create when none is found), the item is marked failed with the
    message "Failed to update: " or "Failed to create: " followed by the
    text of the rejection; that write is the only call issued for the
    definition, so no sub-template is sent, and nothing is raised. *)
Theorem X9_rejected_parent_write_fails_item :
  forall (W : Type) (R : Remote W) (s : state W)
         (filepath parent_name rp : string) (vt : option Z) (d : doc)
         (tr : Ledger.t) (e : Ledger.entry) (man_id : Z)
         (existing : option record) (err : string) (w' : W),
    tracker s = Some tr ->
    rp <> "" ->
    Ledger.items (Ledger.progress_data tr) !! rp = Some e ->
    (NetboxModule.ensure_manufacturer
       (NetboxModule.manufacturer_name d parent_name) s).1
    = Ok (Some man_id) ->
    man_id <> 0 ->
    (NetboxModule.find_existing_module_type
       (<["manufacturer" := Scalar (VInt man_id)]>
          (NetboxModule.normalize_payload d)) s).1 = Ok existing ->
    match existing with
    | Some ex =>
        nb_update "module_types" (rec_id ex)
          (<["manufacturer" := Scalar (VInt man_id)]>
             (NetboxModule.normalize_payload d)) (world s) = (Raise err, w')
    | None =>
        nb_create "module_types"
          (<["manufacturer" := Scalar (VInt man_id)]>
             (NetboxModule.normalize_payload d)) (world s) = (Raise err, w')
    end ->
    let payload := <["manufacturer" := Scalar (VInt man_id)]>
                     (NetboxModule.normalize_payload d) in
    let out := NetboxModule.process_doc filepath parent_name (Some rp) vt
                 (YDoc d) s in
    let msg := (match existing with
                | Some _ => "Failed to update: "
                | None => "Failed to create: "
                end) +:+ err in
    out.1 = Ok tt
    /\ calls out.2
       = match existing with
         | Some ex => Update "module_types" (rec_id ex) payload
         | None => Create "module_types" payload
         end :: calls s
    /\ world out.2 = w'
    /\ errlog out.2 = (Some rp, msg) :: errlog s
    /\ tracker out.2 = Some (ModuleTypeTracker.mark_as_failed rp msg tr)
    /\ status_of rp (ModuleTypeTracker.mark_as_failed rp msg tr) = Some Failed.
Proof.
  intros W R s filepath parent_name rp vt d tr e man_id existing err w'
    Htr Hrp He Hman Hne Hfind Hrej payload out msg.
  assert (status_of rp (ModuleTypeTracker.mark_as_failed rp msg tr)
          = Some Failed) as Hst.
  { destruct (mark_as_failed_lookup tr rp msg e He) as (e' & He' & Hs & _).
    unfold status_of. by rewrite He', <- Hs. }
  assert (out = (Ok tt,
                 {| world := w';
                    calls := match existing with
                             | Some ex =>
                                 Update "module_types" (rec_id ex) payload
                             | None => Create "module_types" payload
                             end :: calls s;
                    tracker := Some (ModuleTypeTracker.mark_as_failed rp msg
                                       tr);
                    errlog := (Some rp, msg) :: errlog s |})) as ->.
  { subst out payload msg. unfold NetboxModule.process_doc. unfold bind at 1.
    rewrite (reads_result _ s _ (reads_ensure_manufacturer _) Hman).
    destruct (Z.eqb_spec man_id 0) as [|_]; [done|].
    unfold bind at 1.
    rewrite (reads_result _ s _ (reads_find_existing_module_type _) Hfind).
    destruct existing as [ex|].
    - unfold bind, try_except, Client.update, NetboxModule.write_error_log,
        NetboxModule.tracked, ret. rewrite Hrej. cbn.
      rewrite Htr. by destruct (String.eqb_spec rp "").
    - unfold bind, try_except, Client.create, NetboxModule.write_error_log,
        NetboxModule.tracked, ret. rewrite Hrej. cbn.
      rewrite Htr. by destruct (String.eqb_spec rp ""). }
  cbn. repeat split. exact Hst.
Qed.

Lemma X9_rejected_parent_write_fails_item_witness :
  let s := MemStore.start world_rejecting (Some ledger_one_pending) in
  (NetboxModule.find_existing_module_type payload_m1 s).1 = Ok None
  /\ (NetboxModule.process_doc "/lib/module-types/Acme/m1.yaml" "Acme"
        (Some "Acme/m1.yaml") (Some 2) (YDoc doc_m1) s).1 = Ok tt.
Proof.
  intros s. split; [vm_compute; reflexivity|].
  refine (proj1 (X9_rejected_parent_write_fails_item MemStore.t
                   MemStore.remote s "/lib/module-types/Acme/m1.yaml" "Acme"
                   "Acme/m1.yaml" (Some 2) doc_m1 ledger_one_pending
                   entry_m1_pending 1 None "400 Bad Request" world_rejecting
                   eq_refl ltac:(discriminate) eq_refl _ ltac:(discriminate)
                   _ _)).
  - vm_compute. reflexivity.
  - vm_compute. reflexivity.
  - vm_compute. reflexivity.
Defined.

(** ** The lookups of the entity resolver *)

(** X10: [ensure_manufacturer] only reads.  A name that is false gives
    no manufacturer without any lookup result being used; a manufacturer
    found by exact name is returned whatever the lookup by slug would
    give; and an id that is returned is the id of an entity that the
    lookup by exact name returned or, for a name that is a string, the
    lookup by the slug derived from it. *)
Theorem X10_ensure_manufacturer_sound :
  forall (W : Type) (R : Remote W) (name : node) (s : state W),
    let out := NetboxModule.ensure_manufacturer name s in
    out.2 = s
    /\ (Py.truthy_node name = false -> out.1 = Ok None)
    /\ (forall m,
          Py.truthy_node name = true ->
          nb_get "manufacturers" {["name" := name]} (world s) = Ok (Some m) ->
          out.1 = Ok (Some (rec_id m)))
    /\ (forall id,
          out.1 = Ok (Some id) ->
          exists m,
            rec_id m = id
            /\ (nb_get "manufacturers" {["name" := name]} (world s)
                = Ok (Some m)
                \/ exists x,
                    name = Scalar (VStr x)
                    /\ nb_get "manufacturers"
                         {["slug" := Scalar (VStr (NetboxModule.slugify x))]}
                         (world s) = Ok (Some m))).
Proof.
  intros W R name s out. subst out.
  split; [apply reads_ensure_manufacturer|].
  unfold NetboxModule.ensure_manufacturer.
  destruct (Py.truthy_node name) eqn:Ht; cbn [negb].
  2:{ split; [done|]. split; [done|]. intros id H. discriminate H. }
  split; [done|].
  assert ((exists x, name = Scalar (VStr x))
          \/ exists e, NetboxModule.slugify_obj name = Raise e) as [[x ->]|[e0 He0]].
  { destruct name as [[| | |x]| |];
      first [ left; eexists; reflexivity
            | right; unfold NetboxModule.slugify_obj; rewrite Ht; eauto ]. }
  - unfold bind, try_except, Client.get, ret, lift.
    rewrite slugify_obj_str.
    destruct (nb_get "manufacturers" {["name" := Scalar (VStr x)]} (world s))
      as [[m|]|e] eqn:Hn;
      destruct (nb_get "manufacturers"
                  {["slug" := Scalar (VStr (NetboxModule.slugify x))]}
                  (world s)) as [[m2|]|e2] eqn:Hs; cbn;
      (split; [first [ by intros m' _ [= <-] | done ]|]);
      intros id H; rewrite ?Hs in H; cbn in H; try discriminate H;
      first [ exists m; split; [congruence|]; by left
            | exists m2; split; [congruence|]; right; by exists x ].
  - unfold bind, try_except, Client.get, ret, lift. rewrite He0.
    destruct (nb_get "manufacturers" {["name" := name]} (world s))
      as [[m|]|e] eqn:Hn; cbn;
      (split; [first [ by intros m' _ [= <-] | done ]|]);
      intros id H; try discriminate H.
    exists m. split; [congruence|]. by left.
Qed.

Lemma same_manufacturer_spec man c :
  NetboxModule.same_manufacturer man c = true ->
  exists j, rec_attrs c !! "manufacturer" = Some (Nested j)
            /\ Py.int man = Some j.
Proof.
  unfold NetboxModule.same_manufacturer.
  destruct (rec_attrs c !! "manufacturer") as [[n|i]|]; try done.
  destruct (Py.int man) as [j|]; [|done].
  intros H. apply Z.eqb_eq in H as ->. by exists j.
Qed.

(** X11: [find_existing_module_type] only reads and never raises.  A
    module type that the lookup by a true slug finds is returned before
    model and manufacturer are looked at; and a module type that is
    returned is either what the lookup by slug gave or one of the
    candidates with the model of the payload whose manufacturer is a
    nested entity with the id the payload holds. *)
Theorem X11_find_existing_module_type_sound :
  forall (W : Type) (R : Remote W) (payload : gmap string node)
         (s : state W),
    let out := NetboxModule.find_existing_module_type payload s in
    out.2 = s
    /\ (exists r, out.1 = Ok r)
    /\ (forall sl m,
          payload !! "slug" = Some sl ->
          Py.truthy_node sl = true ->
          nb_get "module_types" {["slug" := sl]} (world s) = Ok (Some m) ->
          out.1 = Ok (Some m))
    /\ (forall mt,
          out.1 = Ok (Some mt) ->
          (exists sl,
              payload !! "slug" = Some sl
              /\ nb_get "module_types" {["slug" := sl]} (world s)
                 = Ok (Some mt))
          \/ (exists mo man cands j,
                payload !! "model" = Some mo
                /\ payload !! "manufacturer" = Some man
                /\ nb_filter "module_types" {["model" := mo]} (world s)
                   = Ok cands
                /\ mt ∈ cands
                /\ rec_attrs mt !! "manufacturer" = Some (Nested j)
                /\ Py.int man = Some j)).
Proof.
  intros W R payload s out.
  assert (exists r,
             out = (Ok r, s)
             /\ (forall sl m,
                   payload !! "slug" = Some sl ->
                   Py.truthy_node sl = true ->
                   nb_get "module_types" {["slug" := sl]} (world s)
                   = Ok (Some m) ->
                   r = Some m)
             /\ (forall mt,
                   r = Some mt ->
                   (exists sl,
                       payload !! "slug" = Some sl
                       /\ nb_get "module_types" {["slug" := sl]} (world s)
                          = Ok (Some mt))
                   \/ (exists mo man cands j,
                         payload !! "model" = Some mo
                         /\ payload !! "manufacturer" = Some man
                         /\ nb_filter "module_types" {["model" := mo]}
                              (world s) = Ok cands
                         /\ mt ∈ cands
                         /\ rec_attrs mt !! "manufacturer" = Some (Nested j)
                         /\ Py.int man = Some j))) as (r & -> & H1 & H2).
  { subst out.
    unfold NetboxModule.find_existing_module_type, bind, try_except,
      Client.get, Client.filter, ret.
    assert (forall cands man mt,
               head (List.filter (NetboxModule.same_manufacturer man) cands)
               = Some mt ->
               mt ∈ cands
               /\ exists j, rec_attrs mt !! "manufacturer" = Some (Nested j)
                            /\ Py.int man = Some j) as Hhead.
    { intros cands man mt H. apply head_Some_elem_of in H.
      apply list_elem_of_In, filter_In in H as [Hin Hsame].
      split; [by apply list_elem_of_In|].
      by apply same_manufacturer_spec. }
    destruct (payload !! "slug") as [sl|] eqn:Hsl;
      [destruct (Py.truthy_node sl) eqn:Ht;
       [destruct (nb_get "module_types" {["slug" := sl]} (world s))
          as [[m|]|e] eqn:Hg|]|]; cbn;
      try (eexists; split; [reflexivity|]; split;
           [intros ? ? ? ? ?; congruence
           |intros mt [= <-]; left; by exists sl]);
      (destruct (payload !! "model") as [mo|] eqn:Hmo;
       [destruct (payload !! "manufacturer") as [man|] eqn:Hman;
        [destruct (Py.truthy_node man);
         [destruct (nb_filter "module_types" {["model" := mo]} (world s))
            as [cands|e'] eqn:Hf|]|]|]); cbn;
      (eexists; split; [reflexivity|]; split;
       [intros ? ? ? ? ?; congruence|]);
      intros mt E; try discriminate E.
    all: right; destruct (Hhead _ _ _ E) as (Hin & j & Hj1 & Hj2);
      by exists mo, man, cands, j. }
  cbn. split; [done|]. split; [eauto|]. split.
  - intros sl m E1 E2 E3. f_equal. by eapply H1.
  - intros mt [= E]. by apply H2.
Qed.

(** ** The cache of sub-templates written in the current run *)



(** ** What one sub-template writes *)

Section component_more.
Context {W : Type} {R : Remote W}.
Import NetboxModule.

Lemma create_it_calls resource (p : gmap string value) (s0 : state W) :
let out := try_except
             (created <- Client.create resource (Client.wire p) ;;
              ret (OCreated (rec_id created)))
             (fun e => ret (OError e)) s0 in
exists o,
  out.1 = Ok o
  /\ calls out.2 = Create resource (Client.wire p) :: calls s0
  /\ tracker out.2 = tracker s0 /\ errlog out.2 = errlog s0
  /\ match o with OCreated _ | OError _ => True | _ => False end.
Proof.
unfold try_except, bind, Client.create, ret.
destruct (nb_create resource (Client.wire p) (world s0)) as [[c|e] w'];
  cbn; eexists; (split; [reflexivity|]); done.
Qed.

Lemma reconcile_template_calls resource mt_id existing p (s : state W) :
let out := reconcile_template resource mt_id existing p s in
exists o news,
  out.1 = Ok o
  /\ calls out.2 = news ++ calls s
  /\ tracker out.2 = tracker s /\ errlog out.2 = errlog s
  /\ calls_for resource p o news.
Proof.
cbv zeta.
destruct (reconcile_template resource mt_id existing p s) as [r s']
  eqn:Hout.
cbn [fst snd]. unfold reconcile_template in Hout.
assert (forall s0 pre,
          try_except
            (created <- Client.create resource (Client.wire p) ;;
             ret (OCreated (rec_id created)))
            (fun e => ret (OError e)) s0 = (r, s') ->
          calls s0 = pre ++ calls s -> tracker s0 = tracker s ->
          errlog s0 = errlog s ->
          exists o,
            r = Ok o
            /\ calls s' = (Create resource (Client.wire p) :: pre)
                          ++ calls s
            /\ tracker s' = tracker s /\ errlog s' = errlog s
            /\ match o with OCreated _ | OError _ => True | _ => False end)
  as Hcreate.
{ intros s0 pre Hrun Hc Ht He.
  destruct (create_it_calls resource p s0) as (o & H1 & H2 & H3 & H4 & H5).
  rewrite Hrun in H1, H2, H3, H4. cbn in H1, H2, H3, H4.
  exists o. rewrite H2, H3, H4, Hc. done. }
assert (forall o, match o with OCreated _ | OError _ => True | _ => False end ->
                  calls_for resource p o [Create resource (Client.wire p)])
  as Hfresh.
{ intros [] ?; try done; by left. }
destruct existing as [ex|].
2:{ destruct (Hcreate s [] Hout eq_refl eq_refl eq_refl)
      as (o & H1 & H2 & H3 & H4 & H5).
    exists o, [Create resource (Client.wire p)]. auto 10. }
destruct (belongs_to mt_id ex).
2:{ destruct (Hcreate s [] Hout eq_refl eq_refl eq_refl)
      as (o & H1 & H2 & H3 & H4 & H5).
    exists o, [Create resource (Client.wire p)]. auto 10. }
unfold bind at 1, try_except at 1 in Hout.
destruct (needs_update ex (delete "module_type" p)).
2:{ cbn in Hout. unfold ret in Hout. simplify_eq.
    exists (OSkipped (rec_id ex)), []. by cbn. }
unfold bind at 1, Client.update at 1 in Hout.
destruct (nb_update resource (rec_id ex)
            (Client.wire (delete "module_type" p)) (world s))
  as [[[]|e] w'] eqn:Hu.
- cbn in Hout. unfold ret in Hout. simplify_eq.
  eexists (OUpdated (rec_id ex)), [_]. by cbn.
- cbn [fst snd] in Hout.
  destruct (Hcreate _
              [Update resource (rec_id ex)
                 (Client.wire (delete "module_type" p))]
              Hout eq_refl eq_refl eq_refl)
    as (o & H1 & H2 & H3 & H4 & H5).
  exists o, [Create resource (Client.wire p);
             Update resource (rec_id ex)
               (Client.wire (delete "module_type" p))].
  repeat (split; [done|]). destruct o; try done; right; by eexists.
Qed.

Lemma rear_port_inl nb_api mt_id cm payload (s : state W) o :
(resolve_rear_port nb_api mt_id cm payload s).1 = Ok (inl o) ->
exists msg, o = OError msg.
Proof.
unfold resolve_rear_port, try_except, bind, Client.filter, lift, ret.
intros H. repeat (case_match; simplify_eq/=); eauto.
Qed.
Lemma rear_port_inr nb_api mt_id cm payload (s : state W) p k :
(resolve_rear_port nb_api mt_id cm payload s).1 = Ok (inr p) ->
k <> "rear_port" -> p !! k = payload !! k.
Proof.
unfold resolve_rear_port, try_except, bind, Client.filter, lift, ret.
intros H Hk.
repeat (case_match; simplify_eq/=);
  rewrite ?lookup_insert_ne by done; done.
Qed.

Lemma rear_port_no_raise nb_api mt_id cm payload (s : state W) e :
(resolve_rear_port nb_api mt_id cm payload s).1 <> Raise e.
Proof.
unfold resolve_rear_port, try_except, bind, Client.filter, lift, ret.
intros H. repeat (case_match; simplify_eq/=).
Qed.

Lemma power_port_keeps nb_api mt_id cm payload (s : state W) :
exists p, (resolve_power_port nb_api mt_id cm payload s).1 = Ok p
          /\ forall k, k <> "power_port" -> p !! k = payload !! k.
Proof.
unfold resolve_power_port, try_except, bind, Client.filter, lift, ret.
repeat (case_match; simplify_eq/=); eexists; (split; [reflexivity|]);
  intros k Hk;
  rewrite ?lookup_delete_ne, ?lookup_insert_ne by done; done.
Qed.

Lemma manufacturer_keeps nb_api payload (s : state W) :
exists p, (resolve_manufacturer nb_api payload s).1 = Ok p
          /\ forall k, k <> "manufacturer" -> p !! k = payload !! k.
Proof.
unfold resolve_manufacturer, try_except, bind.
destruct (payload !! "manufacturer") as [mv|]; [|by eexists].
destruct (negb (Py.truthy mv)); [by eexists|].
destruct ((if nb_api then ensure_manufacturer (Scalar mv) else ret None) s)
  as [[[id|]|e] s1]; cbn.
- destruct (id =? 0); eexists; (split; [reflexivity|]); intros k Hk;
    rewrite ?lookup_delete_ne, ?lookup_insert_ne by done; done.
- eexists; (split; [reflexivity|]); intros k Hk.
  by rewrite lookup_delete_ne.
- eexists; (split; [reflexivity|]); intros k Hk.
  by rewrite lookup_delete_ne.
Qed.

Lemma resolve_references_keeps nb_api mt_id cm payload (s : state W) :
(exists msg, (resolve_references nb_api mt_id cm payload s).1
             = Ok (inl (OError msg)))
\/ exists p, (resolve_references nb_api mt_id cm payload s).1 = Ok (inr p)
             /\ forall k, k <> "rear_port" -> k <> "power_port" ->
                          k <> "manufacturer" -> p !! k = payload !! k.
Proof.
destruct (resolve_references nb_api mt_id cm payload s) as [r s'] eqn:Hout.
cbn [fst]. unfold resolve_references in Hout. unfold bind at 1 in Hout.
pose proof (reads_resolve_rear_port nb_api mt_id cm payload s) as Hs.
destruct (resolve_rear_port nb_api mt_id cm payload s) as [[[o|p1]|e] s1]
  eqn:H1; cbn in Hs; subst s1.
- left. destruct (rear_port_inl nb_api mt_id cm payload s o) as [msg ->];
    [by rewrite H1|]. unfold ret in Hout. simplify_eq. by exists msg.
- right. unfold bind at 1 in Hout.
  pose proof (reads_resolve_power_port nb_api mt_id cm p1 s) as Hs.
  destruct (power_port_keeps nb_api mt_id cm p1 s) as (p2 & H2 & K2).
  destruct (resolve_power_port nb_api mt_id cm p1 s) as [r2 s2];
    cbn in Hs, H2; subst s2 r2.
  unfold bind at 1 in Hout.
  destruct (manufacturer_keeps nb_api p2 s) as (p3 & H3 & K3).
  destruct (resolve_manufacturer nb_api p2 s) as [r3 s3];
    cbn in H3; subst r3. unfold ret in Hout. simplify_eq.
  exists p3. split; [done|]. intros k Ha Hb Hc.
  rewrite K3, K2 by done.
  apply (rear_port_inr nb_api mt_id cm payload s); [by rewrite H1|done].
- exfalso. apply (rear_port_no_raise nb_api mt_id cm payload s e).
  by rewrite H1.
Qed.

Lemma find_template_no_raise resource mt_id p (s : state W) :
exists ex, (find_template resource mt_id p s).1 = Ok ex.
Proof.
unfold find_template, try_except, bind, Client.filter, ret.
repeat (case_match; simplify_eq/=); by eexists.
Qed.

Lemma create_or_update_component_calls resource mt_id item allowed nb_api cm
(s : state W) :
let out := create_or_update_component resource mt_id item allowed nb_api
             cm s in
exists o news,
  out.1 = Ok o
  /\ calls out.2 = news ++ calls s
  /\ tracker out.2 = tracker s /\ errlog out.2 = errlog s
  /\ ((exists msg, o = OError msg /\ news = [])
      \/ exists p,
           calls_for resource p o news
           /\ p !! "module_type" = Some (VInt mt_id)
           /\ forall k, k <> "rear_port" -> k <> "power_port" ->
                        k <> "manufacturer" ->
                        p !! k = build_payload allowed item mt_id !! k).
Proof.
cbv zeta.
destruct (create_or_update_component resource mt_id item
            allowed nb_api cm s) as [r s'] eqn:Hout.
cbn [fst snd]. rewrite create_or_update_component_steps in Hout.
unfold bind at 1 in Hout.
pose proof (reads_resolve_references nb_api mt_id cm
              (build_payload allowed item mt_id) s) as Hs.
destruct (resolve_references_keeps nb_api mt_id cm
            (build_payload allowed item mt_id) s)
  as [[msg H1]|(p & H1 & K)];
  destruct (resolve_references nb_api mt_id cm
              (build_payload allowed item mt_id) s)
    as [r1 s1]; cbn in Hs, H1; subst s1 r1.
- unfold ret in Hout. simplify_eq.
  exists (OError msg), []. repeat (split; [done|]).
  left. by exists msg.
- unfold bind at 1 in Hout.
  pose proof (reads_find_template resource mt_id p s) as Hf.
  destruct (find_template_no_raise resource mt_id p s) as [ex' Hn].
  destruct (find_template resource mt_id p s) as [[ex|e] s2];
    cbn in Hf; subst s2.
  + destruct (reconcile_template_calls resource mt_id ex p s)
      as (o & news & Ho & Hc & Ht & He & Hn').
    rewrite Hout in Ho, Hc, Ht, He. cbn in Ho, Hc, Ht, He.
    exists o, news. repeat (split; [done|]). right. exists p.
    split; [done|]. split; [|done].
    rewrite K by done. by rewrite build_payload_lookup.
  + done.
Qed.

(** The calls one sub-template leaves are calls on its endpoint that
  the parent allows. *)
Lemma calls_for_child resource mt_id p o news :
resource ∈ component_resources ->
p !! "module_type" = Some (VInt mt_id) ->
calls_for resource p o news -> Forall (child_call mt_id) news.
Proof.
intros Hres Hp Hc.
assert (child_call mt_id (Create resource (Client.wire p))) as Hcr.
{ split; [done|]. unfold Client.wire. by rewrite lookup_fmap, Hp. }
assert (forall i, child_call mt_id
                     (Update resource i
                        (Client.wire (delete "module_type" p)))) as Hup.
{ intros i. split; [done|]. unfold Client.wire.
  by rewrite lookup_fmap, lookup_delete_eq. }
destruct o; cbn in Hc.
- destruct Hc as [->|[i ->]]; repeat first [apply Forall_nil_2 | apply Forall_cons_2; [by auto|]].
- subst. repeat first [apply Forall_nil_2 | apply Forall_cons_2; [by auto|]].
- subst. apply Forall_nil_2.
- destruct Hc as [->|[i ->]]; repeat first [apply Forall_nil_2 | apply Forall_cons_2; [by auto|]].
Qed.

Lemma adds_ret {A} P (a : A) : adds P (ret a : M W A).
Proof. intros s. by exists []. Qed.

Lemma adds_raise {A} P e : adds P (raise e : M W A).
Proof. intros s. by exists []. Qed.

Lemma adds_reads {A} P (m : M W A) : reads_only m -> adds P m.
Proof. intros Hm s. exists []. by rewrite Hm. Qed.

Lemma adds_write_error_log P rp msg : adds P (write_error_log (W:=W) rp msg).
Proof. intros s. by exists []. Qed.

Lemma adds_bind {A B} P (m : M W A) (k : A -> M W B) :
adds P m -> (forall a, adds P (k a)) -> adds P (bind m k).
Proof.
intros Hm Hk s. unfold bind. destruct (Hm s) as (n1 & H1 & F1 & T1).
destruct (m s) as [[a|e] s1]; cbn in H1, T1.
- destruct (Hk a s1) as (n2 & H2 & F2 & T2).
  exists (n2 ++ n1). rewrite H2, H1, T2, T1, app_assoc.
  split; [done|]. split; [|done]. by apply Forall_app.
- by exists n1.
Qed.

Lemma adds_fold_m {A B} P (f : A -> B -> M W A) l :
(forall a b, adds P (f a b)) -> forall a, adds P (fold_m f a l).
Proof.
intros Hf. induction l as [|b l IH]; intros a; cbn.
- apply adds_ret.
- apply adds_bind; [apply Hf|apply IH].
Qed.

Lemma adds_create_or_update_component resource mt_id item allowed nb_api cm :
resource ∈ component_resources ->
adds (child_call mt_id)
  (create_or_update_component resource mt_id item allowed nb_api cm).
Proof.
intros Hres s.
destruct (create_or_update_component_calls resource mt_id item allowed
            nb_api cm s)
  as (o & news & Ho & Hc & Ht & He & [(msg & -> & ->)|(p & Hp & Hm & _)]).
- by exists [].
- exists news. split; [done|]. split; [|done].
  by apply (calls_for_child resource mt_id p o).
Qed.

Lemma get_Some_elem {A} k (v : A) (d : list (string * A)) :
Py.get k d = Some v -> (k, v) ∈ d.
Proof.
induction d as [|[k' v'] d IH]; [done|]. rewrite get_cons.
case_decide; intros Hg; simplify_eq; [left|right; auto].
Qed.

Lemma adds_process_components mt_id d rp :
adds (child_call mt_id) (process_components (W:=W) mt_id d rp).
Proof.
unfold process_components.
apply adds_bind; [|intros; apply adds_ret].
apply adds_fold_m. intros acc yaml_key. unfold process_key.
destruct (Py.get yaml_key COMPONENT_MAP) as [[resource_name allowed]|]
  eqn:Hget; [|apply adds_raise].
assert (resource_name ∈ component_resources) as Hres.
{ apply get_Some_elem in Hget. unfold component_resources.
  apply list_elem_of_fmap. by exists (yaml_key, (resource_name, allowed)). }
destruct (Py.get yaml_key d); [|apply adds_ret].
destruct (negb _); [apply adds_ret|].
apply adds_bind; [by apply adds_reads|]. intros available.
destruct (negb available).
- apply adds_bind; [apply adds_write_error_log|intros; apply adds_ret].
- apply adds_fold_m. intros acc' it. unfold process_item.
  destruct it as [v|item]; [apply adds_raise|].
  apply adds_bind; [by apply adds_create_or_update_component|].
  intros []; try apply adds_ret.
  apply adds_bind; [apply adds_write_error_log|intros; apply adds_ret].
Qed.
End component_more.
(** X13: one sub-template never raises, leaves the ledger and the error
    log alone, and writes only to its own endpoint: nothing when it is
    skipped or when its rear port is not found, one update without
    [module_type] when it is updated, and otherwise one create whose
    [module_type] is the id of the parent, after at most one refused
    update.  Apart from the three references the payload keeps what
    was built from the item. *)
Theorem X13_component_write_calls :
  forall {W : Type} {R : Remote W} (resource : string) (mt_id : Z)
         (item : gmap string value) (allowed : list string) (nb_api : bool)
         (cm : gmap string (gmap string Z)) (s : state W),
    let out := NetboxModule.create_or_update_component resource mt_id item
                 allowed nb_api cm s in
    exists o news,
      out.1 = Ok o
      /\ calls out.2 = news ++ calls s
      /\ tracker out.2 = tracker s /\ errlog out.2 = errlog s
      /\ ((exists msg, o = OError msg /\ news = [])
          \/ exists p,
               calls_for resource p o news
               /\ p !! "module_type" = Some (VInt mt_id)
               /\ forall k, k <> "rear_port" -> k <> "power_port" ->
                            k <> "manufacturer" ->
                            p !! k = NetboxModule.build_payload allowed item
                                       mt_id !! k).
Proof.
  intros W R resource mt_id item allowed nb_api cm s.
  apply create_or_update_component_calls.
Qed.

(** X14: whatever the document holds, and whether it ends or raises,
    [process_components] leaves the ledger alone and writes only to the
    endpoints of [COMPONENT_MAP], never to the module type itself: each
    create names the parent as [module_type] and each update leaves
    [module_type] out. *)
Theorem X14_components_write_only_children :
  forall {W : Type} {R : Remote W} (mt_id : Z) (d : doc)
         (relative_path : option string) (s : state W),
    let out := NetboxModule.process_components mt_id d relative_path s in
    tracker out.2 = tracker s
    /\ exists news,
         calls out.2 = news ++ calls s
         /\ Forall (fun c => child_call mt_id c
                             /\ endpoint_of c <> "module_types") news.
Proof.
  intros W R mt_id d rp s. cbv zeta.
  destruct (adds_process_components mt_id d rp s) as (news & Hc & Hf & Ht).
  split; [done|]. exists news. split; [done|].
  eapply Forall_impl; [exact Hf|]. intros c Hchild. split; [done|].
  destruct Hchild as [Hin _]. intros Heq. rewrite Heq in Hin.
  revert Hin. apply (bool_decide_unpack _). vm_compute. exact I.
Qed.

(** ** The import of manufacturers *)

Section import_more.
Context {W : Type} {R : Remote W}.
Import ManufacturerImport.

Lemma counted_refl c : counted c c 0 [].
Proof. unfold counted, total, creates, updates. cbn. repeat split; lia || done. Qed.

Lemma counted_trans c1 c2 c3 n1 n2 l1 l2 :
counted c1 c2 n1 l1 -> counted c2 c3 n2 l2 ->
counted c1 c3 (n1 + n2)%nat (l2 ++ l1).
Proof.
unfold counted, creates, updates.
intros (A1 & B1 & C1 & D1 & E1) (A2 & B2 & C2 & D2 & E2).
rewrite !List.filter_app, !length_app.
split; [lia|]. split; [lia|]. split; [lia|]. split; [lia|].
by apply Forall_app.
Qed.

Lemma process_entry_counted valid_tag c e (s : state W) c' s' :
process_entry valid_tag c e s = (Ok c', s') ->
exists news,
  calls s' = news ++ calls s
  /\ counted c c' (if visible_dir e then 1 else 0) news.
Proof.
unfold process_entry, visible_dir.
destruct (entry_is_dir e); cbn [negb andb];
  [|intros [= <- <-]; exists []; split; [done|apply counted_refl]].
destruct (String.prefix "." (entry_name e)); cbn [negb];
  [intros [= <- <-]; exists []; split; [done|apply counted_refl]|].
unfold tag_existing, bind, try_except, Client.get, Client.create,
  Client.update, lift, ret.
intros H.
repeat (case_match; simplify_eq/=);
  first [ exists []; split; [done|];
          unfold counted, total, creates, updates; cbn;
          repeat split; lia || done
        | eexists [_]; split; [done|];
          unfold counted, total, creates, updates; cbn;
          repeat split; lia || (by repeat constructor) ].
Qed.
Lemma insert_entry_perm e l : insert_entry e l ≡ₚ e :: l.
Proof.
induction l as [|x l IH]; [done|]. cbn.
destruct (String.ltb _ _); [done|]. rewrite IH. apply Permutation_swap.
Qed.

Lemma sorted_perm l : sorted l ≡ₚ l.
Proof.
unfold sorted.
assert (forall acc, foldl (fun acc e => insert_entry e acc) acc l
                    ≡ₚ l ++ acc) as H.
{ induction l as [|e l IH]; intros acc; [done|]. cbn.
  rewrite IH, insert_entry_perm. by rewrite Permutation_middle. }
by rewrite H, app_nil_r.
Qed.

Lemma filter_length_perm {A} (f : A -> bool) (l l' : list A) :
l ≡ₚ l' -> length (List.filter f l) = length (List.filter f l').
Proof.
induction 1 as [|x l l' _ IH|x y l|l l' l'' _ IH1 _ IH2]; cbn.
- done.
- destruct (f x); cbn; by rewrite IH.
- by destruct (f x), (f y).
- by rewrite IH1.
Qed.

Lemma fold_entries_counted valid_tag entries :
forall c (s : state W) c' s',
  NetboxModule.fold_m (process_entry valid_tag) c entries s = (Ok c', s') ->
  exists news,
    calls s' = news ++ calls s
    /\ counted c c' (length (List.filter visible_dir entries)) news.
Proof.
induction entries as [|e entries IH]; intros c s c' s' H; cbn in H.
- unfold ret in H. simplify_eq. exists []. split; [done|apply counted_refl].
- unfold bind in H.
  destruct (process_entry valid_tag c e s) as [[c1|err] s1] eqn:He;
    [|done].
  apply process_entry_counted in He as (n1 & Hc1 & K1).
  apply IH in H as (n2 & Hc2 & K2).
  exists (n2 ++ n1). rewrite Hc2, Hc1, app_assoc. split; [done|].
  cbn [List.filter].
  replace (length (if visible_dir e
                   then e :: List.filter visible_dir entries
                   else List.filter visible_dir entries))
    with ((if visible_dir e then 1 else 0)
          + length (List.filter visible_dir entries))%nat
    by (by destruct (visible_dir e)).
  by apply (counted_trans c c1 c').
Qed.

Lemma fold_dirs_counted valid_tag dirs :
forall c (s : state W) c' s',
  NetboxModule.fold_m
    (fun c types_dir =>
       NetboxModule.fold_m (process_entry valid_tag) c (sorted types_dir))
    c dirs s = (Ok c', s') ->
  exists news,
    calls s' = news ++ calls s
    /\ counted c c' (length (List.filter visible_dir (concat dirs))) news.
Proof.
induction dirs as [|d dirs IH]; intros c s c' s' H; cbn in H.
- unfold ret in H. simplify_eq. exists []. split; [done|apply counted_refl].
- unfold bind in H.
  destruct (NetboxModule.fold_m (process_entry valid_tag) c (sorted d) s)
    as [[c1|err] s1] eqn:He; [|done].
  apply fold_entries_counted in He as (n1 & Hc1 & K1).
  apply IH in H as (n2 & Hc2 & K2).
  exists (n2 ++ n1). rewrite Hc2, Hc1, app_assoc. split; [done|].
  cbn [concat]. rewrite List.filter_app, length_app.
  replace (length (List.filter visible_dir d))
    with (length (List.filter visible_dir (sorted d))).
  + by apply (counted_trans c c1 c').
  + apply filter_length_perm, sorted_perm.
Qed.

Lemma bare_tag_exists tags :
forallb (fun tg => match tg with TagObj _ => true | TagId _ => false end)
        tags = false ->
exists i, TagId i ∈ tags.
Proof.
induction tags as [|[i|i] tags IH]; cbn; [done| |]; intros H.
- destruct (IH H) as [j Hj]. exists j. by right.
- exists i. by left.
Qed.

Lemma get_or_create_valid_tag_calls (s : state W) :
exists vt tagging,
  (get_or_create_valid_tag s).1 = Ok vt
  /\ calls (get_or_create_valid_tag s).2 = tagging ++ calls s
  /\ (tagging = [] \/ exists p, tagging = [Create "tags" p]).
Proof.
unfold get_or_create_valid_tag, bind, try_except, Client.get,
  Client.create, ret.
repeat (case_match; simplify_eq/=);
  first [ by eexists _, []; eauto
        | by eexists _, [_]; eauto 10 ].
Qed.
End import_more.

(** X15: when the import of manufacturers ends, the four counters it
    prints add up to the number of directories met whose name does not
    start with a dot (files and hidden directories count for nothing);
    [created + errors] is the number of create calls, [updated] at most
    the number of update calls, there is at most one write per
    directory, all of them on [manufacturers], and before them at most
    one create of the marker tag. *)
Theorem X15_import_counts_every_directory :
  forall {W : Type} {R : Remote W}
         (input_dirs : list (list ManufacturerImport.dir_entry))
         (s : state W) (c' : ManufacturerImport.counters),
    (ManufacturerImport.import_manufacturers input_dirs s).1 = Ok c' ->
    exists news tagging,
      calls (ManufacturerImport.import_manufacturers input_dirs s).2
      = news ++ tagging ++ calls s
      /\ (tagging = [] \/ exists p, tagging = [Create "tags" p])
      /\ counted ManufacturerImport.zero c'
           (length (List.filter visible_dir (concat input_dirs))) news.
Proof.
  intros W R dirs s c'.
  destruct (ManufacturerImport.import_manufacturers dirs s) as [r s']
    eqn:Hout.
  cbn [fst snd]. intros ->.
  unfold ManufacturerImport.import_manufacturers in Hout.
  unfold bind at 1 in Hout.
  destruct (get_or_create_valid_tag_calls s) as (vt & tagging & H1 & H2 & H3).
  destruct (ManufacturerImport.get_or_create_valid_tag s) as [r1 s1].
  cbn in H1, H2. subst r1.
  apply fold_dirs_counted in Hout as (news & Hc & K).
  exists news, tagging. by rewrite Hc, H2.
Qed.

Lemma X15_import_counts_every_directory_witness :
  exists news tagging,
    calls (ManufacturerImport.import_manufacturers [dir_sample]
             (MemStore.start world_acme None)).2
    = news ++ tagging ++ calls (MemStore.start world_acme None)
    /\ (tagging = [] \/ exists p, tagging = [Create "tags" p])
    /\ counted ManufacturerImport.zero
         {| ManufacturerImport.created := 1;
            ManufacturerImport.skipped := 0;
            ManufacturerImport.updated := 1;
            ManufacturerImport.errors := 0 |}
         (length (List.filter visible_dir (concat [dir_sample]))) news.
Proof.
  apply (X15_import_counts_every_directory [dir_sample]
           (MemStore.start world_acme None)).
  vm_compute. reflexivity.
Defined.

(** X16: the body of the import loop raises only in one situation: the
    marker tag is at hand and the manufacturer found by slug shows a
    tag as a bare id, which the unguarded test for the marker cannot
    read.  Nothing is written for that directory.  Without the marker
    tag the loop never raises. *)
Theorem X16_import_raises_only_on_bare_tag :
  forall {W : Type} {R : Remote W} (valid_tag : option record)
         (c : ManufacturerImport.counters)
         (entry : ManufacturerImport.dir_entry) (s : state W) (msg : string),
    (ManufacturerImport.process_entry valid_tag c entry s).1 = Raise msg ->
    (ManufacturerImport.process_entry valid_tag c entry s).2 = s
    /\ exists vt existing tags i,
         valid_tag = Some vt
         /\ nb_get "manufacturers"
              {["slug" := Scalar (VStr (NetboxManufacturer.slugify
                                          (ManufacturerImport.entry_name
                                             entry)))]}
              (world s) = Ok (Some existing)
         /\ rec_tags existing = Some tags /\ TagId i ∈ tags.
Proof.
  intros W R valid_tag c e s msg.
  destruct (ManufacturerImport.process_entry valid_tag c e s) as [r s']
    eqn:Hout.
  cbn [fst snd]. intros ->. revert Hout.
  unfold ManufacturerImport.process_entry.
  destruct (negb _); [done|]. destruct (String.prefix _ _); [done|].
  unfold bind at 1, try_except at 1, Client.get at 1.
  destruct (nb_get "manufacturers" _ (world s)) as [[ex|]|err] eqn:Hget;
    cbn [ret].
  2,3: unfold try_except, bind, Client.create, ret;
       intros; repeat (case_match; simplify_eq/=).
  unfold ManufacturerImport.tag_existing.
  destruct valid_tag as [vt|].
  2:{ unfold bind, ret. done. }
  destruct (rec_tags ex) as [[|tg tags]|] eqn:Htags.
  1,3: unfold bind, try_except, Client.update, lift, ret;
       intros; repeat (case_match; simplify_eq/=).
  unfold bind at 1, lift at 1, ManufacturerImport.tag_ids at 1.
  destruct (forallb _ (tg :: tags)) eqn:Hall.
  - unfold bind, try_except, Client.update, lift, ret.
    intros; repeat (case_match; simplify_eq/=).
  - cbn. intros [= _ <-]. split; [done|].
    destruct (bare_tag_exists _ Hall) as [i Hi].
    by exists vt, ex, (tg :: tags), i.
Qed.

Lemma X16_import_raises_only_on_bare_tag_witness :
  (ManufacturerImport.process_entry (Some valid_tag) ManufacturerImport.zero
     entry_acme (MemStore.start world_acme_bare_tag None)).2
  = MemStore.start world_acme_bare_tag None
  /\ exists vt existing tags i,
       Some valid_tag = Some vt
       /\ nb_get "manufacturers"
            {["slug" := Scalar (VStr (NetboxManufacturer.slugify
                                        (ManufacturerImport.entry_name
                                           entry_acme)))]}
            (world (MemStore.start world_acme_bare_tag None))
          = Ok (Some existing)
       /\ rec_tags existing = Some tags /\ TagId i ∈ tags.
Proof.
  apply (X16_import_raises_only_on_bare_tag (Some valid_tag)
           ManufacturerImport.zero entry_acme
           (MemStore.start world_acme_bare_tag None)
           "AttributeError: 'int' object has no attribute 'id'").
  vm_compute. reflexivity.
Defined.

(** ** The cleanup of the library *)

Section cleanup_more.
Import MasterCleanup.

Lemma tree_induction (P : tree -> Prop) :
(forall ds fs, Forall (fun d => P d.2) ds -> P (Dir ds fs)) ->
forall t, P t.
Proof.
intros H. fix IH 1. intros [ds fs]. apply H.
revert ds. fix IHds 1. intros [|d ds].
- apply Forall_nil_2.
- apply Forall_cons_2; [apply IH|apply IHds].
Qed.

Lemma walk_eq current ds fs :
walk current (Dir ds fs)
= (((fun f => current ++ [f]) <$> List.filter should_remove_file fs)
     ++ (walk_below current ds).1,
   ((fun d => current ++ [d.1])
      <$> List.filter (fun d => remove_dir d.1) ds)
     ++ (walk_below current ds).2).
Proof. reflexivity. Qed.

Lemma elem_of_List_filter {A} (f : A -> bool) (l : list A) x :
x ∈ List.filter f l <-> f x = true /\ x ∈ l.
Proof. rewrite !list_elem_of_In, filter_In. tauto. Qed.

Lemma walk_below_files current ds f :
f ∈ (walk_below current ds).1
<-> exists d, d ∈ ds /\ remove_dir d.1 = false
              /\ f ∈ (walk (current ++ [d.1]) d.2).1.
Proof.
induction ds as [|d ds IH]; cbn.
- split; [by intros ?%elem_of_nil|]. by intros (d & ?%elem_of_nil & _).
- destruct (remove_dir d.1) eqn:Hd; cbn.
  + rewrite IH. split.
    * intros (x & Hx & K). exists x. split; [by right|done].
    * intros (x & Hx & Hk & K). apply elem_of_cons in Hx as [->|Hx].
      -- congruence.
      -- by exists x.
  + rewrite elem_of_app, IH. split.
    * intros [Hf|(x & Hx & K)].
      -- exists d. split; [by left|done].
      -- exists x. split; [by right|done].
    * intros (x & Hx & Hk & K). apply elem_of_cons in Hx as [->|Hx].
      -- by left.
      -- right. by exists x.
Qed.

Lemma walk_below_dirs current ds f :
f ∈ (walk_below current ds).2
<-> exists d, d ∈ ds /\ remove_dir d.1 = false
              /\ f ∈ (walk (current ++ [d.1]) d.2).2.
Proof.
induction ds as [|d ds IH]; cbn.
- split; [by intros ?%elem_of_nil|]. by intros (d & ?%elem_of_nil & _).
- destruct (remove_dir d.1) eqn:Hd; cbn.
  + rewrite IH. split.
    * intros (x & Hx & K). exists x. split; [by right|done].
    * intros (x & Hx & Hk & K). apply elem_of_cons in Hx as [->|Hx].
      -- congruence.
      -- by exists x.
  + rewrite elem_of_app, IH. split.
    * intros [Hf|(x & Hx & K)].
      -- exists d. split; [by left|done].
      -- exists x. split; [by right|done].
    * intros (x & Hx & Hk & K). apply elem_of_cons in Hx as [->|Hx].
      -- by left.
      -- right. by exists x.
Qed.

Lemma walk_files t :
forall current f,
  f ∈ (walk current t).1
  <-> exists p name ds fs,
        f = current ++ p ++ [name] /\ kept p /\ subtree p t (Dir ds fs)
        /\ name ∈ fs /\ should_remove_file name = true.
Proof.
induction t as [ds fs IH] using tree_induction. intros current f.
rewrite walk_eq. cbn [fst]. rewrite elem_of_app, walk_below_files. split.
- intros [Hf|(d & Hd & Hk & Hf)].
  + apply list_elem_of_fmap in Hf as (name & -> & Hn).
    apply elem_of_List_filter in Hn as [Hr Hn].
    exists [], name, ds, fs. repeat split; try done.
    * apply Forall_nil_2.
    * constructor.
  + rewrite Forall_forall in IH. apply (IH d Hd) in Hf
      as (p & name & ds' & fs' & -> & Kp & Sp & Hn & Hr).
    exists (d.1 :: p), name, ds', fs'. repeat split; try done.
    * by rewrite <- app_assoc.
    * by apply Forall_cons_2.
    * apply (subtree_step d.1 d.2); [by destruct d|done].
- intros (p & name & ds' & fs' & -> & Kp & Sp & Hn & Hr).
  inversion Sp as [|d t' ds0 fs0 p' t'' Hd Sp']; subst.
  + left. apply list_elem_of_fmap. exists name. split; [done|].
    by apply elem_of_List_filter.
  + right. apply Forall_cons in Kp as [Kd Kp].
    exists (d, t'). split; [done|]. split; [done|].
    rewrite Forall_forall in IH. apply (IH (d, t') Hd).
    exists p', name, ds', fs'. repeat split; try done.
    cbn. by rewrite <- app_assoc.
Qed.

Lemma walk_dirs t :
forall current f,
  f ∈ (walk current t).2
  <-> exists p name sub ds fs,
        f = current ++ p ++ [name] /\ kept p /\ subtree p t (Dir ds fs)
        /\ (name, sub) ∈ ds /\ remove_dir name = true.
Proof.
induction t as [ds fs IH] using tree_induction. intros current f.
rewrite walk_eq. cbn [snd]. rewrite elem_of_app, walk_below_dirs. split.
- intros [Hf|(d & Hd & Hk & Hf)].
  + apply list_elem_of_fmap in Hf as ([name sub] & -> & Hn).
    apply elem_of_List_filter in Hn as [Hr Hn].
    exists [], name, sub, ds, fs. repeat split; try done.
    * apply Forall_nil_2.
    * constructor.
  + rewrite Forall_forall in IH. apply (IH d Hd) in Hf
      as (p & name & sub & ds' & fs' & -> & Kp & Sp & Hn & Hr).
    exists (d.1 :: p), name, sub, ds', fs'. repeat split; try done.
    * by rewrite <- app_assoc.
    * by apply Forall_cons_2.
    * apply (subtree_step d.1 d.2); [by destruct d|done].
- intros (p & name & sub & ds' & fs' & -> & Kp & Sp & Hn & Hr).
  inversion Sp as [|d t' ds0 fs0 p' t'' Hd Sp']; subst.
  + left. apply list_elem_of_fmap. exists (name, sub). split; [done|].
    by apply elem_of_List_filter.
  + right. apply Forall_cons in Kp as [Kd Kp].
    exists (d, t'). split; [done|]. split; [done|].
    rewrite Forall_forall in IH. apply (IH (d, t') Hd).
    exists p', name, sub, ds', fs'. repeat split; try done.
    cbn. by rewrite <- app_assoc.
Qed.

Lemma insert_longest_first_perm root p l :
insert_longest_first root p l ≡ₚ p :: l.
Proof.
induction l as [|x l IH]; [done|]. cbn.
case_match; [done|]. rewrite IH. apply Permutation_swap.
Qed.

Lemma sort_longest_first_perm root l : sort_longest_first root l ≡ₚ l.
Proof.
unfold sort_longest_first.
assert (forall acc, foldl (fun acc p => insert_longest_first root p acc)
                          acc l ≡ₚ l ++ acc) as H.
{ induction l as [|e l IH]; intros acc; [done|]. cbn.
  rewrite IH, insert_longest_first_perm. by rewrite Permutation_middle. }
by rewrite H, app_nil_r.
Qed.
Lemma insert_longest_first_sorted root p l :
longest_first root l -> longest_first root (insert_longest_first root p l).
Proof.
induction l as [|x l IH]; cbn.
- intros _. split; [apply Forall_nil_2|done].
- intros [Hx Hl]. case_match eqn:Hlt.
  + apply Nat.ltb_lt in Hlt. cbn. split; [|done].
    apply Forall_cons_2; [unfold text_length; lia|].
    eapply Forall_impl; [exact Hx|]. cbn. unfold text_length. lia.
  + apply Nat.ltb_ge in Hlt. cbn. split; [|by apply IH].
    rewrite insert_longest_first_perm.
    apply Forall_cons_2; [by unfold text_length|done].
Qed.

Lemma sort_longest_first_sorted root l :
longest_first root (sort_longest_first root l).
Proof.
unfold sort_longest_first.
assert (forall acc, longest_first root acc ->
                    longest_first root
                      (foldl (fun acc p => insert_longest_first root p acc)
                             acc l)) as H.
{ induction l as [|e l IH]; intros acc Hacc; [done|]. cbn.
  by apply IH, insert_longest_first_sorted. }
by apply H.
Qed.

(** Nothing that is listed lies below a directory that is listed. *)
Lemma listed_not_below p name q last :
kept q -> remove_dir name = true ->
(p ++ [name]) `prefix_of` (q ++ [last]) -> q ++ [last] = p ++ [name].
Proof.
intros Kq Hr [k Hk]. destruct k as [|z k _] using rev_ind.
- by rewrite app_nil_r in Hk.
- exfalso. rewrite !app_assoc in Hk. apply app_inj_tail in Hk as [-> _].
  unfold kept in Kq. rewrite Forall_forall in Kq.
  assert (remove_dir name = false) as Hn; [|congruence].
  apply Kq. rewrite !elem_of_app, list_elem_of_singleton. auto.
Qed.

Lemma prefix_app_l a b s :
String.prefix (a +:+ b) s = true -> String.prefix a s = true.
Proof.
revert s. induction a as [|c a IH]; intros s; [by destruct s|].
destruct s as [|c' s]; [done|].
change (String c a +:+ b) with (String c (a +:+ b)). cbn.
destruct (ascii_dec c c'); [apply IH|done].
Qed.
End cleanup_more.

(** X17: whether a file is removed depends on its lowered name only,
    and of the four entries of [README_PREFIXES] only [readme] counts:
    a file is removed when its lowered name starts with a dot, is one
    of the license, requirements and contributing names, is [readme],
    or starts with [readme.]; a name that goes on after [readme]
    without a dot is kept. *)
Theorem X17_should_remove_file_names :
  forall name : string,
    MasterCleanup.should_remove_file name
    = removable_name (PyStr.lower name).
Proof.
  intros name. unfold MasterCleanup.should_remove_file, removable_name.
  set (n := PyStr.lower name).
  destruct (String.prefix "." n); [done|].
  unfold MasterCleanup.LICENSE_PATTERNS,
    MasterCleanup.REQUIREMENTS_FILENAMES,
    MasterCleanup.CONTRIBUTING_FILENAMES, MasterCleanup.README_PREFIXES,
    Py.str_in.
  cbn [existsb orb].
  destruct (String.eqb n "license"); [done|].
  destruct (String.eqb n "license.txt"); [done|].
  destruct (String.eqb n "license.md"); [done|].
  destruct (String.eqb n "license.rst"); [done|].
  destruct (String.eqb n "requirements.txt"); [done|].
  destruct (String.eqb n "contributing"); [done|].
  destruct (String.eqb n "contributing.md"); [done|].
  destruct (String.eqb n "contributing.txt"); [done|].
  cbn [orb].
  destruct (String.eqb n "readme"); [done|]. cbn [orb].
  change ("readme" +:+ ".") with "readme.".
  destruct (String.prefix "readme." n) eqn:Hp; [done|]. cbn [orb].
  assert (forall suf, String.prefix ("readme." +:+ suf) n = false) as Hsuf.
  { intros suf. destruct (String.prefix ("readme." +:+ suf) n) eqn:Hs;
      [|done]. apply prefix_app_l in Hs. congruence. }
  assert (forall suf, String.eqb n ("readme." +:+ suf) = false) as Heq.
  { intros suf. destruct (String.eqb_spec n ("readme." +:+ suf)) as [E|];
      [|done]. rewrite E in Hp. destruct suf; vm_compute in Hp; done. }
  change "readme.md" with ("readme." +:+ "md").
  change "readme.txt" with ("readme." +:+ "txt").
  change "readme.rst" with ("readme." +:+ "rst").
  change (("readme." +:+ "md") +:+ ".") with ("readme." +:+ "md.").
  change (("readme." +:+ "txt") +:+ ".") with ("readme." +:+ "txt.").
  change (("readme." +:+ "rst") +:+ ".") with ("readme." +:+ "rst.").
  by rewrite !Hsuf, !Heq.
Qed.

(** X18: [collect_targets] lists exactly the files whose name is to be
    removed and the directories whose name is to be removed that are
    reached through directories it keeps: nothing inside a directory
    listed for removal is looked at, and nothing else is left out. *)
Theorem X18_collect_targets_exact :
  forall (root : string) (t : MasterCleanup.tree) (x : MasterCleanup.path),
    (x ∈ (MasterCleanup.collect_targets root t).1 <-> listed_file t x)
    /\ (x ∈ (MasterCleanup.collect_targets root t).2 <-> listed_dir t x).
Proof.
  intros root t x. unfold MasterCleanup.collect_targets. cbn [fst snd].
  rewrite sort_longest_first_perm. split.
  - rewrite walk_files. unfold listed_file. by setoid_rewrite app_nil_l.
  - rewrite walk_dirs. unfold listed_dir. by setoid_rewrite app_nil_l.
Qed.

(** X19: the directories [collect_targets] returns are those the walk
    found, none lost and none doubled, the longest path first; and no
    file or directory that is returned lies below a directory that is
    returned, so that the order never has a parent to put after its
    children. *)
Theorem X19_collect_targets_longest_first_no_nesting :
  forall (root : string) (t : MasterCleanup.tree),
    let files := (MasterCleanup.collect_targets root t).1 in
    let dirs := (MasterCleanup.collect_targets root t).2 in
    longest_first root dirs
    /\ dirs ≡ₚ (MasterCleanup.walk [] t).2
    /\ forall d x, d ∈ dirs -> x ∈ dirs \/ x ∈ files ->
                   d `prefix_of` x -> x = d.
Proof.
  intros root t. cbv zeta. unfold MasterCleanup.collect_targets.
  cbn [fst snd]. split; [apply sort_longest_first_sorted|].
  split; [apply sort_longest_first_perm|].
  intros d x Hd Hx Hpre. rewrite sort_longest_first_perm in Hd, Hx.
  apply walk_dirs in Hd as (p & name & sub & ds & fs & -> & Kp & _ & _ & Hr).
  cbn [app] in *.
  destruct Hx as [Hx|Hx].
  - apply walk_dirs in Hx as (q & n' & ? & ? & ? & -> & Kq & _).
    cbn [app] in *. by apply listed_not_below.
  - apply walk_files in Hx as (q & n' & ? & ? & -> & Kq & _).
    cbn [app] in *. by apply listed_not_below.
Qed.

(** ** The run of the scripts *)

Section main_more.
Context {H : Type} (run : list string -> H -> res bool * H).

Lemma run_all_traced l :
forall (st : (H * list (list string)) * list Main.line),
  exists ok rest ending,
    l = ok ++ rest
    /\ rev (Main.run_all (traced run) l st).2.2
       = rev st.2 ++ passed ok ++ ending
    /\ rev (Main.run_all (traced run) l st).2.1.2
       = rev st.1.2 ++ (command_of <$> (ok ++ take 1 rest))
    /\ match (Main.run_all (traced run) l st).1 with
       | Ok _ =>
           (rest = [] /\ ending = [Main.AllOk])
           \/ exists failing later,
                rest = failing :: later
                /\ ending = [Main.Running failing;
                             Main.ErrorRunning failing;
                             Main.Stopped failing]
       | Raise _ =>
           exists failing later,
             rest = failing :: later /\ ending = [Main.Running failing]
       end.
Proof.
induction l as [|script l IH]; intros st.
- exists [], [], [Main.AllOk]. cbn. split; [done|]. split; [done|].
  split; [by rewrite app_nil_r|]. by left.
- assert (Main.run_all (traced run) (script :: l) st
          = match run (command_of script) st.1.1 with
            | (Ok true, h) =>
                Main.run_all (traced run) l
                  ((h, command_of script :: st.1.2),
                   Main.Completed script :: Main.Running script :: st.2)
            | (Ok false, h) =>
                (Ok tt, ((h, command_of script :: st.1.2),
                         Main.Stopped script :: Main.ErrorRunning script
                           :: Main.Running script :: st.2))
            | (Raise e, h) =>
                (Raise e, ((h, command_of script :: st.1.2),
                           Main.Running script :: st.2))
            end) as ->.
  { cbn [Main.run_all]. unfold Main.run_script.
    assert ((if String.eqb script "master_cleanup.py"
             then [script] ++ ["--yes"] else [script]) = command_of script)
      as ->.
    { unfold command_of. by destruct (String.eqb _ _). }
    unfold traced. cbn [fst snd].
    by destruct (run (command_of script) st.1.1) as [[[]|e] h]. }
  destruct (run (command_of script) st.1.1) as [[[]|e] h] eqn:Hrun;
    cbn [fst snd].
  + destruct (IH ((h, command_of script :: st.1.2),
                  Main.Completed script :: Main.Running script :: st.2))
      as (ok & rest & ending & -> & Hout & Hcmd & Hres).
    exists (script :: ok), rest, ending. split; [done|].
    split; [|split; [|done]].
    * rewrite Hout. cbn. unfold passed. cbn. by rewrite <- !app_assoc.
    * rewrite Hcmd. cbn. by rewrite <- !app_assoc.
  + exists [], (script :: l),
      [Main.Running script; Main.ErrorRunning script; Main.Stopped script].
    cbn. split; [done|]. split; [by rewrite <- !app_assoc|].
    split; [done|]. right. by exists script, l.
  + exists [], (script :: l), [Main.Running script].
    cbn. split; [done|]. split; [done|]. split; [done|].
    by exists script, l.
Qed.
End main_more.

(** X20: on any host, [main] starts the scripts in the order of its
    list, the cleanup with [--yes] and the others without argument,
    and stops at the first that fails: the scripts before it ran to
    their end, it is the last one started, and none after it is
    started.  The last line tells which one failed, or that all
    passed; an exception other than a failed process ends [main]
    after the script is announced. *)
Theorem X20_scripts_stop_at_first_failure :
  forall {H : Type} (run : list string -> H -> res bool * H) (h : H),
    let out := Main.main (traced run) (h, []) in
    exists ok rest ending,
      Main.scripts = ok ++ rest
      /\ rev out.2.2 = passed ok ++ ending
      /\ rev out.2.1.2 = command_of <$> (ok ++ take 1 rest)
      /\ match out.1 with
         | Ok _ =>
             (rest = [] /\ ending = [Main.AllOk])
             \/ exists failing later,
                  rest = failing :: later
                  /\ ending = [Main.Running failing;
                               Main.ErrorRunning failing;
                               Main.Stopped failing]
         | Raise _ =>
             exists failing later,
               rest = failing :: later /\ ending = [Main.Running failing]
         end.
Proof.
  intros H run h. cbv zeta. unfold Main.main.
  destruct (run_all_traced run Main.scripts ((h, []), []))
    as (ok & rest & ending & H1 & H2 & H3 & H4).
  by exists ok, rest, ending.
Qed.

(** ** The summary after a reset *)

(** X21: once the progress is reset (the answer [yes], in any case of
    letters), the summary of the device tracker prints its first six
    lines and ends in a division by zero, where the summary of the
    module tracker prints a progress of zero and returns.  After a
    scan that succeeded the summary of the device tracker returns. *)
Theorem X21_summary_after_reset :
  forall (response : string) (removed : option bool)
         (tr tr_d tr_m : Ledger.t),
    DeviceTypeSummary.reset_progress response removed tr = Ok tr_d ->
    ModuleTypeSummary.reset_progress response removed tr = Ok tr_m ->
    PyStr.lower response = "yes" ->
    DeviceTypeSummary.print_summary tr_d
    = ([ Header; TotalFound 0; SuccessfullyCreated 0; FailedLine 0;
         SkippedLine 0; PendingLine 0 ],
       Raise "ZeroDivisionError: division by zero")
    /\ (ModuleTypeSummary.print_summary tr_m).2 = Ok tt
    /\ ProgressZero ∈ (ModuleTypeSummary.print_summary tr_m).1
    /\ forall dir tr0 tr1,
         DeviceTypeTracker.scan_device_types dir tr0 = (true, tr1) ->
         (DeviceTypeSummary.print_summary tr1).2 = Ok tt.
Proof.
  intros response removed tr tr_d tr_m Hd Hm Hyes.
  unfold DeviceTypeSummary.reset_progress in Hd.
  unfold ModuleTypeSummary.reset_progress in Hm.
  rewrite Hyes, String.eqb_refl in Hd. rewrite Hyes, String.eqb_refl in Hm.
  assert (tr_d = {| Ledger.progress_data :=
                      DeviceTypeTracker.load_progress None (Ledger.clock tr);
                    Ledger.tracking_file := None;
                    Ledger.writes := Ledger.writes tr;
                    Ledger.fs_ok := Ledger.fs_ok tr;
                    Ledger.clock := Ledger.clock tr + 2 |}) as ->.
  { destruct removed as [[]|]; congruence. }
  assert (tr_m = {| Ledger.progress_data :=
                      ModuleTypeTracker.load_progress None (Ledger.clock tr);
                    Ledger.tracking_file := None;
                    Ledger.writes := Ledger.writes tr;
                    Ledger.fs_ok := Ledger.fs_ok tr;
                    Ledger.clock := Ledger.clock tr + 2 |}) as ->.
  { destruct removed as [[]|]; congruence. }
  split; [|split; [|split]].
  - unfold DeviceTypeSummary.print_summary,
      DeviceTypeTracker.get_pending_device_types, Ledger.count_status.
    cbn. by rewrite map_to_list_empty.
  - done.
  - unfold ModuleTypeSummary.print_summary. cbn.
    do 6 right. left.
  - intros dir tr0 tr1 Hscan.
    unfold DeviceTypeTracker.scan_device_types in Hscan.
    destruct dir as [[|f files]|]; [done| |done].
    injection Hscan as <-.
    unfold DeviceTypeSummary.print_summary. cbn. done.
Qed.

Lemma X21_summary_after_reset_witness :
  DeviceTypeSummary.print_summary
    {| Ledger.progress_data := DeviceTypeTracker.load_progress None 2;
       Ledger.tracking_file := None; Ledger.writes := 0;
       Ledger.fs_ok := true; Ledger.clock := 4 |}
  = ([ Header; TotalFound 0; SuccessfullyCreated 0; FailedLine 0;
       SkippedLine 0; PendingLine 0 ],
     Raise "ZeroDivisionError: division by zero")
  /\ (ModuleTypeSummary.print_summary
        {| Ledger.progress_data := ModuleTypeTracker.load_progress None 2;
           Ledger.tracking_file := None; Ledger.writes := 0;
           Ledger.fs_ok := true; Ledger.clock := 4 |}).2 = Ok tt
  /\ ProgressZero
     ∈ (ModuleTypeSummary.print_summary
          {| Ledger.progress_data := ModuleTypeTracker.load_progress None 2;
             Ledger.tracking_file := None; Ledger.writes := 0;
             Ledger.fs_ok := true; Ledger.clock := 4 |}).1
  /\ forall dir tr0 tr1,
       DeviceTypeTracker.scan_device_types dir tr0 = (true, tr1) ->
       (DeviceTypeSummary.print_summary tr1).2 = Ok tt.
Proof.
  apply (X21_summary_after_reset "YES" (Some true) ledger_one_pending).
  - vm_compute. reflexivity.
  - vm_compute. reflexivity.
  - vm_compute. reflexivity.
Defined.

(** ** The search for an existing rack type *)

(** X22: [find_existing_rack_type] only reads.  It raises only with
    the exception of its lookup by slug or of its search by model: a
    failure of the lookup by id is passed over.  A rack type that it
    returns is what the lookup by the id of the payload gave, or what
    the lookup by its slug gave, or a candidate with the model of the
    payload whose manufacturer is a nested entity with the id the
    payload holds. *)
Theorem X22_find_existing_rack_type_sound :
  forall (W : Type) (R : Remote W) (payload : gmap string node)
         (s : state W),
    let out := RackLookup.find_existing_rack_type payload s in
    out.2 = s
    /\ (forall e,
          out.1 = Raise e ->
          (exists sl,
              payload !! "slug" = Some sl
              /\ nb_get "rack_types" {["slug" := sl]} (world s) = Raise e)
          \/ (exists mo,
                payload !! "model" = Some mo
                /\ nb_filter "rack_types" {["model" := mo]} (world s)
                   = Raise e))
    /\ (forall rt,
          out.1 = Ok (Some rt) ->
          (exists i z,
              payload !! "id" = Some i /\ Py.int i = Some z
              /\ nb_get "rack_types" {["id" := Scalar (VInt z)]} (world s)
                 = Ok (Some rt))
          \/ (exists sl,
                payload !! "slug" = Some sl
                /\ nb_get "rack_types" {["slug" := sl]} (world s)
                   = Ok (Some rt))
          \/ (exists mo man cands j,
                payload !! "model" = Some mo
                /\ payload !! "manufacturer" = Some man
                /\ nb_filter "rack_types" {["model" := mo]} (world s)
                   = Ok cands
                /\ rt ∈ cands
                /\ rec_attrs rt !! "manufacturer" = Some (Nested j)
                /\ Py.int man = Some j)).
Proof.
  intros W R payload s. cbv zeta.
  destruct (RackLookup.find_existing_rack_type payload s) as [r s'] eqn:Hout.
  cbn [fst snd]. unfold RackLookup.find_existing_rack_type in Hout.
  unfold bind, try_except, Client.get, Client.filter, lift, ret in Hout.
  split; [|split].
  - repeat (case_match; simplify_eq/=); done.
  - intros e ->.
    repeat (case_match; simplify_eq/=); try by eauto 10.
  - intros rt ->.
    repeat (case_match; simplify_eq/=); try by eauto 10.
    all: right; right;
      match goal with
      | H : head (List.filter _ ?c) = Some _ |- _ =>
          apply head_Some_elem_of, list_elem_of_In, filter_In in H
            as [Hin Hsame]
      end;
      unfold NetboxModule.same_manufacturer in Hsame;
      repeat (case_match; simplify_eq/=);
      apply Z.eqb_eq in Hsame as ->;
      do 4 eexists; repeat split; eauto; by apply list_elem_of_In.
Qed.
